(** * bingo-card-server: the request handlers over a relational store

    A shallow embedding of the handlers of [database.js] (the latest server
    and schema revision kept in that file) and of [server.js].  Tables are
    lists of rows in rowid order, prepared statements are functions over the
    store, and every handler is a function from the store and the decoded
    request to a response and, when it writes, the next store. *)

From Stdlib Require Import ZArith String Ascii List.
From stdpp Require Import base option list strings gmap sorting.

Open Scope string_scope.
Open Scope Z_scope.

(** ** Schema *)

(** [CHECK(status IN ('pending', 'accepted'))], shared by [friendships] and
    [group_members]. *)
Inductive status := pending | accepted.

(** [CHECK(role IN ('admin', 'member'))]. *)
Inductive role := admin | member.

#[global] Instance status_eq_dec : EqDecision status.
Proof. solve_decision. Defined.

#[global] Instance role_eq_dec : EqDecision role.
Proof. solve_decision. Defined.

Module Users.
Record row := mk {
  id : Z;
  name : string;
  username : option string;
  email : string;
  password : string;
  is_admin : Z;
  created_at : Z
}.

(** The columns [SELECT id, name, username, email, created_at] keeps. *)
Record summary := mkSummary {
  s_id : Z;
  s_name : string;
  s_username : option string;
  s_email : string;
  s_created_at : Z
}.

Definition summarize (u : row) : summary :=
  mkSummary (id u) (name u) (username u) (email u) (created_at u).
End Users.

Module BingoCards.
Record row := mk {
  id : Z;
  user_id : Z;
  size : Z;
  grid_data : string;
  completed_data : string;
  created_at : Z;
  updated_at : Z
}.
End BingoCards.

Module Friendships.
Record row := mk {
  id : Z;
  user1_id : Z;
  user2_id : Z;
  status : status;
  created_at : Z
}.
End Friendships.

Module Comments.
Record row := mk {
  id : Z;
  author_id : Z;
  card_owner_id : Z;
  row_ : Z;
  col : Z;
  text : string;
  is_private : Z;
  created_at : Z
}.
End Comments.

Module Reactions.
Record row := mk {
  id : Z;
  comment_id : Z;
  user_id : Z;
  emoji : string;
  created_at : Z
}.
End Reactions.

Module Groups.
Record row := mk {
  id : Z;
  name : string;
  creator_id : Z;
  created_at : Z
}.
End Groups.

Module GroupMembers.
Record row := mk {
  id : Z;
  group_id : Z;
  user_id : Z;
  role : role;
  status : status;
  joined_at : Z
}.
End GroupMembers.

Module GroupComments.
Record row := mk {
  id : Z;
  group_id : Z;
  user_id : Z;
  text : string;
  created_at : Z
}.
End GroupComments.

Module GroupCommentReactions.
Record row := mk {
  id : Z;
  group_comment_id : Z;
  user_id : Z;
  emoji : string;
  created_at : Z
}.
End GroupCommentReactions.

(** The database file: one list per table, the [sqlite_sequence] bookkeeping
    of the AUTOINCREMENT keys, and the module-level flag
    [hasUsernameColumn] probed when the statements are prepared. *)
Record Db := mkDb {
  users : list Users.row;
  bingo_cards : list BingoCards.row;
  friendships : list Friendships.row;
  comments : list Comments.row;
  reactions : list Reactions.row;
  groups : list Groups.row;
  group_members : list GroupMembers.row;
  group_comments : list GroupComments.row;
  group_comment_reactions : list GroupCommentReactions.row;
  sqlite_sequence : gmap string Z;
  hasUsernameColumn : bool
}.

Definition set_bingo_cards (db : Db) (t : list BingoCards.row) : Db :=
  mkDb (users db) t (friendships db) (comments db) (reactions db) (groups db)
       (group_members db) (group_comments db) (group_comment_reactions db)
       (sqlite_sequence db) (hasUsernameColumn db).

Definition set_friendships (db : Db) (t : list Friendships.row) : Db :=
  mkDb (users db) (bingo_cards db) t (comments db) (reactions db) (groups db)
       (group_members db) (group_comments db) (group_comment_reactions db)
       (sqlite_sequence db) (hasUsernameColumn db).

Definition set_reactions (db : Db) (t : list Reactions.row) : Db :=
  mkDb (users db) (bingo_cards db) (friendships db) (comments db) t (groups db)
       (group_members db) (group_comments db) (group_comment_reactions db)
       (sqlite_sequence db) (hasUsernameColumn db).

Definition set_group_members (db : Db) (t : list GroupMembers.row) : Db :=
  mkDb (users db) (bingo_cards db) (friendships db) (comments db) (reactions db)
       (groups db) t (group_comments db) (group_comment_reactions db)
       (sqlite_sequence db) (hasUsernameColumn db).

Definition set_sqlite_sequence (db : Db) (s : gmap string Z) : Db :=
  mkDb (users db) (bingo_cards db) (friendships db) (comments db) (reactions db)
       (groups db) (group_members db) (group_comments db)
       (group_comment_reactions db) s (hasUsernameColumn db).

Definition set_users (db : Db) (t : list Users.row) : Db :=
  mkDb t (bingo_cards db) (friendships db) (comments db) (reactions db) (groups db)
       (group_members db) (group_comments db) (group_comment_reactions db)
       (sqlite_sequence db) (hasUsernameColumn db).

Definition set_comments (db : Db) (t : list Comments.row) : Db :=
  mkDb (users db) (bingo_cards db) (friendships db) t (reactions db) (groups db)
       (group_members db) (group_comments db) (group_comment_reactions db)
       (sqlite_sequence db) (hasUsernameColumn db).

Definition set_groups (db : Db) (t : list Groups.row) : Db :=
  mkDb (users db) (bingo_cards db) (friendships db) (comments db) (reactions db) t
       (group_members db) (group_comments db) (group_comment_reactions db)
       (sqlite_sequence db) (hasUsernameColumn db).

(** [INTEGER PRIMARY KEY AUTOINCREMENT]: one more than the largest rowid the
    table holds or has ever held. *)
Definition next_rowid (db : Db) (table : string) (ids : list Z) : Z :=
  Z.max (default 0 (sqlite_sequence db !! table)) (foldr Z.max 0 ids) + 1.

Definition bump_sequence (db : Db) (table : string) (rowid : Z) : Db :=
  set_sqlite_sequence db (<[table := rowid]> (sqlite_sequence db)).

(** ** Responses *)

(** The JSON values a request body carries. *)
Unset Elimination Schemes.
Inductive json :=
| JNull
| JBool (b : bool)
| JNum (n : Z)
| JStr (s : string)
| JArr (items : list json)
| JObj (fields : list (string * json)).
Set Elimination Schemes.

(** JavaScript truthiness of an optional body field ([None] is
    [undefined]). *)
Definition truthy (v : option json) : bool :=
  match v with
  | None | Some JNull | Some (JBool false) => false
  | Some (JNum n) => negb (n =? 0)
  | Some (JStr s) => negb (String.eqb s "")
  | Some _ => true
  end.

Definition truthy_string (v : option string) : bool :=
  match v with
  | Some s => negb (String.eqb s "")
  | None => false
  end.

Record card_view := mkCardView {
  cv_size : Z;
  cv_grid : json;
  cv_completed : json;
  cv_createdAt : Z;
  cv_updatedAt : Z
}.

Record analytics_view := mkAnalytics {
  totalUsers : Z;
  totalCards : Z;
  totalGroups : Z;
  totalComments : Z;
  recentUsers : list Users.summary
}.

Inductive body :=
| Error (error : string)
| Message (message : string)
| Card (card : card_view)
| CommentList (comments : list (Comments.row * string))
| ReactionMap (reactions : gmap string (list string))
| Analytics (analytics : analytics_view).

Record response := mkResponse { code : Z; payload : body }.

(** [res.status(n).json({ error })] and [res.json(...)], whose status is
    200. *)
Definition fail (n : Z) (msg : string) : response := mkResponse n (Error msg).
Definition ok (b : body) : response := mkResponse 200 b.

(** The error taxonomy of the specification, by HTTP status. *)
Inductive error_kind :=
| BadRequest | Unauthorized | Forbidden | NotFound | Conflict | Internal.

Definition error_kind_of (n : Z) : option error_kind :=
  if n =? 400 then Some BadRequest
  else if n =? 401 then Some Unauthorized
  else if n =? 403 then Some Forbidden
  else if n =? 404 then Some NotFound
  else if n =? 409 then Some Conflict
  else if n =? 500 then Some Internal
  else None.

Definition kind (r : response) : option error_kind := error_kind_of (code r).

(** ** JavaScript helpers *)

(** [s.split(sep)] for a one-character separator. *)
Fixpoint split (s : string) (sep : ascii) : list string :=
  match s with
  | EmptyString => [""]
  | String c s' =>
      if Ascii.eqb c sep then "" :: split s' sep
      else match split s' sep with
           | w :: ws => String c w :: ws
           | [] => [String c ""]
           end
  end.

(** [s.includes(sub)]. *)
Fixpoint includes (s sub : string) : bool :=
  String.prefix sub s ||
  match s with
  | EmptyString => false
  | String _ s' => includes s' sub
  end.

(** The members every object literal inherits from [Object.prototype]; each
    of them is a function, or for [__proto__] the prototype object itself, so
    each is truthy and none has a [push] method. *)
Definition Object_prototype_keys : list string :=
  [ "constructor"; "__defineGetter__"; "__defineSetter__"; "hasOwnProperty";
    "__lookupGetter__"; "__lookupSetter__"; "isPrototypeOf";
    "propertyIsEnumerable"; "toString"; "valueOf"; "__proto__";
    "toLocaleString" ].

(** ** Prepared statements *)

(** What [stmt.run] gives back: the store after the write with
    [lastInsertRowid], or the SqliteError it throws. *)
Inductive run_result :=
| Done (db : Db) (lastInsertRowid : Z)
| SqliteError (message : string).

(** [stmt.get(...)]: the first row of the result, or [undefined].  SQL
    leaves the order of an unordered result open; rows are taken in rowid
    order here, and what is proved about a [get] that several rows could
    answer is proved under the uniqueness that leaves it one row. *)
Definition get {A} (rows : list A) : option A := head rows.

(** [ORDER BY key ASC] and [ORDER BY key DESC], as the relations the result
    is sorted by. *)
Definition order_asc {A} (key : A -> Z) : relation A := λ x y, key x ≤ key y.
Definition order_desc {A} (key : A -> Z) : relation A := λ x y, key y ≤ key x.

#[global] Instance order_asc_dec {A} (key : A -> Z) : RelDecision (order_asc key).
Proof. intros x y. unfold order_asc. apply _. Defined.

#[global] Instance order_desc_dec {A} (key : A -> Z) : RelDecision (order_desc key).
Proof. intros x y. unfold order_desc. apply _. Defined.

(** [JOIN users u ON key = u.id], keeping [u.name]. *)
Definition join_user_name {A} (db : Db) (key : A -> Z) (rows : list A)
  : list (A * string) :=
  r ← rows;
  u ← filter (λ u, Users.id u = key r) (users db);
  [(r, Users.name u)].

Module userQueries.

Definition findByEmail (db : Db) (email : string) : option Users.row :=
  get (filter (λ u, Users.email u = email) (users db)).

(** Prepared only when the [username] column exists. *)
Definition findByUsername (db : Db) : option (string -> option Users.row) :=
  if hasUsernameColumn db
  then Some (λ username,
         get (filter (λ u, Users.username u = Some username) (users db)))
  else None.

Definition findById (db : Db) (id : Z) : option Users.row :=
  get (filter (λ u, Users.id u = id) (users db)).

(** The insert both [create] and [createWithUsername] run, under
    [email TEXT UNIQUE NOT NULL]; [is_admin] takes its default 0. *)
Definition insert (db : Db) (now : Z) (name : string) (username : option string)
    (email password : string) : run_result :=
  if bool_decide (email ∈ Users.email <$> users db)
  then SqliteError "UNIQUE constraint failed: users.email"
  else
    let rowid := next_rowid db "users" (Users.id <$> users db) in
    Done (bump_sequence
            (set_users db
               (users db ++ [Users.mk rowid name username email password 0 now]))
            "users" rowid)
         rowid.

(** [INSERT INTO users (name, email, password)]. *)
Definition create (db : Db) (now : Z) (name email password : string) : run_result :=
  insert db now name None email password.

(** [INSERT INTO users (name, username, email, password)], prepared only
    when the [username] column exists. *)
Definition createWithUsername (db : Db)
  : option (Z -> string -> string -> string -> string -> run_result) :=
  if hasUsernameColumn db
  then Some (λ now name username email password,
               insert db now name (Some username) email password)
  else None.

End userQueries.

Module cardQueries.

Definition findByUserId (db : Db) (user_id : Z) : option BingoCards.row :=
  get (filter (λ c, BingoCards.user_id c = user_id) (bingo_cards db)).

(** [INSERT INTO bingo_cards (user_id, size, grid_data, completed_data)];
    the owner must exist ([FOREIGN KEY (user_id) REFERENCES users(id)]). *)
Definition create (db : Db) (now user_id size : Z) (grid_data completed_data : string)
  : run_result :=
  if bool_decide (user_id ∈ Users.id <$> users db) then
    let rowid := next_rowid db "bingo_cards" (BingoCards.id <$> bingo_cards db) in
    Done (bump_sequence
            (set_bingo_cards db
               (bingo_cards db ++
                [BingoCards.mk rowid user_id size grid_data completed_data now now]))
            "bingo_cards" rowid)
         rowid
  else SqliteError "FOREIGN KEY constraint failed".

(** [UPDATE bingo_cards SET grid_data = ?, completed_data = ?,
    updated_at = CURRENT_TIMESTAMP WHERE user_id = ?]. *)
Definition update (db : Db) (now : Z) (grid_data completed_data : string) (user_id : Z)
  : Db :=
  set_bingo_cards db
    ((λ c, if bool_decide (BingoCards.user_id c = user_id)
           then BingoCards.mk (BingoCards.id c) (BingoCards.user_id c)
                  (BingoCards.size c) grid_data completed_data
                  (BingoCards.created_at c) now
           else c) <$> bingo_cards db).

(** [DELETE FROM bingo_cards WHERE user_id = ?]. *)
Definition delete (db : Db) (user_id : Z) : Db :=
  set_bingo_cards db (filter (λ c, BingoCards.user_id c ≠ user_id) (bingo_cards db)).

End cardQueries.

Module friendshipQueries.

(** [WHERE ((user1_id = ? AND user2_id = ?) OR (user1_id = ? AND user2_id = ?))]. *)
Definition checkFriendship (db : Db) (p1 p2 p3 p4 : Z) : option Friendships.row :=
  get (filter (λ f, (Friendships.user1_id f = p1 ∧ Friendships.user2_id f = p2) ∨
                    (Friendships.user1_id f = p3 ∧ Friendships.user2_id f = p4))
         (friendships db)).

Definition findById (db : Db) (id : Z) : option Friendships.row :=
  get (filter (λ f, Friendships.id f = id) (friendships db)).

(** [INSERT INTO friendships (user1_id, user2_id, status)], under
    [UNIQUE(user1_id, user2_id)] and the two foreign keys to [users]. *)
Definition create (db : Db) (now user1_id user2_id : Z) (st : status) : run_result :=
  if bool_decide (Exists (λ f, Friendships.user1_id f = user1_id ∧
                               Friendships.user2_id f = user2_id) (friendships db))
  then SqliteError "UNIQUE constraint failed: friendships.user1_id, friendships.user2_id"
  else if bool_decide (user1_id ∈ Users.id <$> users db ∧
                       user2_id ∈ Users.id <$> users db) then
    let rowid := next_rowid db "friendships" (Friendships.id <$> friendships db) in
    Done (bump_sequence
            (set_friendships db
               (friendships db ++ [Friendships.mk rowid user1_id user2_id st now]))
            "friendships" rowid)
         rowid
  else SqliteError "FOREIGN KEY constraint failed".

(** [UPDATE friendships SET status = ? WHERE id = ?]. *)
Definition updateStatus (db : Db) (st : status) (id : Z) : Db :=
  set_friendships db
    ((λ f, if bool_decide (Friendships.id f = id)
           then Friendships.mk (Friendships.id f) (Friendships.user1_id f)
                  (Friendships.user2_id f) st (Friendships.created_at f)
           else f) <$> friendships db).

(** [DELETE FROM friendships WHERE id = ?]. *)
Definition delete (db : Db) (id : Z) : Db :=
  set_friendships db (filter (λ f, Friendships.id f ≠ id) (friendships db)).

(** [SELECT f.id, f.user1_id, f.created_at, u.name as from_name,
    u.email as from_email FROM friendships f JOIN users u ON f.user1_id = u.id
    WHERE f.user2_id = ? AND f.status = 'pending']. *)
Definition getPendingRequests (db : Db) (user2_id : Z)
  : list (Z * Z * Z * string * string) :=
  f ← filter (λ f, Friendships.user2_id f = user2_id ∧ Friendships.status f = pending)
       (friendships db);
  u ← filter (λ u, Users.id u = Friendships.user1_id f) (users db);
  [(Friendships.id f, Friendships.user1_id f, Friendships.created_at f,
    Users.name u, Users.email u)].

(** The [CASE WHEN f.user1_id = ? THEN f.user2_id ELSE f.user1_id END] of
    [getFriends]. *)
Definition other_party (f : Friendships.row) (p : Z) : Z :=
  if bool_decide (Friendships.user1_id f = p)
  then Friendships.user2_id f else Friendships.user1_id f.

(** [SELECT DISTINCT CASE ... END as friend_id, u.name, u.email
    FROM friendships f JOIN users u ON (CASE ... END = u.id)
    WHERE (f.user1_id = ? OR f.user2_id = ?) AND f.status = 'accepted']. *)
Definition getFriends (db : Db) (p1 p2 p3 p4 : Z) : list (Z * string * string) :=
  remove_dups
    (f ← filter (λ f, (Friendships.user1_id f = p3 ∨ Friendships.user2_id f = p4) ∧
                      Friendships.status f = accepted) (friendships db);
     u ← filter (λ u, Users.id u = other_party f p2) (users db);
     [(other_party f p1, Users.name u, Users.email u)]).

End friendshipQueries.

Module commentQueries.

(** [... WHERE c.card_owner_id = ? ORDER BY c.created_at DESC]. *)
Definition getByCard (db : Db) (card_owner_id : Z) : list (Comments.row * string) :=
  merge_sort (order_desc (λ x, Comments.created_at x.1))
    (join_user_name db Comments.author_id
       (filter (λ c, Comments.card_owner_id c = card_owner_id) (comments db))).

(** [... WHERE c.card_owner_id = ? AND c.row = ? AND c.col = ?
    ORDER BY c.created_at DESC]. *)
Definition getByTask (db : Db) (card_owner_id row col : Z) : list (Comments.row * string) :=
  merge_sort (order_desc (λ x, Comments.created_at x.1))
    (join_user_name db Comments.author_id
       (filter (λ c, Comments.card_owner_id c = card_owner_id ∧
                     Comments.row_ c = row ∧ Comments.col c = col) (comments db))).

(** [INSERT INTO comments (author_id, card_owner_id, row, col, text,
    is_private)], under the two foreign keys to [users]. *)
Definition create (db : Db) (now author_id card_owner_id row col : Z) (text : string)
    (is_private : Z) : run_result :=
  if bool_decide (author_id ∈ Users.id <$> users db ∧
                  card_owner_id ∈ Users.id <$> users db) then
    let rowid := next_rowid db "comments" (Comments.id <$> comments db) in
    Done (bump_sequence
            (set_comments db
               (comments db ++
                [Comments.mk rowid author_id card_owner_id row col text is_private now]))
            "comments" rowid)
         rowid
  else SqliteError "FOREIGN KEY constraint failed".

(** A delete on [comments]: the rows that go, and with them
    ([ON DELETE CASCADE]) the reactions on them.  The [changes] it reports
    count the comment rows only. *)
Definition delete_where (db : Db) (gone : Comments.row -> Prop)
    `{!∀ c, Decision (gone c)} : Db * Z :=
  let deleted := filter gone (comments db) in
  (set_reactions
     (set_comments db (filter (λ c, ¬ gone c) (comments db)))
     (filter (λ r, Reactions.comment_id r ∉ Comments.id <$> deleted) (reactions db)),
   Z.of_nat (length deleted)).

(** [DELETE FROM comments WHERE id = ? AND author_id = ?]. *)
Definition delete (db : Db) (id author_id : Z) : Db * Z :=
  delete_where db (λ c, Comments.id c = id ∧ Comments.author_id c = author_id).

(** [DELETE FROM comments WHERE card_owner_id = ?]. *)
Definition deleteByCardOwner (db : Db) (card_owner_id : Z) : Db * Z :=
  delete_where db (λ c, Comments.card_owner_id c = card_owner_id).

End commentQueries.

Module reactionQueries.

(** [INSERT INTO reactions (comment_id, user_id, emoji)].  The
    [UNIQUE(comment_id, user_id, emoji)] index is checked as the row is
    written, the foreign keys when the statement ends. *)
Definition create (db : Db) (now comment_id user_id : Z) (emoji : string) : run_result :=
  if bool_decide (Exists (λ r, Reactions.comment_id r = comment_id ∧
                               Reactions.user_id r = user_id ∧
                               Reactions.emoji r = emoji) (reactions db))
  then SqliteError
         "UNIQUE constraint failed: reactions.comment_id, reactions.user_id, reactions.emoji"
  else if bool_decide (comment_id ∈ Comments.id <$> comments db ∧
                       user_id ∈ Users.id <$> users db) then
    let rowid := next_rowid db "reactions" (Reactions.id <$> reactions db) in
    Done (bump_sequence
            (set_reactions db
               (reactions db ++ [Reactions.mk rowid comment_id user_id emoji now]))
            "reactions" rowid)
         rowid
  else SqliteError "FOREIGN KEY constraint failed".

(** [... WHERE r.comment_id = ? ORDER BY r.created_at ASC]. *)
Definition getByComment (db : Db) (comment_id : Z) : list (Reactions.row * string) :=
  merge_sort (order_asc (λ x, Reactions.created_at x.1))
    (join_user_name db Reactions.user_id
       (filter (λ r, Reactions.comment_id r = comment_id) (reactions db))).

(** [DELETE FROM reactions WHERE comment_id = ? AND user_id = ? AND emoji = ?],
    with its [changes]. *)
Definition delete (db : Db) (comment_id user_id : Z) (emoji : string) : Db * Z :=
  (set_reactions db
     (filter (λ r, ¬ (Reactions.comment_id r = comment_id ∧
                      Reactions.user_id r = user_id ∧
                      Reactions.emoji r = emoji)) (reactions db)),
   Z.of_nat (length (filter (λ r, Reactions.comment_id r = comment_id ∧
                                  Reactions.user_id r = user_id ∧
                                  Reactions.emoji r = emoji) (reactions db)))).

End reactionQueries.

Module groupQueries.

Definition findById (db : Db) (id : Z) : option Groups.row :=
  get (filter (λ g, Groups.id g = id) (groups db)).

(** [SELECT * FROM group_members WHERE group_id = ? AND user_id = ?]. *)
Definition getMember (db : Db) (group_id user_id : Z) : option GroupMembers.row :=
  get (filter (λ m, GroupMembers.group_id m = group_id ∧
                    GroupMembers.user_id m = user_id) (group_members db)).

(** [... JOIN users u ON gm.user_id = u.id
    WHERE gm.group_id = ? AND gm.status = 'accepted' ORDER BY gm.joined_at ASC];
    of the joined user the name is kept, the leave handler reads neither it
    nor the email. *)
Definition getGroupMembers (db : Db) (group_id : Z) : list (GroupMembers.row * string) :=
  merge_sort (order_asc (λ x, GroupMembers.joined_at x.1))
    (join_user_name db GroupMembers.user_id
       (filter (λ m, GroupMembers.group_id m = group_id ∧
                     GroupMembers.status m = accepted) (group_members db))).

(** [DELETE FROM group_members WHERE group_id = ? AND user_id = ?]. *)
Definition removeMember (db : Db) (group_id user_id : Z) : Db :=
  set_group_members db
    (filter (λ m, ¬ (GroupMembers.group_id m = group_id ∧
                     GroupMembers.user_id m = user_id)) (group_members db)).

(** [DELETE FROM groups WHERE id = ?], with the [ON DELETE CASCADE] of the
    member, comment and comment-reaction tables. *)
Definition delete (db : Db) (id : Z) : Db :=
  let kept_comments :=
    filter (λ c, GroupComments.group_id c ≠ id) (group_comments db) in
  mkDb (users db) (bingo_cards db) (friendships db) (comments db) (reactions db)
       (filter (λ g, Groups.id g ≠ id) (groups db))
       (filter (λ m, GroupMembers.group_id m ≠ id) (group_members db))
       kept_comments
       (filter (λ r, GroupCommentReactions.group_comment_id r
                       ∈ GroupComments.id <$> kept_comments)
               (group_comment_reactions db))
       (sqlite_sequence db) (hasUsernameColumn db).

(** [INSERT INTO groups (name, creator_id)], under the foreign key to
    [users]. *)
Definition create (db : Db) (now : Z) (name : string) (creator_id : Z) : run_result :=
  if bool_decide (creator_id ∈ Users.id <$> users db) then
    let rowid := next_rowid db "groups" (Groups.id <$> groups db) in
    Done (bump_sequence
            (set_groups db (groups db ++ [Groups.mk rowid name creator_id now]))
            "groups" rowid)
         rowid
  else SqliteError "FOREIGN KEY constraint failed".

(** [INSERT INTO group_members (group_id, user_id, role, status)], under
    [UNIQUE(group_id, user_id)] and the foreign keys to [groups] and
    [users]. *)
Definition addMember (db : Db) (now group_id user_id : Z) (r : role) (st : status)
  : run_result :=
  if bool_decide (Exists (λ m, GroupMembers.group_id m = group_id ∧
                               GroupMembers.user_id m = user_id) (group_members db))
  then SqliteError "UNIQUE constraint failed: group_members.group_id, group_members.user_id"
  else if bool_decide (group_id ∈ Groups.id <$> groups db ∧
                       user_id ∈ Users.id <$> users db) then
    let rowid := next_rowid db "group_members" (GroupMembers.id <$> group_members db) in
    Done (bump_sequence
            (set_group_members db
               (group_members db ++ [GroupMembers.mk rowid group_id user_id r st now]))
            "group_members" rowid)
         rowid
  else SqliteError "FOREIGN KEY constraint failed".

(** [UPDATE group_members SET status = ? WHERE id = ?]. *)
Definition updateMemberStatus (db : Db) (st : status) (id : Z) : Db :=
  set_group_members db
    ((λ m, if bool_decide (GroupMembers.id m = id)
           then GroupMembers.mk (GroupMembers.id m) (GroupMembers.group_id m)
                  (GroupMembers.user_id m) (GroupMembers.role m) st
                  (GroupMembers.joined_at m)
           else m) <$> group_members db).

(** [SELECT * FROM group_members WHERE id = ?]. *)
Definition getMemberById (db : Db) (id : Z) : option GroupMembers.row :=
  get (filter (λ m, GroupMembers.id m = id) (group_members db)).

(** [SELECT g.*, gm.role, gm.status FROM groups g
    JOIN group_members gm ON g.id = gm.group_id
    WHERE gm.user_id = ? AND gm.status = 'accepted' ORDER BY g.created_at DESC]. *)
Definition getUserGroups (db : Db) (user_id : Z) : list (Groups.row * role * status) :=
  merge_sort (order_desc (λ x, Groups.created_at x.1.1))
    (g ← groups db;
     m ← filter (λ m, GroupMembers.group_id m = Groups.id g ∧
                      GroupMembers.user_id m = user_id ∧
                      GroupMembers.status m = accepted) (group_members db);
     [(g, GroupMembers.role m, GroupMembers.status m)]).

End groupQueries.

Module adminQueries.

(** [SELECT COUNT( * ) as count FROM users WHERE is_admin = 0]. *)
Definition getTotalUsers (db : Db) : Z :=
  Z.of_nat (length (filter (λ u, Users.is_admin u = 0) (users db))).

Definition getTotalCards (db : Db) : Z := Z.of_nat (length (bingo_cards db)).
Definition getTotalGroups (db : Db) : Z := Z.of_nat (length (groups db)).
Definition getTotalComments (db : Db) : Z := Z.of_nat (length (comments db)).
Definition getTotalGroupComments (db : Db) : Z := Z.of_nat (length (group_comments db)).

(** [... WHERE is_admin = 0 ORDER BY created_at DESC LIMIT ?]. *)
Definition getRecentUsers (db : Db) (limit : nat) : list Users.summary :=
  Users.summarize <$>
  take limit
    (merge_sort (order_desc Users.created_at)
       (filter (λ u, Users.is_admin u = 0) (users db))).

(** [SELECT is_admin FROM users WHERE id = ?]. *)
Definition isAdmin (db : Db) (id : Z) : option Z :=
  Users.is_admin <$> get (filter (λ u, Users.id u = id) (users db)).

End adminQueries.

(** ** Authentication middleware *)

(** The claims [jwt.sign({ userId, email }, ...)] embeds in a token. *)
Record jwt_payload := mkPayload { userId : Z; email : string }.

(** The errors [jwt.verify] reports. *)
Inductive jwt_error := TokenExpiredError | JsonWebTokenError | NotBeforeError.

Section Middleware.

(** [jwt.verify(token, secret)] of the jsonwebtoken package, at the time of
    the request. *)
Variable jwt_verify : string -> string -> jwt_error + jwt_payload.
Variable JWT_SECRET : string.

(** [authHeader && authHeader.split(' ')[1]]. *)
Definition bearer_token (authHeader : option string) : option string :=
  match authHeader with
  | None => None
  | Some h => if String.eqb h "" then Some "" else split h " "%char !! 1%nat
  end.

(** Either the response that ends the request, or [req.user] as handed to
    [next()]. *)
Definition authenticateToken (authHeader : option string) : response + jwt_payload :=
  match bearer_token authHeader with
  | Some token =>
      if String.eqb token "" then inl (fail 401 "Access token required")
      else match jwt_verify token JWT_SECRET with
           | inl err => inl (fail 403 "Invalid or expired token")
           | inr user => inr user
           end
  | None => inl (fail 401 "Access token required")
  end.

Definition authenticateAdmin (db : Db) (authHeader : option string)
  : response + jwt_payload :=
  match bearer_token authHeader with
  | Some token =>
      if String.eqb token "" then inl (fail 401 "Access token required")
      else match jwt_verify token JWT_SECRET with
           | inl err => inl (fail 403 "Invalid or expired token")
           | inr user =>
               match adminQueries.isAdmin db (userId user) with
               | Some flag =>
                   if flag =? 0 then inl (fail 403 "Admin access required")
                   else inr user
               | None => inl (fail 403 "Admin access required")
               end
           end
  | None => inl (fail 401 "Access token required")
  end.

End Middleware.

(** ** Friendship guard *)

(** The guard the card and comment handlers share, negated:
    [friendship && friendship.status === 'accepted']. *)
Definition accepted_row (friendship : option Friendships.row) : bool :=
  match friendship with
  | Some f => bool_decide (Friendships.status f = accepted)
  | None => false
  end.

(** [isAcceptedFriend(a, b)] of the specification: the guard applied to
    [checkFriendship.get(a, b, b, a)]. *)
Definition isAcceptedFriend (db : Db) (a b : Z) : bool :=
  accepted_row (friendshipQueries.checkFriendship db a b b a).

(** ** Request bodies *)

Module CardBody.
Record t := mk { size : option Z; grid : option json; completed : option json }.
End CardBody.

Module FriendRequestBody.
Record t := mk { friendEmail : option string; friendUsername : option string }.
End FriendRequestBody.

Module ReactionBody.
Record t := mk { commentId : option Z; emoji : option string }.
End ReactionBody.

(** ** Card handlers *)

Section Cards.

(** [JSON.stringify] and [JSON.parse] of the runtime; [None] is a thrown
    SyntaxError. *)
Variable JSON_stringify : json -> string.
Variable JSON_parse : string -> option json.

(** [POST /api/cards]. *)
Definition saveCard (db : Db) (now : Z) (user : jwt_payload) (b : CardBody.t)
  : response * Db :=
  match CardBody.size b, CardBody.grid b, CardBody.completed b with
  | Some size, Some grid, Some completed =>
      if (size =? 0) || negb (truthy (Some grid)) || negb (truthy (Some completed))
      then (fail 400 "Size, grid, and completed data are required", db)
      else
        let gridData := JSON_stringify grid in
        let completedData := JSON_stringify completed in
        match cardQueries.findByUserId db (userId user) with
        | Some existingCard =>
            (ok (Message "Bingo card saved successfully"),
             cardQueries.update db now gridData completedData (userId user))
        | None =>
            match cardQueries.create db now (userId user) size gridData completedData with
            | Done db' _ => (ok (Message "Bingo card saved successfully"), db')
            | SqliteError _ => (fail 500 "Failed to save bingo card", db)
            end
        end
  | _, _, _ => (fail 400 "Size, grid, and completed data are required", db)
  end.

(** [GET /api/cards/:userId], with [friendId] the parsed route parameter;
    [server.js] has the same handler. *)
Definition getFriendCard (db : Db) (user : jwt_payload) (friendId : Z) : response :=
  let friendship :=
    friendshipQueries.checkFriendship db (userId user) friendId friendId (userId user) in
  if negb (accepted_row friendship)
  then fail 403 "You can only view cards of accepted friends"
  else
    match cardQueries.findByUserId db friendId with
    | None => fail 404 "Friend has no bingo card"
    | Some card =>
        match JSON_parse (BingoCards.grid_data card),
              JSON_parse (BingoCards.completed_data card) with
        | Some grid, Some completed =>
            ok (Card (mkCardView (BingoCards.size card) grid completed
                        (BingoCards.created_at card) (BingoCards.updated_at card)))
        | _, _ => fail 500 "Failed to get bingo card"
        end
    end.

End Cards.

(** ** Friendship handlers *)

(** The target lookup of [POST /api/friends/request]: by username when the
    statement is prepared, then by email. *)
Definition findFriend (db : Db) (b : FriendRequestBody.t) : option Users.row :=
  let friend :=
    match FriendRequestBody.friendUsername b, userQueries.findByUsername db with
    | Some friendUsername, Some query =>
        if String.eqb friendUsername "" then None else query friendUsername
    | _, _ => None
    end in
  match friend, FriendRequestBody.friendEmail b with
  | Some f, _ => Some f
  | None, Some friendEmail =>
      if String.eqb friendEmail "" then None
      else userQueries.findByEmail db friendEmail
  | None, None => None
  end.

(** [POST /api/friends/request]. *)
Definition sendFriendRequest (db : Db) (now : Z) (user : jwt_payload)
    (b : FriendRequestBody.t) : response * Db :=
  if negb (truthy_string (FriendRequestBody.friendEmail b)) &&
     negb (truthy_string (FriendRequestBody.friendUsername b))
  then (fail 400 "Friend email or username required", db)
  else
    match findFriend db b with
    | None => (fail 404 "User not found", db)
    | Some friend =>
        if Users.id friend =? userId user
        then (fail 400 "You cannot add yourself as a friend", db)
        else
          match friendshipQueries.checkFriendship db
                  (userId user) (Users.id friend) (Users.id friend) (userId user) with
          | Some existing =>
              if bool_decide (Friendships.status existing = accepted)
              then (fail 409 "You are already friends", db)
              else (fail 409 "Friend request already sent", db)
          | None =>
              match friendshipQueries.create db now (userId user) (Users.id friend) pending with
              | Done db' _ =>
                  (mkResponse 201 (Message "Friend request sent successfully"), db')
              | SqliteError _ => (fail 500 "Failed to send friend request", db)
              end
          end
    end.

(** [POST /api/friends/accept/:requestId]. *)
Definition acceptFriendRequest (db : Db) (user : jwt_payload) (requestId : Z)
  : response * Db :=
  match friendshipQueries.findById db requestId with
  | None => (fail 404 "Friend request not found", db)
  | Some request =>
      if negb (Friendships.user2_id request =? userId user)
      then (fail 403 "Unauthorized", db)
      else (ok (Message "Friend request accepted"),
            friendshipQueries.updateStatus db accepted requestId)
  end.

(** [DELETE /api/friends/:friendshipId]. *)
Definition deleteFriend (db : Db) (user : jwt_payload) (friendshipId : Z)
  : response * Db :=
  match friendshipQueries.findById db friendshipId with
  | None => (fail 404 "Friendship not found", db)
  | Some friendship =>
      if negb (Friendships.user1_id friendship =? userId user) &&
         negb (Friendships.user2_id friendship =? userId user)
      then (fail 403 "Unauthorized", db)
      else (ok (Message "Friendship deleted"),
            friendshipQueries.delete db friendshipId)
  end.

(** ** Comment handlers *)

(** The post-filter of both comment listings. *)
Definition visible_to (requester cardOwnerId : Z) (comment : Comments.row * string) : bool :=
  if cardOwnerId =? requester then true
  else (Comments.is_private comment.1 =? 0) ||
       (Comments.author_id comment.1 =? requester).

(** [GET /api/comments/:cardOwnerId]. *)
Definition getCardComments (db : Db) (user : jwt_payload) (cardOwnerId : Z) : response :=
  if negb (cardOwnerId =? userId user) &&
     negb (accepted_row (friendshipQueries.checkFriendship db
                           (userId user) cardOwnerId cardOwnerId (userId user)))
  then fail 403 "You can only view comments on friends' cards"
  else
    let comments := commentQueries.getByCard db cardOwnerId in
    ok (CommentList (filter (visible_to (userId user) cardOwnerId) comments)).

(** [GET /api/comments/:cardOwnerId/:row/:col]. *)
Definition getTaskComments (db : Db) (user : jwt_payload) (cardOwnerId row col : Z)
  : response :=
  if negb (cardOwnerId =? userId user) &&
     negb (accepted_row (friendshipQueries.checkFriendship db
                           (userId user) cardOwnerId cardOwnerId (userId user)))
  then fail 403 "You can only view comments on friends' cards"
  else
    let comments := commentQueries.getByTask db cardOwnerId row col in
    ok (CommentList (filter (visible_to (userId user) cardOwnerId) comments)).

(** ** Reaction handlers *)

(** [POST /api/reactions]. *)
Definition addReaction (db : Db) (now : Z) (user : jwt_payload) (b : ReactionBody.t)
  : response * Db :=
  match ReactionBody.commentId b, ReactionBody.emoji b with
  | Some commentId, Some emoji =>
      if (commentId =? 0) || String.eqb emoji ""
      then (fail 400 "Comment ID and emoji are required", db)
      else
        match reactionQueries.create db now commentId (userId user) emoji with
        | Done db' _ => (mkResponse 201 (Message "Reaction added successfully"), db')
        | SqliteError message =>
            if includes message "UNIQUE constraint"
            then (fail 409 "You already reacted with this emoji", db)
            else (fail 500 "Failed to add reaction", db)
        end
  | _, _ => (fail 400 "Comment ID and emoji are required", db)
  end.

(** One turn of the [forEach] that fills [grouped = {}]:
    [if (!grouped[e]) grouped[e] = []; grouped[e].push(user_name)].
    An own property holds an array.  Without one the lookup reaches
    [Object.prototype]: a member found there is truthy, the assignment is
    skipped, and calling its missing [push] throws a TypeError ([None]). *)
Definition group_reaction (grouped : gmap string (list string))
    (reaction : Reactions.row * string) : option (gmap string (list string)) :=
  let emoji := Reactions.emoji reaction.1 in
  match grouped !! emoji with
  | Some names => Some (<[emoji := (names ++ [reaction.2])%list]> grouped)
  | None =>
      if bool_decide (emoji ∈ Object_prototype_keys) then None
      else Some (<[emoji := [reaction.2]]> grouped)
  end.

Definition group_reactions (rows : list (Reactions.row * string))
  : option (gmap string (list string)) :=
  foldl (λ acc reaction, acc ≫= λ grouped, group_reaction grouped reaction)
        (Some ∅) rows.

(** [GET /api/reactions/:commentId]. *)
Definition getReactions (db : Db) (user : jwt_payload) (commentId : Z) : response :=
  let reactions := reactionQueries.getByComment db commentId in
  match group_reactions reactions with
  | Some grouped => ok (ReactionMap grouped)
  | None => fail 500 "Failed to get reactions"
  end.

(** ** Group handlers *)

(** [DELETE /api/groups/:groupId/leave]. *)
Definition leaveGroup (db : Db) (user : jwt_payload) (groupId : Z) : response * Db :=
  match groupQueries.getMember db groupId (userId user) with
  | None => (fail 404 "You are not a member of this group", db)
  | Some membership =>
      let group := groupQueries.findById db groupId in
      let members := groupQueries.getGroupMembers db groupId in
      let adminCount :=
        length (filter (λ m, GroupMembers.role m.1 = admin) members) in
      if bool_decide (GroupMembers.role membership = admin) &&
         (Nat.eqb adminCount 1 && Nat.ltb 1 (length members))
      then (fail 400
              "Cannot leave: you are the only admin. Transfer admin role first or delete the group.",
            db)
      else
        let db1 := groupQueries.removeMember db groupId (userId user) in
        let remainingMembers := groupQueries.getGroupMembers db1 groupId in
        let db2 :=
          if Nat.eqb (length remainingMembers) 0
          then groupQueries.delete db1 groupId else db1 in
        (ok (Message "Left group successfully"), db2)
  end.

(** ** Admin reporting *)

(** The handler of [GET /api/admin/analytics]. *)
Definition getAnalytics (db : Db) : response :=
  let totalUsers := adminQueries.getTotalUsers db in
  let totalCards := adminQueries.getTotalCards db in
  let totalGroups := adminQueries.getTotalGroups db in
  let totalComments := adminQueries.getTotalComments db in
  let totalGroupComments := adminQueries.getTotalGroupComments db in
  let recentUsers := adminQueries.getRecentUsers db 10 in
  ok (Analytics (mkAnalytics totalUsers totalCards totalGroups
                   (totalComments + totalGroupComments) recentUsers)).

(** The route: [authenticateAdmin] in front of the handler. *)
Definition adminAnalyticsRoute (jwt_verify : string -> string -> jwt_error + jwt_payload)
    (JWT_SECRET : string) (db : Db) (authHeader : option string) : response :=
  match authenticateAdmin jwt_verify JWT_SECRET db authHeader with
  | inl rejected => rejected
  | inr _ => getAnalytics db
  end.

(** ** Store invariants *)

(** The constraints SQLite enforces on every write ([foreign_keys = ON]):
    primary key of [users], the foreign keys the joins rely on, and
    [UNIQUE(group_id, user_id)]. *)
Record constraints_hold (db : Db) : Prop := mkConstraints {
  users_pk : NoDup (Users.id <$> users db);
  fk_comment_author :
    ∀ c, c ∈ comments db → Comments.author_id c ∈ Users.id <$> users db;
  fk_reaction_comment :
    ∀ r, r ∈ reactions db → Reactions.comment_id r ∈ Comments.id <$> comments db;
  fk_reaction_user :
    ∀ r, r ∈ reactions db → Reactions.user_id r ∈ Users.id <$> users db;
  fk_member_user :
    ∀ m, m ∈ group_members db → GroupMembers.user_id m ∈ Users.id <$> users db;
  uq_group_member :
    NoDup ((λ m, (GroupMembers.group_id m, GroupMembers.user_id m)) <$> group_members db)
}.

(** A friendship row stands for the unordered pair of its two columns. *)
Definition links (f : Friendships.row) (a b : Z) : Prop :=
  (Friendships.user1_id f = a ∧ Friendships.user2_id f = b) ∨
  (Friendships.user1_id f = b ∧ Friendships.user2_id f = a).

#[global] Instance links_dec f a b : Decision (links f a b).
Proof. unfold links. apply _. Defined.

(** Unordered-pair uniqueness of the data model: no later row stands for the
    pair of an earlier one.  The schema only has [UNIQUE(user1_id, user2_id)];
    the handlers keep this stronger invariant. *)
Fixpoint pair_unique (fs : list Friendships.row) : Prop :=
  match fs with
  | [] => True
  | f :: fs' =>
      Forall (λ g, ¬ links g (Friendships.user1_id f) (Friendships.user2_id f)) fs' ∧
      pair_unique fs'
  end.

#[global] Instance pair_unique_dec fs : Decision (pair_unique fs).
Proof. induction fs; simpl; apply _. Defined.

(** The situation of the leave-group rule: [u] is an accepted admin of [g],
    no other user is an admin of [g], and [g] has another accepted member. *)
Definition sole_admin_with_others (db : Db) (u g : Z) : Prop :=
  (∃ m, m ∈ group_members db ∧ GroupMembers.group_id m = g ∧
        GroupMembers.user_id m = u ∧ GroupMembers.role m = admin ∧
        GroupMembers.status m = accepted) ∧
  (∀ m, m ∈ group_members db → GroupMembers.group_id m = g →
        GroupMembers.role m = admin → GroupMembers.user_id m = u) ∧
  (∃ other, other ∈ group_members db ∧ GroupMembers.group_id other = g ∧
            GroupMembers.user_id other ≠ u ∧ GroupMembers.status other = accepted).

(** A token as [jwt.sign] issues it has no blank in it. *)
Fixpoint no_space (s : string) : Prop :=
  match s with
  | EmptyString => True
  | String c s' => c ≠ " "%char ∧ no_space s'
  end.

(** The reactor names of the rows with a given emoji, in result order. *)
Definition names_of (emoji : string) (rows : list (Reactions.row * string)) : list string :=
  (filter (λ r, Reactions.emoji r.1 = emoji) rows).*2.

(** The columns of a card row that a save of an existing card keeps. *)
Definition card_frame (c : BingoCards.row) : Z * Z * Z * Z :=
  (BingoCards.id c, BingoCards.user_id c, BingoCards.size c, BingoCards.created_at c).

(** The rows of a comment listing, when the response is one. *)
Definition listed (r : response) : option (list Comments.row) :=
  match payload r with
  | CommentList rows => if code r =? 200 then Some (rows.*1) else None
  | _ => None
  end.

(** ** Specification-side counts *)

(** "Users excluding admins": all users less those whose flag is set. *)
Definition spec_user_count (db : Db) : Z :=
  Z.of_nat (length (users db)) -
  Z.of_nat (length (filter (λ u, Users.is_admin u ≠ 0) (users db))).

(** "Combined comment count": card comments and group comments together. *)
Definition spec_comment_count (db : Db) : Z :=
  Z.of_nat (length (comments db)) + Z.of_nat (length (group_comments db)).

(** ** A sample store *)

Definition ann : Users.row := Users.mk 1 "Ann" (Some "ann") "ann@x.com" "$2a$10$h1" 0 100.
Definition bo : Users.row := Users.mk 2 "Bo" (Some "bo") "bo@x.com" "$2a$10$h2" 0 101.
Definition cy : Users.row := Users.mk 3 "Cy" None "cy@x.com" "$2a$10$h3" 0 102.
Definition dee : Users.row := Users.mk 4 "Dee" None "dee@x.com" "$2a$10$h4" 0 103.
Definition root : Users.row := Users.mk 5 "Root" (Some "root") "root@x.com" "$2a$10$h5" 1 104.

Definition sample_db : Db := {|
  users := [ann; bo; cy; dee; root];
  bingo_cards := [BingoCards.mk 1 1 3 "[[1,2,3]]" "[[false]]" 110 110];
  friendships :=
    [ Friendships.mk 1 1 2 accepted 120;
      Friendships.mk 2 3 1 accepted 121;
      Friendships.mk 3 4 1 pending 122 ];
  comments :=
    [ Comments.mk 1 2 1 0 0 "well done" 1 130;
      Comments.mk 2 3 1 0 0 "nice" 0 131 ];
  reactions := [Reactions.mk 1 1 2 "🎉" 140];
  groups := [Groups.mk 1 "Resolutions" 1 150];
  group_members :=
    [ GroupMembers.mk 1 1 1 admin accepted 150;
      GroupMembers.mk 2 1 2 member accepted 151;
      GroupMembers.mk 3 1 3 member pending 152 ];
  group_comments := [GroupComments.mk 1 1 2 "hello" 160];
  group_comment_reactions := [];
  sqlite_sequence := ∅;
  hasUsernameColumn := true
|}.

Definition as_user (u : Users.row) : jwt_payload :=
  mkPayload (Users.id u) (Users.email u).

(** A verifier that knows three tokens: one valid for Ann, one valid for
    Root, one expired. *)
Definition sample_verify (token secret : string) : jwt_error + jwt_payload :=
  if String.eqb token "ann.token" then inr (as_user ann)
  else if String.eqb token "root.token" then inr (as_user root)
  else if String.eqb token "old.token" then inl TokenExpiredError
  else inl JsonWebTokenError.

(** Stand-ins for the JSON codec where a concrete one is needed. *)
Definition sample_stringify (v : json) : string :=
  match v with
  | JArr [] => "[]"
  | _ => "[[0]]"
  end.

Definition sample_parse (s : string) : option json :=
  if String.eqb s "[]" then Some (JArr []) else Some (JArr [JArr [JNum 0]]).

(** ** The writing requests as one step function *)

Inductive request :=
| PostCards (b : CardBody.t)
| PostFriendsRequest (b : FriendRequestBody.t)
| PostFriendsAccept (requestId : Z)
| DeleteFriends (friendshipId : Z)
| PostReactions (b : ReactionBody.t)
| DeleteGroupsLeave (groupId : Z).

Definition handle (JSON_stringify : json -> string) (db : Db) (now : Z)
    (user : jwt_payload) (req : request) : response * Db :=
  match req with
  | PostCards b => saveCard JSON_stringify db now user b
  | PostFriendsRequest b => sendFriendRequest db now user b
  | PostFriendsAccept requestId => acceptFriendRequest db user requestId
  | DeleteFriends friendshipId => deleteFriend db user friendshipId
  | PostReactions b => addReaction db now user b
  | DeleteGroupsLeave groupId => leaveGroup db user groupId
  end.

(** The store after a sequence of authenticated requests. *)
Definition run (JSON_stringify : json -> string) (db : Db)
    (trace : list (Z * jwt_payload * request)) : Db :=
  foldl (λ db r, (handle JSON_stringify db r.1.1 r.1.2 r.2).2) db trace.

(** ** Replies that carry data *)

(** A handler's answer when its success carries more than a message: the
    error response, or the status with the data of the JSON body. *)
Inductive reply (A : Type) : Type :=
| Refused (r : response)
| Sent (status : Z) (data : A).

Arguments Refused {A} r.
Arguments Sent {A} status data.

(** [value || null] on an optional string. *)
Definition or_null (v : option string) : option string :=
  if truthy_string v then v else None.

(** ** Registration and login *)

Module RegisterBody.
Record t := mk {
  name : option string;
  username : option string;
  email : option string;
  password : option string
}.
End RegisterBody.

Module LoginBody.
Record t := mk { email : option string; password : option string }.
End LoginBody.

(** The [token] and [user] of the register and login responses; [is_admin]
    is present in the login response only. *)
Record auth_view := mkAuth {
  auth_token : string;
  auth_id : Z;
  auth_name : string;
  auth_username : option string;
  auth_email : string;
  auth_is_admin : option Z
}.

Section Auth.

(** [bcrypt.hash(password, rounds)] with the salt it draws made explicit,
    [bcrypt.compare(password, hash)], and [jwt.sign(payload, secret,
    { expiresIn: '30d' })] at the time of the request. *)
Variable bcrypt_hash : string -> Z -> string -> string.
Variable bcrypt_compare : string -> string -> bool.
Variable jwt_sign : jwt_payload -> string -> string.
Variable JWT_SECRET : string.

(** [POST /api/auth/register]. *)
Definition register (db : Db) (now : Z) (salt : string) (b : RegisterBody.t)
  : reply auth_view * Db :=
  match RegisterBody.name b, RegisterBody.email b, RegisterBody.password b with
  | Some name, Some email, Some password =>
      if String.eqb name "" || String.eqb email "" || String.eqb password ""
      then (Refused (fail 400 "Name, email, and password are required"), db)
      else
        match userQueries.findByEmail db email with
        | Some existingUser =>
            (Refused (fail 409 "User already exists with this email"), db)
        | None =>
            let existingUsername :=
              match RegisterBody.username b, userQueries.findByUsername db with
              | Some username, Some query =>
                  if String.eqb username "" then None else query username
              | _, _ => None
              end in
            match existingUsername with
            | Some _ => (Refused (fail 409 "Username already taken"), db)
            | None =>
                let hashedPassword := bcrypt_hash password 10 salt in
                let result :=
                  match RegisterBody.username b, userQueries.createWithUsername db with
                  | Some username, Some stmt =>
                      if String.eqb username ""
                      then userQueries.create db now name email hashedPassword
                      else stmt now name username email hashedPassword
                  | _, _ => userQueries.create db now name email hashedPassword
                  end in
                match result with
                | Done db' userId =>
                    (Sent 201
                       (mkAuth (jwt_sign (mkPayload userId email) JWT_SECRET)
                          userId name (or_null (RegisterBody.username b)) email None),
                     db')
                | SqliteError _ => (Refused (fail 500 "Failed to register user"), db)
                end
            end
        end
  | _, _, _ => (Refused (fail 400 "Name, email, and password are required"), db)
  end.

(** [POST /api/auth/login]. *)
Definition login (db : Db) (b : LoginBody.t) : reply auth_view :=
  match LoginBody.email b, LoginBody.password b with
  | Some email, Some password =>
      if String.eqb email "" || String.eqb password ""
      then Refused (fail 400 "Email and password are required")
      else
        match userQueries.findByEmail db email with
        | None => Refused (fail 401 "Invalid email or password")
        | Some user =>
            if negb (bcrypt_compare password (Users.password user))
            then Refused (fail 401 "Invalid email or password")
            else
              Sent 200
                (mkAuth (jwt_sign (mkPayload (Users.id user) (Users.email user)) JWT_SECRET)
                   (Users.id user) (Users.name user) (or_null (Users.username user))
                   (Users.email user) (Some (Users.is_admin user)))
        end
  | _, _ => Refused (fail 400 "Email and password are required")
  end.

End Auth.

(** ** Further card handlers *)

(** [GET /api/cards/me]. *)
Definition getOwnCard (JSON_parse : string -> option json) (db : Db) (user : jwt_payload)
  : response :=
  match cardQueries.findByUserId db (userId user) with
  | None => fail 404 "No bingo card found"
  | Some card =>
      match JSON_parse (BingoCards.grid_data card),
            JSON_parse (BingoCards.completed_data card) with
      | Some grid, Some completed =>
          ok (Card (mkCardView (BingoCards.size card) grid completed
                      (BingoCards.created_at card) (BingoCards.updated_at card)))
      | _, _ => fail 500 "Failed to get bingo card"
      end
  end.

(** [DELETE /api/cards] of [server.js]. *)
Definition deleteCard (db : Db) (user : jwt_payload) : response * Db :=
  (ok (Message "Bingo card deleted successfully"), cardQueries.delete db (userId user)).

(** [DELETE /api/cards/clear]: the message and [deletedCount]. *)
Definition clearComments (db : Db) (user : jwt_payload) : reply (string * Z) * Db :=
  let result := commentQueries.deleteByCardOwner db (userId user) in
  (Sent 200 ("All comments cleared successfully", result.2), result.1).

(** ** Further friendship handlers *)

(** [GET /api/friends/requests]. *)
Definition getFriendRequests (db : Db) (user : jwt_payload)
  : list (Z * Z * Z * string * string) :=
  friendshipQueries.getPendingRequests db (userId user).

(** [GET /api/friends]. *)
Definition getFriendsList (db : Db) (user : jwt_payload) : list (Z * string * string) :=
  friendshipQueries.getFriends db (userId user) (userId user) (userId user) (userId user).

(** ** Further comment and reaction handlers *)

Module CommentBody.
Record t := mk {
  cardOwnerId : option Z;
  row : option Z;
  col : option Z;
  text : option string;
  isPrivate : option json
}.
End CommentBody.

(** [POST /api/comments]. *)
Definition postComment (db : Db) (now : Z) (user : jwt_payload) (b : CommentBody.t)
  : response * Db :=
  match CommentBody.cardOwnerId b, CommentBody.row b, CommentBody.col b,
        CommentBody.text b with
  | Some cardOwnerId, Some row, Some col, Some text =>
      if String.eqb text ""
      then (fail 400 "Card owner ID, row, col, and text are required", db)
      else if negb (cardOwnerId =? userId user) &&
              negb (accepted_row (friendshipQueries.checkFriendship db
                                    (userId user) cardOwnerId cardOwnerId (userId user)))
      then (fail 403 "You can only comment on friends' cards", db)
      else
        match commentQueries.create db now (userId user) cardOwnerId row col text
                (if truthy (CommentBody.isPrivate b) then 1 else 0) with
        | Done db' _ => (mkResponse 201 (Message "Comment added successfully"), db')
        | SqliteError _ => (fail 500 "Failed to create comment", db)
        end
  | _, _, _, _ => (fail 400 "Card owner ID, row, col, and text are required", db)
  end.

(** [DELETE /api/comments/:commentId]. *)
Definition deleteComment (db : Db) (user : jwt_payload) (commentId : Z) : response * Db :=
  let result := commentQueries.delete db commentId (userId user) in
  if result.2 =? 0
  then (fail 404 "Comment not found or unauthorized", result.1)
  else (ok (Message "Comment deleted successfully"), result.1).

(** [DELETE /api/reactions]. *)
Definition removeReaction (db : Db) (user : jwt_payload) (b : ReactionBody.t)
  : response * Db :=
  match ReactionBody.commentId b, ReactionBody.emoji b with
  | Some commentId, Some emoji =>
      if (commentId =? 0) || String.eqb emoji ""
      then (fail 400 "Comment ID and emoji are required", db)
      else
        let result := reactionQueries.delete db commentId (userId user) emoji in
        if result.2 =? 0
        then (fail 404 "Reaction not found", result.1)
        else (ok (Message "Reaction removed successfully"), result.1)
  | _, _ => (fail 400 "Comment ID and emoji are required", db)
  end.

(** ** Further group handlers *)

Section Groups.

(** [String.prototype.trim] of the runtime. *)
Variable String_trim : string -> string.

(** [POST /api/groups]: the new group's id and name.  The two inserts are
    not in one transaction, so a failure of the second leaves the first. *)
Definition createGroup (db : Db) (now : Z) (user : jwt_payload) (name : option string)
  : reply (Z * string) * Db :=
  match name with
  | Some name =>
      if String.eqb name "" || String.eqb (String_trim name) ""
      then (Refused (fail 400 "Group name is required"), db)
      else
        match groupQueries.create db now (String_trim name) (userId user) with
        | SqliteError _ => (Refused (fail 500 "Failed to create group"), db)
        | Done db1 groupId =>
            match groupQueries.addMember db1 now groupId (userId user) admin accepted with
            | SqliteError _ => (Refused (fail 500 "Failed to create group"), db1)
            | Done db2 _ => (Sent 201 (groupId, String_trim name), db2)
            end
        end
  | None => (Refused (fail 400 "Group name is required"), db)
  end.

End Groups.

(** [GET /api/groups]. *)
Definition getGroups (db : Db) (user : jwt_payload) : list (Groups.row * role * status) :=
  groupQueries.getUserGroups db (userId user).

(** [GET /api/groups/:groupId]: the group row with the caller's role. *)
Definition getGroup (db : Db) (user : jwt_payload) (groupId : Z)
  : reply (Groups.row * role) :=
  match groupQueries.getMember db groupId (userId user) with
  | Some membership =>
      if bool_decide (GroupMembers.status membership = accepted) then
        match groupQueries.findById db groupId with
        | None => Refused (fail 404 "Group not found")
        | Some group => Sent 200 (group, GroupMembers.role membership)
        end
      else Refused (fail 403 "You are not a member of this group")
  | None => Refused (fail 403 "You are not a member of this group")
  end.

(** [POST /api/groups/:groupId/invite]. *)
Definition inviteToGroup (db : Db) (now : Z) (user : jwt_payload) (groupId : Z)
    (friendId : option Z) : response * Db :=
  match friendId with
  | Some friendId =>
      if friendId =? 0 then (fail 400 "Friend ID is required", db)
      else
        match groupQueries.getMember db groupId (userId user) with
        | Some membership =>
            if bool_decide (GroupMembers.role membership = admin) then
              match userQueries.findById db friendId with
              | None => (fail 404 "Friend not found", db)
              | Some friend =>
                  match groupQueries.getMember db groupId friendId with
                  | Some existingMember =>
                      if bool_decide (GroupMembers.status existingMember = accepted)
                      then (fail 409 "User is already a member", db)
                      else (fail 409 "Invitation already sent", db)
                  | None =>
                      match groupQueries.addMember db now groupId friendId member pending with
                      | Done db' _ =>
                          (mkResponse 201 (Message "Invitation sent successfully"), db')
                      | SqliteError _ => (fail 500 "Failed to send invitation", db)
                      end
                  end
              end
            else (fail 403 "Only admins can invite members", db)
        | None => (fail 403 "Only admins can invite members", db)
        end
  | None => (fail 400 "Friend ID is required", db)
  end.

(** [POST /api/groups/invitations/:invitationId/accept]. *)
Definition acceptInvitation (db : Db) (user : jwt_payload) (invitationId : Z)
  : response * Db :=
  match groupQueries.getMemberById db invitationId with
  | None => (fail 404 "Invitation not found", db)
  | Some invitation =>
      if negb (GroupMembers.user_id invitation =? userId user)
      then (fail 403 "Unauthorized", db)
      else if bool_decide (GroupMembers.status invitation = accepted)
      then (fail 400 "Invitation already accepted", db)
      else (ok (Message "Invitation accepted successfully"),
            groupQueries.updateMemberStatus db accepted invitationId)
  end.

(** [DELETE /api/groups/invitations/:invitationId]. *)
Definition declineInvitation (db : Db) (user : jwt_payload) (invitationId : Z)
  : response * Db :=
  match groupQueries.getMemberById db invitationId with
  | None => (fail 404 "Invitation not found", db)
  | Some invitation =>
      if negb (GroupMembers.user_id invitation =? userId user)
      then (fail 403 "Unauthorized", db)
      else (ok (Message "Invitation declined successfully"),
            groupQueries.removeMember db (GroupMembers.group_id invitation) (userId user))
  end.

(** [DELETE /api/groups/:groupId]. *)
Definition deleteGroup (db : Db) (user : jwt_payload) (groupId : Z) : response * Db :=
  match groupQueries.getMember db groupId (userId user) with
  | Some membership =>
      if bool_decide (GroupMembers.role membership = admin)
      then (ok (Message "Group deleted successfully"), groupQueries.delete db groupId)
      else (fail 403 "Only admins can delete groups", db)
  | None => (fail 403 "Only admins can delete groups", db)
  end.

(** ** The whole writing surface as one step function *)

(** What the handlers take from the runtime and its libraries. *)
Record runtime := mkRuntime {
  rt_stringify : json -> string;
  rt_trim : string -> string;
  rt_hash : string -> Z -> string -> string;
  rt_sign : jwt_payload -> string -> string;
  rt_secret : string
}.

Inductive api_request :=
| Register (salt : string) (b : RegisterBody.t)
| SaveCard (b : CardBody.t)
| DeleteCard
| ClearComments
| RequestFriend (b : FriendRequestBody.t)
| AcceptFriend (requestId : Z)
| RemoveFriend (friendshipId : Z)
| PostComment (b : CommentBody.t)
| DeleteComment (commentId : Z)
| AddReaction (b : ReactionBody.t)
| RemoveReaction (b : ReactionBody.t)
| CreateGroup (name : option string)
| Invite (groupId : Z) (friendId : option Z)
| AcceptInvitation (invitationId : Z)
| DeclineInvitation (invitationId : Z)
| LeaveGroup (groupId : Z)
| DeleteGroup (groupId : Z).

(** The store after one request; [user] is the verified caller and is not
    read by [Register]. *)
Definition api_step (rt : runtime) (db : Db) (now : Z) (user : jwt_payload)
    (req : api_request) : Db :=
  match req with
  | Register salt b => (register (rt_hash rt) (rt_sign rt) (rt_secret rt) db now salt b).2
  | SaveCard b => (saveCard (rt_stringify rt) db now user b).2
  | DeleteCard => (deleteCard db user).2
  | ClearComments => (clearComments db user).2
  | RequestFriend b => (sendFriendRequest db now user b).2
  | AcceptFriend requestId => (acceptFriendRequest db user requestId).2
  | RemoveFriend friendshipId => (deleteFriend db user friendshipId).2
  | PostComment b => (postComment db now user b).2
  | DeleteComment commentId => (deleteComment db user commentId).2
  | AddReaction b => (addReaction db now user b).2
  | RemoveReaction b => (removeReaction db user b).2
  | CreateGroup name => (createGroup (rt_trim rt) db now user name).2
  | Invite groupId friendId => (inviteToGroup db now user groupId friendId).2
  | AcceptInvitation invitationId => (acceptInvitation db user invitationId).2
  | DeclineInvitation invitationId => (declineInvitation db user invitationId).2
  | LeaveGroup groupId => (leaveGroup db user groupId).2
  | DeleteGroup groupId => (deleteGroup db user groupId).2
  end.

Definition api_run (rt : runtime) (db : Db)
    (trace : list (Z * jwt_payload * api_request)) : Db :=
  foldl (λ db r, api_step rt db r.1.1 r.1.2 r.2) db trace.

(** The database right after [initializeDatabase] on a new file. *)
Definition empty_db : Db :=
  mkDb [] [] [] [] [] [] [] [] [] ∅ true.

(** What every store the handlers reach satisfies, beyond the schema
    constraints: one row per unordered pair of friends and none from a user
    to themselves, one card and one email per user, distinct friendship,
    comment, group and membership ids, the foreign keys of [friendships] and
    of [group_members.group_id], and every admin row being the accepted row
    of the group's creator. *)
Record store_ok (db : Db) : Prop := mkStoreOk {
  ok_constraints : constraints_hold db;
  ok_pairs : pair_unique (friendships db);
  ok_no_self : ∀ f, f ∈ friendships db → Friendships.user1_id f ≠ Friendships.user2_id f;
  ok_friendship_ids : NoDup (Friendships.id <$> friendships db);
  ok_cards : NoDup (BingoCards.user_id <$> bingo_cards db);
  ok_emails : NoDup (Users.email <$> users db);
  ok_group_ids : NoDup (Groups.id <$> groups db);
  ok_friend_users :
    ∀ f, f ∈ friendships db →
         Friendships.user1_id f ∈ Users.id <$> users db ∧
         Friendships.user2_id f ∈ Users.id <$> users db;
  ok_comment_ids : NoDup (Comments.id <$> comments db);
  ok_member_ids : NoDup (GroupMembers.id <$> group_members db);
  ok_member_group :
    ∀ m, m ∈ group_members db → GroupMembers.group_id m ∈ Groups.id <$> groups db;
  ok_admins :
    ∀ m, m ∈ group_members db → GroupMembers.role m = admin →
         GroupMembers.status m = accepted ∧
         ∃ g, g ∈ groups db ∧ Groups.id g = GroupMembers.group_id m ∧
              Groups.creator_id g = GroupMembers.user_id m
}.

(** Stand-ins for the hashing and signing libraries where concrete ones are
    needed. *)
Definition sample_hash (password : string) (rounds : Z) (salt : string) : string :=
  "$2a$10$" +:+ salt +:+ password.

Definition sample_compare (password hash : string) : bool :=
  String.eqb hash ("$2a$10$" +:+ "salt" +:+ password).

Definition sample_sign (user : jwt_payload) (secret : string) : string :=
  if userId user =? 1 then "ann.token"
  else if userId user =? 5 then "root.token"
  else "new.token".

Definition sample_trim (s : string) : string :=
  if String.eqb s "   " then "" else s.

Definition sample_runtime : runtime :=
  mkRuntime sample_stringify sample_trim sample_hash sample_sign "k".

(** Splits a goal [store_ok db'] for a handler's result into the facts
    about the tables the handler wrote. *)
Ltac store_ok_cases Hok :=
  destruct Hok as [Kc Kp Ks Kf Kcards Ke Kg Kfu Kci Kmi Kmg Ka];
  repeat case_match; simplify_eq; try done;
  (split; [destruct Kc as [K1 K2 K3 K4 K5 K6]; split|..]; simpl; try done).

(** Case analysis of the rows of a literal table. *)
Ltac each_row H :=
  apply list_elem_of_In in H; simpl in H;
  repeat (destruct H as [<-|H]; [|]); try contradiction.

(** * Properties *)

(** ** Statements that return one row *)

Section Get.
Context {A : Type} (P : A → Prop) `{!∀ x, Decision (P x)}.

Lemma get_filter_Some (l : list A) x : get (filter P l) = Some x → P x ∧ x ∈ l.
Proof.
  intros Hget. apply head_Some_elem_of in Hget.
  by apply list_elem_of_filter in Hget.
Qed.

Lemma get_filter_None (l : list A) : get (filter P l) = None → ∀ x, x ∈ l → ¬ P x.
Proof.
  intros Hget x Hx HP. apply head_None in Hget.
  by eapply filter_nil_not_elem_of.
Qed.

Lemma get_filter_is_Some (l : list A) x : x ∈ l → P x → is_Some (get (filter P l)).
Proof.
  intros Hx HP. apply head_is_Some. intros Hnil.
  by eapply filter_nil_not_elem_of.
Qed.

End Get.

(** ** Friendship rows and the unordered pair *)

Lemma links_sym f a b : links f a b → links f b a.
Proof. unfold links. tauto. Qed.

Lemma links_columns f : links f (Friendships.user1_id f) (Friendships.user2_id f).
Proof. left. done. Qed.

Lemma links_transfer f g a b :
  links g a b → links f a b →
  links f (Friendships.user1_id g) (Friendships.user2_id g).
Proof. unfold links. intros [[-> ->]|[-> ->]]; tauto. Qed.

Lemma checkFriendship_links db a b :
  friendshipQueries.checkFriendship db a b b a =
  get (filter (λ f, links f a b) (friendships db)).
Proof. reflexivity. Qed.

(** Under pair uniqueness the statement returns the one row of the pair. *)
Lemma pair_unique_get fs f a b :
  pair_unique fs → f ∈ fs → links f a b →
  get (filter (λ g, links g a b) fs) = Some f.
Proof.
  induction fs as [|g fs IH]; intros Huniq Hin Hlinks.
  - by apply elem_of_nil in Hin.
  - destruct Huniq as [Hfresh Huniq]. apply elem_of_cons in Hin as [->|Hin].
    + by rewrite filter_cons_True.
    + destruct (decide (links g a b)) as [Hg|Hg].
      * exfalso. rewrite Forall_forall in Hfresh.
        apply (Hfresh f Hin). by eapply links_transfer.
      * rewrite filter_cons_False by done. by apply IH.
Qed.

Lemma pair_unique_snoc fs f :
  pair_unique fs →
  (∀ g, g ∈ fs → ¬ links g (Friendships.user1_id f) (Friendships.user2_id f)) →
  pair_unique (fs ++ [f]).
Proof.
  induction fs as [|h fs IH]; simpl; intros Huniq Hfresh.
  - split; [constructor | done].
  - destruct Huniq as [Hh Huniq]. split.
    + apply Forall_app. split; [done|]. apply Forall_singleton.
      intros Hf. apply (Hfresh h); [by left|].
      eapply links_transfer; [exact Hf | apply links_columns].
    + apply IH; [done|]. intros g Hg. apply Hfresh. by right.
Qed.

Lemma pair_unique_filter (P : Friendships.row → Prop) `{!∀ x, Decision (P x)} fs :
  pair_unique fs → pair_unique (filter P fs).
Proof.
  induction fs as [|h fs IH]; [done|]. intros [Hh Huniq].
  rewrite filter_cons. destruct (decide (P h)); [|by apply IH].
  split; [|by apply IH].
  rewrite Forall_forall in Hh. apply Forall_forall. intros g Hg.
  apply list_elem_of_filter in Hg as [_ Hg]. by apply Hh.
Qed.

Lemma pair_unique_fmap (h : Friendships.row → Friendships.row) fs :
  (∀ f, Friendships.user1_id (h f) = Friendships.user1_id f ∧
        Friendships.user2_id (h f) = Friendships.user2_id f) →
  pair_unique fs → pair_unique (h <$> fs).
Proof.
  intros Hcols. induction fs as [|g fs IH]; [done|]. intros [Hg Huniq].
  split; [|by apply IH].
  apply Forall_fmap. rewrite Forall_forall in Hg. apply Forall_forall.
  intros x Hx. simpl. unfold links.
  destruct (Hcols x) as [-> ->]. destruct (Hcols g) as [-> ->].
  by apply Hg.
Qed.

(** The handlers that write [friendships] keep the pair unique. *)
Lemma sendFriendRequest_pair_unique db now user b :
  pair_unique (friendships db) →
  pair_unique (friendships (sendFriendRequest db now user b).2).
Proof.
  intros Huniq. unfold sendFriendRequest.
  destruct (_ && _); [done|].
  destruct (findFriend db b) as [friend|]; [|done].
  destruct (_ =? _); [done|].
  destruct (friendshipQueries.checkFriendship _ _ _ _ _) as [existing|] eqn:Hcheck.
  { by destruct (bool_decide _). }
  unfold friendshipQueries.create.
  destruct (bool_decide (Exists _ _)); [done|].
  destruct (bool_decide (_ ∧ _)); [|done].
  simpl. apply pair_unique_snoc; [done|]. simpl. intros g Hg Hlinks.
  rewrite checkFriendship_links in Hcheck.
  by eapply get_filter_None.
Qed.

Lemma acceptFriendRequest_pair_unique db user requestId :
  pair_unique (friendships db) →
  pair_unique (friendships (acceptFriendRequest db user requestId).2).
Proof.
  intros Huniq. unfold acceptFriendRequest.
  destruct (friendshipQueries.findById db requestId); [|done].
  destruct (negb _); [done|]. simpl.
  apply pair_unique_fmap; [|done].
  intros f. by destruct (bool_decide _).
Qed.

Lemma deleteFriend_pair_unique db user friendshipId :
  pair_unique (friendships db) →
  pair_unique (friendships (deleteFriend db user friendshipId).2).
Proof.
  intros Huniq. unfold deleteFriend.
  destruct (friendshipQueries.findById db friendshipId); [|done].
  destruct (_ && _); [done|]. simpl.
  by apply pair_unique_filter.
Qed.

Lemma saveCard_friendships stringify db now user b :
  friendships (saveCard stringify db now user b).2 = friendships db.
Proof.
  unfold saveCard, cardQueries.create. repeat case_match; simplify_eq; done.
Qed.

Lemma addReaction_friendships db now user b :
  friendships (addReaction db now user b).2 = friendships db.
Proof.
  unfold addReaction, reactionQueries.create. repeat case_match; simplify_eq; done.
Qed.

Lemma leaveGroup_friendships db user groupId :
  friendships (leaveGroup db user groupId).2 = friendships db.
Proof.
  unfold leaveGroup. repeat case_match; simplify_eq; done.
Qed.

(** Every writing request keeps the pair unique, so every store reached from
    one that has it, the empty store for one, has it. *)
Lemma handle_pair_unique stringify db now user req :
  pair_unique (friendships db) →
  pair_unique (friendships (handle stringify db now user req).2).
Proof.
  intros Huniq. destruct req; simpl.
  - by rewrite saveCard_friendships.
  - by apply sendFriendRequest_pair_unique.
  - by apply acceptFriendRequest_pair_unique.
  - by apply deleteFriend_pair_unique.
  - by rewrite addReaction_friendships.
  - by rewrite leaveGroup_friendships.
Qed.

Lemma run_pair_unique stringify db trace :
  pair_unique (friendships db) →
  pair_unique (friendships (run stringify db trace)).
Proof.
  unfold run. revert db. induction trace as [|r trace IH]; intros db Huniq; [done|].
  simpl. apply IH. by apply handle_pair_unique.
Qed.

(** The guard holds exactly when the pair has an accepted row. *)
Lemma isAcceptedFriend_true db a b f :
  pair_unique (friendships db) → f ∈ friendships db → links f a b →
  Friendships.status f = accepted → isAcceptedFriend db a b = true.
Proof.
  intros Huniq Hin Hlinks Hst. unfold isAcceptedFriend.
  rewrite checkFriendship_links, (pair_unique_get _ f) by done.
  simpl. by apply bool_decide_eq_true.
Qed.

Lemma isAcceptedFriend_row db a b :
  isAcceptedFriend db a b = true →
  ∃ f, f ∈ friendships db ∧ links f a b ∧ Friendships.status f = accepted.
Proof.
  unfold isAcceptedFriend. rewrite checkFriendship_links.
  destruct (get _) as [f|] eqn:Hget; [|done]. simpl.
  intros Hst%bool_decide_eq_true.
  apply get_filter_Some in Hget as [Hlinks Hin]. eauto.
Qed.

(** C5. Once the row of the unordered pair {A, B} is accepted, the friend
    check answers alike for (A, B) and (B, A), whichever of [user1_id] and
    [user2_id] holds which id; both answers are "friends". *)
Theorem isAcceptedFriend_symmetric db a b f :
  pair_unique (friendships db) →
  f ∈ friendships db → links f a b → Friendships.status f = accepted →
  isAcceptedFriend db a b = isAcceptedFriend db b a ∧
  isAcceptedFriend db a b = true.
Proof.
  intros Huniq Hin Hlinks Hst.
  rewrite (isAcceptedFriend_true db a b f) by done.
  rewrite (isAcceptedFriend_true db b a f); auto using links_sym.
Qed.

Lemma isAcceptedFriend_symmetric_witness :
  isAcceptedFriend sample_db 1 3 = isAcceptedFriend sample_db 3 1 ∧
  isAcceptedFriend sample_db 1 3 = true.
Proof.
  apply (isAcceptedFriend_symmetric sample_db 1 3 (Friendships.mk 2 3 1 accepted 121)).
  - apply (bool_decide_unpack _). vm_compute. exact I.
  - apply list_elem_of_In. simpl. tauto.
  - right. split; reflexivity.
  - reflexivity.
Defined.

(** C3. Fetching a card as a requester without an accepted friendship row
    for the pair is Forbidden whatever the card table holds, so the check
    comes before card existence; with an accepted row and no card of the
    owner it is NotFound. *)
Theorem getFriendCard_forbidden_before_not_found
    (JSON_parse : string → option json) db (requester : jwt_payload) (owner : Z) :
  ((¬ ∃ f, f ∈ friendships db ∧ links f (userId requester) owner ∧
           Friendships.status f = accepted) →
   ∀ cards,
     getFriendCard JSON_parse (set_bingo_cards db cards) requester owner
       = fail 403 "You can only view cards of accepted friends" ∧
     kind (getFriendCard JSON_parse (set_bingo_cards db cards) requester owner)
       = Some Forbidden) ∧
  (pair_unique (friendships db) →
   (∃ f, f ∈ friendships db ∧ links f (userId requester) owner ∧
         Friendships.status f = accepted) →
   (∀ c, c ∈ bingo_cards db → BingoCards.user_id c ≠ owner) →
   getFriendCard JSON_parse db requester owner = fail 404 "Friend has no bingo card" ∧
   kind (getFriendCard JSON_parse db requester owner) = Some NotFound).
Proof.
  split.
  - intros Hnone cards.
    assert (isAcceptedFriend (set_bingo_cards db cards) (userId requester) owner = false)
      as Hguard.
    { apply not_true_is_false. intros Hacc.
      apply isAcceptedFriend_row in Hacc. by apply Hnone. }
    unfold getFriendCard. unfold isAcceptedFriend in Hguard. by rewrite Hguard.
  - intros Huniq (f & Hin & Hlinks & Hst) Hnocard.
    pose proof (isAcceptedFriend_true db _ _ f Huniq Hin Hlinks Hst) as Hguard.
    unfold getFriendCard. unfold isAcceptedFriend in Hguard. rewrite Hguard. simpl.
    destruct (cardQueries.findByUserId db owner) as [card|] eqn:Hcard; [|done].
    apply get_filter_Some in Hcard as [Hown Hcin]. by apply Hnocard in Hcin.
Qed.

Lemma getFriendCard_forbidden_before_not_found_witness :
  getFriendCard sample_parse sample_db (as_user dee) 1
    = fail 403 "You can only view cards of accepted friends" ∧
  getFriendCard sample_parse sample_db (as_user ann) 2
    = fail 404 "Friend has no bingo card".
Proof.
  split.
  - destruct (getFriendCard_forbidden_before_not_found
                sample_parse sample_db (as_user dee) 1) as [Hforbidden _].
    refine (proj1 (Hforbidden _ (bingo_cards sample_db))).
    intros (f & Hin & Hlinks & Hst). unfold links in Hlinks.
    each_row Hin; simpl in *; first [discriminate | lia].
  - destruct (getFriendCard_forbidden_before_not_found
                sample_parse sample_db (as_user ann) 2) as [_ Hnotfound].
    refine (proj1 (Hnotfound _ _ _)).
    + apply (bool_decide_unpack _). vm_compute. exact I.
    + exists (Friendships.mk 1 1 2 accepted 120). split; [|split].
      * apply list_elem_of_In. simpl. tauto.
      * left. split; reflexivity.
      * reflexivity.
    + intros c Hin. each_row Hin. simpl. lia.
Defined.

(** ** Friend requests *)

Lemma findFriend_truthy db b target :
  findFriend db b = Some target →
  negb (truthy_string (FriendRequestBody.friendEmail b)) &&
  negb (truthy_string (FriendRequestBody.friendUsername b)) = false.
Proof.
  unfold findFriend, truthy_string.
  destruct b as [[friendEmail|] [friendUsername|]]; simpl;
    repeat case_match; simplify_eq; try done; by rewrite ?andb_false_r.
Qed.

(** C6. While a friendship row for the pair of two distinct users exists
    (its status is pending or accepted), a friend request between them, in
    either direction, is a Conflict and leaves the store as it was. *)
Theorem repeat_friend_request_conflict db now (sender : jwt_payload) b target f :
  findFriend db b = Some target →
  Users.id target ≠ userId sender →
  f ∈ friendships db →
  links f (userId sender) (Users.id target) →
  ∃ msg, sendFriendRequest db now sender b = (fail 409 msg, db) ∧
         kind (fail 409 msg) = Some Conflict.
Proof.
  intros Hfind Hne Hin Hlinks. unfold sendFriendRequest.
  rewrite (findFriend_truthy _ _ _ Hfind), Hfind.
  apply Z.eqb_neq in Hne as ->.
  rewrite checkFriendship_links.
  destruct (get_filter_is_Some (λ g, links g (userId sender) (Users.id target))
              _ f Hin Hlinks) as [existing ->].
  destruct (bool_decide _); eauto.
Qed.

Lemma repeat_friend_request_conflict_witness :
  ∃ msg, sendFriendRequest sample_db 200 (as_user bo)
           (FriendRequestBody.mk (Some "ann@x.com") None) = (fail 409 msg, sample_db) ∧
         kind (fail 409 msg) = Some Conflict.
Proof.
  apply (repeat_friend_request_conflict sample_db 200 (as_user bo) _ ann
           (Friendships.mk 1 1 2 accepted 120)).
  - reflexivity.
  - simpl. lia.
  - apply list_elem_of_In. simpl. tauto.
  - right. split; reflexivity.
Defined.

(** ** Keys, joins and counts *)

Section Keys.
Context {A K : Type} `{!EqDecision K} (key : A → K).

Lemma NoDup_key_inj (l : list A) x y :
  NoDup (key <$> l) → x ∈ l → y ∈ l → key x = key y → x = y.
Proof.
  induction l as [|h l IH]; intros Hnd Hx Hy Hk.
  - by apply elem_of_nil in Hx.
  - rewrite fmap_cons in Hnd. apply NoDup_cons in Hnd as [Hh Hnd].
    apply elem_of_cons in Hx as [->|Hx]; apply elem_of_cons in Hy as [->|Hy].
    + done.
    + exfalso. apply Hh. rewrite Hk. by apply list_elem_of_fmap_2.
    + exfalso. apply Hh. rewrite <- Hk. by apply list_elem_of_fmap_2.
    + by apply IH.
Qed.

Lemma filter_key_singleton (l : list A) k :
  NoDup (key <$> l) → k ∈ key <$> l → ∃ x, filter (λ y, key y = k) l = [x].
Proof.
  induction l as [|h l IH]; intros Hnd Hk.
  - by apply elem_of_nil in Hk.
  - rewrite fmap_cons in Hnd, Hk. apply NoDup_cons in Hnd as [Hh Hnd].
    destruct (decide (key h = k)) as [Heq|Hne].
    + exists h. rewrite filter_cons_True by done. f_equal.
      destruct (filter (λ y, key y = k) l) as [|z zs] eqn:Hf; [done|].
      exfalso. apply Hh.
      assert (z ∈ filter (λ y, key y = k) l) as Hz by (rewrite Hf; by left).
      apply list_elem_of_filter in Hz as [Hzk Hz].
      rewrite Heq, <- Hzk. by apply list_elem_of_fmap_2.
    + rewrite filter_cons_False by done. apply IH; [done|].
      apply elem_of_cons in Hk as [Hk|Hk]; [by symmetry in Hk|done].
Qed.

Lemma length_filter_one_key (P : A → Prop) `{!∀ x, Decision (P x)} (l : list A) k x :
  NoDup (key <$> l) → (∀ y, y ∈ l → P y → key y = k) → x ∈ l → P x →
  length (filter P l) = 1%nat.
Proof.
  intros Hnd Hall Hx HPx.
  assert (filter P l = [x]) as ->; [|done].
  assert (x ∈ filter P l) as Hxf by (by apply list_elem_of_filter).
  assert (∀ y, y ∈ filter P l → y = x) as Hsame.
  { intros y [HPy Hy]%list_elem_of_filter.
    apply (NoDup_key_inj l); [done..|].
    rewrite (Hall y), (Hall x); done. }
  assert (NoDup (filter P l)) as Hndf.
  { apply NoDup_filter. by eapply NoDup_fmap_1. }
  destruct (filter P l) as [|z [|z' zs]].
  - by apply elem_of_nil in Hxf.
  - f_equal. apply Hsame. by left.
  - exfalso. apply NoDup_cons in Hndf as [Hz _]. apply Hz.
    rewrite (Hsame z) by (by left).
    rewrite (Hsame z') by (right; by left). by left.
Qed.

End Keys.

Lemma length_two_distinct {A} (l : list A) x y :
  x ∈ l → y ∈ l → x ≠ y → (1 < length l)%nat.
Proof.
  intros Hx Hy Hne. destruct l as [|a [|b l]]; simpl; [..|lia].
  - by apply elem_of_nil in Hx.
  - apply list_elem_of_singleton in Hx. apply list_elem_of_singleton in Hy.
    congruence.
Qed.

Lemma filter_fst_fmap {A B} (P : A → Prop) `{!∀ x, Decision (P x)} (l : list (A * B)) :
  (filter (λ x, P x.1) l).*1 = filter P (l.*1).
Proof.
  induction l as [|[a b] l IH]; [done|].
  rewrite fmap_cons, !filter_cons. cbn [fst].
  destruct (decide (P a)); [rewrite fmap_cons; f_equal|]; exact IH.
Qed.

(** With the primary key of [users] and the foreign key of the joined
    column, the join keeps every row once. *)
Lemma join_user_name_fst {A} db (key : A → Z) (rows : list A) :
  NoDup (Users.id <$> users db) →
  (∀ r, r ∈ rows → key r ∈ Users.id <$> users db) →
  (join_user_name db key rows).*1 = rows.
Proof.
  intros Hpk. unfold join_user_name.
  induction rows as [|r rows IH]; intros Hfk; [done|].
  rewrite bind_cons, fmap_app, IH by (intros; apply Hfk; by right).
  destruct (filter_key_singleton Users.id (users db) (key r) Hpk) as [u ->].
  { apply Hfk. by left. }
  done.
Qed.

(** ** Leaving a group *)

Lemma getGroupMembers_rows db g :
  constraints_hold db →
  (groupQueries.getGroupMembers db g).*1 ≡ₚ
  filter (λ m, GroupMembers.group_id m = g ∧ GroupMembers.status m = accepted)
    (group_members db).
Proof.
  intros Hdb. unfold groupQueries.getGroupMembers.
  rewrite merge_sort_Permutation, join_user_name_fst; [done|apply Hdb|].
  intros r [_ Hr]%list_elem_of_filter. by apply (fk_member_user db Hdb).
Qed.

Lemma sample_db_constraints : constraints_hold sample_db.
Proof.
  split; try (apply Forall_forall); apply (bool_decide_unpack _); vm_compute; exact I.
Defined.

Lemma sample_db_sole_admin : sole_admin_with_others sample_db 1 1.
Proof.
  split; [|split].
  - exists (GroupMembers.mk 1 1 1 admin accepted 150).
    split; [apply list_elem_of_In; simpl; tauto | done].
  - intros m Hin _ Hrole. each_row Hin; simpl in *; first [reflexivity | discriminate].
  - exists (GroupMembers.mk 2 1 2 member accepted 151).
    split; [apply list_elem_of_In; simpl; tauto | done].
Defined.

(** C1, as the code has it. When the caller is the only admin of a group that
    has another accepted member, leaving is refused with status 400
    (BadRequest) and the store, the caller's membership row included, is
    left as it was. *)
Theorem leave_sole_admin_rejected db (user : jwt_payload) g :
  constraints_hold db →
  sole_admin_with_others db (userId user) g →
  leaveGroup db user g =
    (fail 400
       "Cannot leave: you are the only admin. Transfer admin role first or delete the group.",
     db) ∧
  kind (leaveGroup db user g).1 = Some BadRequest ∧
  group_members (leaveGroup db user g).2 = group_members db.
Proof.
  intros Hdb ((m & Hm & Hmg & Hmu & Hmrole & Hmst) & Hsole &
              (other & Ho & Hog & Hou & Host)).
  set (key := λ m, (GroupMembers.group_id m, GroupMembers.user_id m)).
  match goal with |- ?lhs = ?rhs ∧ _ => assert (lhs = rhs) as Heq; [|by rewrite Heq] end.
  unfold leaveGroup.
  destruct (groupQueries.getMember db g (userId user)) as [membership|] eqn:Hget.
  2:{ exfalso. eapply (get_filter_None _ _ Hget m); done. }
  apply get_filter_Some in Hget as [[Hg Hu] Hin].
  assert (membership = m) as ->.
  { apply (NoDup_key_inj key (group_members db)); [apply Hdb|done..|].
    unfold key. congruence. }
  pose proof (getGroupMembers_rows db g Hdb) as Hrows.
  set (members := groupQueries.getGroupMembers db g) in *.
  assert (length members = length (filter (λ m, GroupMembers.group_id m = g ∧
            GroupMembers.status m = accepted) (group_members db))) as Hlen.
  { rewrite <- Hrows. by rewrite length_fmap. }
  assert (length (filter (λ x, GroupMembers.role x.1 = admin) members) = 1%nat) as ->.
  { pose proof (filter_fst_fmap (λ m, GroupMembers.role m = admin) members) as Hfst.
    cbv beta in Hfst.
    rewrite <- (length_fmap fst), Hfst, Hrows, list_filter_filter.
    apply (length_filter_one_key key _ _ (g, userId user) m); [apply Hdb| |done|done].
    intros y Hy (Hrole & Hyg & _). unfold key. f_equal; [done|by apply Hsole]. }
  assert (1 < length members)%nat as Hmany.
  { rewrite Hlen. apply (length_two_distinct _ m other).
    - by apply list_elem_of_filter.
    - by apply list_elem_of_filter.
    - intros ->. done. }
  apply Nat.ltb_lt in Hmany as ->.
  by rewrite bool_decide_eq_true_2.
Qed.

Lemma leave_sole_admin_rejected_witness :
  kind (leaveGroup sample_db (as_user ann) 1).1 = Some BadRequest ∧
  group_members (leaveGroup sample_db (as_user ann) 1).2 = group_members sample_db.
Proof.
  refine (proj2 (leave_sole_admin_rejected sample_db (as_user ann) 1 _ _)).
  - exact sample_db_constraints.
  - exact sample_db_sole_admin.
Defined.

(** C1, as the claim words it, fails: in the sample store Ann is the only
    admin of a group with another member, and her leave request is answered
    with BadRequest, not Conflict. *)
Lemma leave_sole_admin_not_conflict :
  sole_admin_with_others sample_db 1 1 ∧
  kind (leaveGroup sample_db (as_user ann) 1).1 = Some BadRequest ∧
  kind (leaveGroup sample_db (as_user ann) 1).1 ≠ Some Conflict.
Proof.
  split; [exact sample_db_sole_admin|]. split; [reflexivity|discriminate].
Qed.

(** ** Token verification *)

Lemma split_no_space token : no_space token → split token " " = [token].
Proof.
  induction token as [|c token IH]; [done|]. intros [Hc Hrest]. simpl.
  rewrite (proj2 (Ascii.eqb_neq c " ") Hc), IH; done.
Qed.

Lemma bearer_token_Bearer token :
  no_space token → bearer_token (Some ("Bearer " +:+ token)) = Some token.
Proof.
  intros Hns. unfold bearer_token. simpl. by rewrite split_no_space.
Qed.

(** C2, as the code has it. A request without a bearer token is
    Unauthorized (401); a token that [jwt.verify] rejects, malformed or
    expired, is answered with status 403; a token it accepts hands its
    payload, the user id included, to the handler. *)
Theorem authenticateToken_outcomes verify secret token :
  no_space token → token ≠ "" →
  (∀ authHeader, truthy_string (bearer_token authHeader) = false →
     authenticateToken verify secret authHeader
       = inl (fail 401 "Access token required")) ∧
  kind (fail 401 "Access token required") = Some Unauthorized ∧
  (∀ err, verify token secret = inl err →
     authenticateToken verify secret (Some ("Bearer " +:+ token))
       = inl (fail 403 "Invalid or expired token")) ∧
  kind (fail 403 "Invalid or expired token") = Some Forbidden ∧
  (∀ user, verify token secret = inr user →
     authenticateToken verify secret (Some ("Bearer " +:+ token)) = inr user).
Proof.
  intros Hns Hne.
  assert (String.eqb token "" = false) as Hnonempty by (by apply String.eqb_neq).
  repeat split.
  - intros authHeader Hmissing. unfold authenticateToken.
    destruct (bearer_token authHeader) as [t|]; [|done]. simpl in Hmissing.
    apply negb_false_iff in Hmissing. by rewrite Hmissing.
  - intros err Hverify. unfold authenticateToken.
    by rewrite bearer_token_Bearer, Hnonempty, Hverify.
  - intros user Hverify. unfold authenticateToken.
    by rewrite bearer_token_Bearer, Hnonempty, Hverify.
Qed.

Lemma authenticateToken_outcomes_witness :
  authenticateToken sample_verify "k" (Some "Bearer") = inl (fail 401 "Access token required") ∧
  authenticateToken sample_verify "k" (Some "Bearer old.token")
    = inl (fail 403 "Invalid or expired token") ∧
  authenticateToken sample_verify "k" (Some "Bearer ann.token") = inr (as_user ann).
Proof.
  split; [|split].
  - refine (proj1 (authenticateToken_outcomes sample_verify "k" "old.token" _ _) _ _).
    + vm_compute. repeat split; discriminate.
    + discriminate.
    + reflexivity.
  - refine (proj1 (proj2 (proj2
      (authenticateToken_outcomes sample_verify "k" "old.token" _ _))) TokenExpiredError _).
    + vm_compute. repeat split; discriminate.
    + discriminate.
    + reflexivity.
  - refine (proj2 (proj2 (proj2 (proj2
      (authenticateToken_outcomes sample_verify "k" "ann.token" _ _)))) _ _).
    + vm_compute. repeat split; discriminate.
    + discriminate.
    + reflexivity.
Defined.

(** C2, as the claim words it, fails: an expired token is answered with
    Forbidden, not Unauthorized. *)
Lemma authenticateToken_expired_not_unauthorized :
  sample_verify "old.token" "k" = inl TokenExpiredError ∧
  ∃ r, authenticateToken sample_verify "k" (Some "Bearer old.token") = inl r ∧
       kind r = Some Forbidden ∧ kind r ≠ Some Unauthorized.
Proof.
  split; [reflexivity|]. eexists. split; [reflexivity|]. split; [reflexivity|discriminate].
Qed.

(** ** Comment listings *)

Lemma getByCard_elem db owner x :
  x ∈ commentQueries.getByCard db owner ↔
  x ∈ join_user_name db Comments.author_id
        (filter (λ c, Comments.card_owner_id c = owner) (comments db)).
Proof. unfold commentQueries.getByCard. by rewrite merge_sort_Permutation. Qed.

Lemma getByTask_elem db owner row col x :
  x ∈ commentQueries.getByTask db owner row col ↔
  x ∈ join_user_name db Comments.author_id
        (filter (λ c, Comments.card_owner_id c = owner ∧
                      Comments.row_ c = row ∧ Comments.col c = col) (comments db)).
Proof. unfold commentQueries.getByTask. by rewrite merge_sort_Permutation. Qed.

(** A stored comment whose author exists is in both query results. *)
Lemma comment_row_queried db c :
  c ∈ comments db → Comments.author_id c ∈ Users.id <$> users db →
  ∃ author_name,
    (c, author_name) ∈ commentQueries.getByCard db (Comments.card_owner_id c) ∧
    (c, author_name) ∈ commentQueries.getByTask db (Comments.card_owner_id c)
                         (Comments.row_ c) (Comments.col c).
Proof.
  intros Hc Hfk. apply list_elem_of_fmap in Hfk as (u & Hid & Hu).
  exists (Users.name u). rewrite getByCard_elem, getByTask_elem.
  split; unfold join_user_name; apply list_elem_of_bind; exists c;
    (split; [|by apply list_elem_of_filter]);
    apply list_elem_of_bind; exists u;
    (split; [by left | by apply list_elem_of_filter]).
Qed.

Lemma visible_to_private_other viewer owner x :
  viewer ≠ owner → viewer ≠ Comments.author_id x.1 → Comments.is_private x.1 ≠ 0 →
  visible_to viewer owner x = false.
Proof.
  intros Ho Ha Hp. unfold visible_to.
  rewrite (proj2 (Z.eqb_neq owner viewer)) by done.
  rewrite (proj2 (Z.eqb_neq _ 0) Hp).
  by rewrite (proj2 (Z.eqb_neq (Comments.author_id x.1) viewer)).
Qed.

Lemma visible_to_party viewer owner x :
  viewer = owner ∨ viewer = Comments.author_id x.1 →
  visible_to viewer owner x = true.
Proof.
  intros Hparty. unfold visible_to.
  destruct (Z.eqb_spec owner viewer) as [|Hne]; [done|].
  destruct Hparty as [->| ->]; [done|].
  by rewrite Z.eqb_refl, orb_true_r.
Qed.

Lemma listed_ok rows : listed (ok (CommentList rows)) = Some (rows.*1).
Proof. reflexivity. Qed.

Lemma getCardComments_listed db viewer owner rows :
  listed (getCardComments db viewer owner) = Some rows →
  rows = (filter (visible_to (userId viewer) owner)
            (commentQueries.getByCard db owner)).*1.
Proof.
  unfold getCardComments. destruct (_ && _); [done|].
  rewrite listed_ok. congruence.
Qed.

Lemma getTaskComments_listed db viewer owner row col rows :
  listed (getTaskComments db viewer owner row col) = Some rows →
  rows = (filter (visible_to (userId viewer) owner)
            (commentQueries.getByTask db owner row col)).*1.
Proof.
  unfold getTaskComments. destruct (_ && _); [done|].
  rewrite listed_ok. congruence.
Qed.

Lemma getCardComments_allowed db viewer owner :
  userId viewer = owner ∨ isAcceptedFriend db (userId viewer) owner = true →
  is_Some (listed (getCardComments db viewer owner)).
Proof.
  intros Hallowed. unfold getCardComments.
  assert (negb (owner =? userId viewer) &&
          negb (accepted_row (friendshipQueries.checkFriendship db
                  (userId viewer) owner owner (userId viewer))) = false) as ->; [|done].
  destruct Hallowed as [->|Hfriend].
  - by rewrite Z.eqb_refl.
  - unfold isAcceptedFriend in Hfriend. by rewrite Hfriend, andb_false_r.
Qed.

Lemma getTaskComments_allowed db viewer owner row col :
  userId viewer = owner ∨ isAcceptedFriend db (userId viewer) owner = true →
  is_Some (listed (getTaskComments db viewer owner row col)).
Proof.
  intros Hallowed. unfold getTaskComments.
  assert (negb (owner =? userId viewer) &&
          negb (accepted_row (friendshipQueries.checkFriendship db
                  (userId viewer) owner owner (userId viewer))) = false) as ->; [|done].
  destruct Hallowed as [->|Hfriend].
  - by rewrite Z.eqb_refl.
  - unfold isAcceptedFriend in Hfriend. by rewrite Hfriend, andb_false_r.
Qed.

Lemma private_hidden viewer owner c (result : list (Comments.row * string)) :
  viewer ≠ owner → viewer ≠ Comments.author_id c → Comments.is_private c ≠ 0 →
  c ∉ (filter (visible_to viewer owner) result).*1.
Proof.
  intros Ho Ha Hp ([c' n] & -> & Hx)%list_elem_of_fmap.
  apply list_elem_of_filter in Hx as [Hvis _].
  by rewrite visible_to_private_other in Hvis.
Qed.

Lemma party_shown viewer owner c n (result : list (Comments.row * string)) :
  viewer = owner ∨ viewer = Comments.author_id c → (c, n) ∈ result →
  c ∈ (filter (visible_to viewer owner) result).*1.
Proof.
  intros Hparty Hin. apply list_elem_of_fmap. exists (c, n). split; [done|].
  apply list_elem_of_filter. split; [|done].
  by rewrite visible_to_party.
Qed.

(** C4. A private comment by A on B's card is in no comment list returned
    to a third user C, accepted friends of B (who do get a list) included;
    it is in the list returned to B, and in every list returned to A, who
    gets one while an accepted friend of B.  Both listing routes. *)
Theorem private_comment_non_leakage db c (viewer : jwt_payload) :
  constraints_hold db →
  c ∈ comments db →
  Comments.is_private c ≠ 0 →
  (userId viewer ≠ Comments.author_id c →
   userId viewer ≠ Comments.card_owner_id c →
     (∀ rows, listed (getCardComments db viewer (Comments.card_owner_id c)) = Some rows →
              c ∉ rows) ∧
     (∀ row col rows,
        listed (getTaskComments db viewer (Comments.card_owner_id c) row col) = Some rows →
        c ∉ rows) ∧
     (isAcceptedFriend db (userId viewer) (Comments.card_owner_id c) = true →
        is_Some (listed (getCardComments db viewer (Comments.card_owner_id c))) ∧
        ∀ row col,
          is_Some (listed (getTaskComments db viewer (Comments.card_owner_id c) row col)))) ∧
  (userId viewer = Comments.card_owner_id c →
     (∃ rows, listed (getCardComments db viewer (Comments.card_owner_id c)) = Some rows ∧
              c ∈ rows) ∧
     (∃ rows, listed (getTaskComments db viewer (Comments.card_owner_id c)
                        (Comments.row_ c) (Comments.col c)) = Some rows ∧
              c ∈ rows)) ∧
  (userId viewer = Comments.author_id c →
     (∀ rows, listed (getCardComments db viewer (Comments.card_owner_id c)) = Some rows →
              c ∈ rows) ∧
     (∀ rows, listed (getTaskComments db viewer (Comments.card_owner_id c)
                        (Comments.row_ c) (Comments.col c)) = Some rows →
              c ∈ rows) ∧
     (isAcceptedFriend db (userId viewer) (Comments.card_owner_id c) = true →
        is_Some (listed (getCardComments db viewer (Comments.card_owner_id c))) ∧
        is_Some (listed (getTaskComments db viewer (Comments.card_owner_id c)
                           (Comments.row_ c) (Comments.col c))))).
Proof.
  intros Hdb Hc Hprivate.
  destruct (comment_row_queried db c Hc (fk_comment_author db Hdb c Hc))
    as (n & Hcard & Htask).
  split; [|split].
  - intros Hauthor Howner. split; [|split].
    + intros rows ->%getCardComments_listed. by apply private_hidden.
    + intros row col rows ->%getTaskComments_listed. by apply private_hidden.
    + intros Hfriend. split; [|intros row col].
      * apply getCardComments_allowed. by right.
      * apply getTaskComments_allowed. by right.
  - intros Howner. split.
    + destruct (getCardComments_allowed db viewer (Comments.card_owner_id c))
        as [rows Hrows]; [by left|].
      exists rows. split; [done|].
      apply getCardComments_listed in Hrows as ->.
      apply (party_shown _ _ _ n); [by left|done].
    + destruct (getTaskComments_allowed db viewer (Comments.card_owner_id c)
                  (Comments.row_ c) (Comments.col c)) as [rows Hrows]; [by left|].
      exists rows. split; [done|].
      apply getTaskComments_listed in Hrows as ->.
      apply (party_shown _ _ _ n); [by left|done].
  - intros Hauthor. split; [|split].
    + intros rows ->%getCardComments_listed.
      apply (party_shown _ _ _ n); [by right|done].
    + intros rows ->%getTaskComments_listed.
      apply (party_shown _ _ _ n); [by right|done].
    + intros Hfriend. split.
      * apply getCardComments_allowed. by right.
      * apply getTaskComments_allowed. by right.
Qed.

Lemma private_comment_non_leakage_witness :
  (∀ rows, listed (getCardComments sample_db (as_user cy) 1) = Some rows →
           Comments.mk 1 2 1 0 0 "well done" 1 130 ∉ rows) ∧
  is_Some (listed (getCardComments sample_db (as_user cy) 1)) ∧
  (∃ rows, listed (getCardComments sample_db (as_user ann) 1) = Some rows ∧
           Comments.mk 1 2 1 0 0 "well done" 1 130 ∈ rows) ∧
  (∀ rows, listed (getCardComments sample_db (as_user bo) 1) = Some rows →
           Comments.mk 1 2 1 0 0 "well done" 1 130 ∈ rows).
Proof.
  assert (Comments.mk 1 2 1 0 0 "well done" 1 130 ∈ comments sample_db) as Hin.
  { apply list_elem_of_In. simpl. tauto. }
  assert (Comments.is_private (Comments.mk 1 2 1 0 0 "well done" 1 130) ≠ 0) as Hprivate.
  { simpl. lia. }
  split; [|split; [|split]].
  - refine (proj1 (proj1 (private_comment_non_leakage sample_db _ (as_user cy)
                            sample_db_constraints Hin Hprivate) _ _)).
    + simpl. lia.
    + simpl. lia.
  - refine (proj1 (proj2 (proj2 (proj1 (private_comment_non_leakage sample_db _ (as_user cy)
                            sample_db_constraints Hin Hprivate) _ _)) _)).
    + simpl. lia.
    + simpl. lia.
    + reflexivity.
  - refine (proj1 (proj1 (proj2 (private_comment_non_leakage sample_db _ (as_user ann)
                            sample_db_constraints Hin Hprivate)) _)).
    reflexivity.
  - refine (proj1 (proj2 (proj2 (private_comment_non_leakage sample_db _ (as_user bo)
                            sample_db_constraints Hin Hprivate)) _)).
    reflexivity.
Defined.

(** ** Reactions *)

(** C7. Adding a reaction whose (comment, user, emoji) triple is already
    stored is a Conflict and leaves the store as it was; adding, for the same
    user and comment, an emoji not yet used by them succeeds and appends the
    row. *)
Theorem duplicate_reaction_conflict db now (user : jwt_payload) c e r :
  constraints_hold db →
  r ∈ reactions db →
  Reactions.comment_id r = c → Reactions.user_id r = userId user →
  Reactions.emoji r = e →
  c ≠ 0 → e ≠ "" →
  addReaction db now user (ReactionBody.mk (Some c) (Some e))
    = (fail 409 "You already reacted with this emoji", db) ∧
  kind (addReaction db now user (ReactionBody.mk (Some c) (Some e))).1 = Some Conflict ∧
  ∀ e', e' ≠ "" →
    (∀ r', r' ∈ reactions db →
       ¬ (Reactions.comment_id r' = c ∧ Reactions.user_id r' = userId user ∧
          Reactions.emoji r' = e')) →
    ∃ db' rowid,
      addReaction db now user (ReactionBody.mk (Some c) (Some e'))
        = (mkResponse 201 (Message "Reaction added successfully"), db') ∧
      reactions db' = (reactions db ++ [Reactions.mk rowid c (userId user) e' now])%list.
Proof.
  intros Hdb Hr Hc Hu He Hc0 He0.
  apply Z.eqb_neq in Hc0.
  assert (addReaction db now user (ReactionBody.mk (Some c) (Some e))
          = (fail 409 "You already reacted with this emoji", db)) as Hdup.
  { unfold addReaction. simpl. rewrite Hc0, (proj2 (String.eqb_neq e "") He0). simpl.
    unfold reactionQueries.create. rewrite bool_decide_eq_true_2; [done|].
    apply Exists_exists. by exists r. }
  split; [done|]. split; [by rewrite Hdup|].
  intros e' He' Hfresh.
  unfold addReaction. simpl. rewrite Hc0, (proj2 (String.eqb_neq e' "") He'). simpl.
  unfold reactionQueries.create.
  rewrite bool_decide_eq_false_2.
  2:{ intros (r' & Hr' & Htriple)%Exists_exists. by eapply Hfresh. }
  rewrite bool_decide_eq_true_2.
  2:{ split.
      - rewrite <- Hc. by apply (fk_reaction_comment db Hdb).
      - rewrite <- Hu. by apply (fk_reaction_user db Hdb). }
  eexists _, _. split; reflexivity.
Qed.

Lemma duplicate_reaction_conflict_witness :
  addReaction sample_db 200 (as_user bo) (ReactionBody.mk (Some 1) (Some "🎉"))
    = (fail 409 "You already reacted with this emoji", sample_db) ∧
  ∃ db' rowid,
    addReaction sample_db 200 (as_user bo) (ReactionBody.mk (Some 1) (Some "👍"))
      = (mkResponse 201 (Message "Reaction added successfully"), db') ∧
    reactions db' = (reactions sample_db ++ [Reactions.mk rowid 1 2 "👍" 200])%list.
Proof.
  assert (Reactions.mk 1 1 2 "🎉" 140 ∈ reactions sample_db) as Hin.
  { apply list_elem_of_In. simpl. tauto. }
  assert ("🎉" ≠ "") as Hemoji by discriminate.
  assert ((1 : Z) ≠ 0) as Hid by lia.
  split.
  - exact (proj1 (duplicate_reaction_conflict sample_db 200 (as_user bo) 1 "🎉" _
                    sample_db_constraints Hin eq_refl eq_refl eq_refl Hid Hemoji)).
  - refine (proj2 (proj2 (duplicate_reaction_conflict sample_db 200 (as_user bo) 1 "🎉" _
                    sample_db_constraints Hin eq_refl eq_refl eq_refl Hid Hemoji)) "👍" _ _).
    + discriminate.
    + intros r' Hr' (_ & _ & He'). each_row Hr'. discriminate.
Defined.

(** ** Listing reactions *)

(** The handler never looks at the caller. *)
Lemma getReactions_any_caller db (user user' : jwt_payload) commentId :
  getReactions db user commentId = getReactions db user' commentId.
Proof. reflexivity. Qed.

Lemma names_of_cons_same e r rows :
  Reactions.emoji r.1 = e → names_of e (r :: rows) = r.2 :: names_of e rows.
Proof. intros He. unfold names_of. by rewrite filter_cons_True. Qed.

Lemma names_of_cons_other e r rows :
  Reactions.emoji r.1 ≠ e → names_of e (r :: rows) = names_of e rows.
Proof. intros He. unfold names_of. by rewrite filter_cons_False. Qed.

Lemma group_reaction_own grouped r :
  Reactions.emoji r.1 ∉ Object_prototype_keys →
  group_reaction grouped r =
  Some (<[Reactions.emoji r.1 :=
            (default [] (grouped !! Reactions.emoji r.1) ++ [r.2])%list]> grouped).
Proof.
  intros Hown. unfold group_reaction.
  destruct (grouped !! Reactions.emoji r.1); [done|].
  by rewrite bool_decide_eq_false_2.
Qed.

(** While no emoji names a member of [Object.prototype], the loop ends with
    every emoji mapped to its reactors in result order. *)
Lemma group_reactions_from grouped rows :
  Forall (λ r, Reactions.emoji r.1 ∉ Object_prototype_keys) rows →
  ∃ result,
    foldl (λ acc reaction, acc ≫= λ g, group_reaction g reaction) (Some grouped) rows
      = Some result ∧
    ∀ e, result !! e =
         match names_of e rows with
         | [] => grouped !! e
         | names => Some (default [] (grouped !! e) ++ names)%list
         end.
Proof.
  revert grouped. induction rows as [|r rows IH]; intros grouped Hown.
  - exists grouped. split; [done|]. intros e. done.
  - apply Forall_cons in Hown as [Hr Hown]. simpl.
    rewrite group_reaction_own by done.
    destruct (IH (<[Reactions.emoji r.1 :=
                      (default [] (grouped !! Reactions.emoji r.1) ++ [r.2])%list]> grouped)
                 Hown) as (result & -> & Hlookup).
    exists result. split; [done|]. intros e. rewrite Hlookup.
    destruct (decide (Reactions.emoji r.1 = e)) as [<-|Hne].
    + rewrite names_of_cons_same, lookup_insert_eq by done. simpl.
      destruct (names_of _ rows); [done|]. by rewrite <- app_assoc.
    + rewrite names_of_cons_other, lookup_insert_ne by done. done.
Qed.

Lemma getReactions_grouped db (user : jwt_payload) commentId :
  Forall (λ r, Reactions.emoji r.1 ∉ Object_prototype_keys)
    (reactionQueries.getByComment db commentId) →
  ∃ grouped,
    getReactions db user commentId = ok (ReactionMap grouped) ∧
    ∀ e, grouped !! e =
         match names_of e (reactionQueries.getByComment db commentId) with
         | [] => None
         | names => Some names
         end.
Proof.
  intros Hown. unfold getReactions, group_reactions.
  destruct (group_reactions_from ∅ _ Hown) as (grouped & -> & Hlookup).
  exists grouped. split; [done|]. intros e. rewrite Hlookup, lookup_empty. done.
Qed.

(** C9 fails on the code. Cy reacts to comment 1 with the text "toString";
    the store accepts it, and from then on listing the reactions of that
    comment answers 500 instead of the grouped reactions: the lookup
    [grouped["toString"]] finds the inherited method, so no array is created
    and [push] throws. *)
Theorem getReactions_inherited_key_fails :
  ∃ db',
    addReaction sample_db 141 (as_user cy) (ReactionBody.mk (Some 1) (Some "toString"))
      = (mkResponse 201 (Message "Reaction added successfully"), db') ∧
    reactionQueries.getByComment db' 1
      = [ (Reactions.mk 1 1 2 "🎉" 140, "Bo");
          (Reactions.mk 2 1 3 "toString" 141, "Cy") ] ∧
    getReactions db' (as_user ann) 1 = fail 500 "Failed to get reactions".
Proof. eexists. split; [reflexivity|]. split; vm_compute; reflexivity. Qed.

(** ** Admin analytics *)

Lemma non_admin_count db :
  adminQueries.getTotalUsers db = spec_user_count db.
Proof.
  unfold adminQueries.getTotalUsers, spec_user_count.
  pose proof (filter_app_complement (λ u, Users.is_admin u = 0) (users db)) as Hperm.
  apply Permutation_length in Hperm. rewrite length_app in Hperm. lia.
Qed.

(** C8. The analytics report counts as users exactly those whose admin flag
    is 0, all users less the flagged ones, and reports as comment count the
    card comments plus the group comments. *)
Theorem analytics_counts db :
  getAnalytics db =
    ok (Analytics (mkAnalytics
          (Z.of_nat (length (filter (λ u, Users.is_admin u = 0) (users db))))
          (Z.of_nat (length (bingo_cards db)))
          (Z.of_nat (length (groups db)))
          (spec_comment_count db)
          (adminQueries.getRecentUsers db 10))) ∧
  Z.of_nat (length (filter (λ u, Users.is_admin u = 0) (users db))) = spec_user_count db.
Proof. split; [reflexivity|]. apply non_admin_count. Qed.

(** An admin's valid token reaches the report; anyone else is turned away. *)
Lemma adminAnalyticsRoute_admin verify secret db token (user : jwt_payload) u :
  no_space token → token ≠ "" → verify token secret = inr user →
  adminQueries.isAdmin db (userId user) = Some u →
  adminAnalyticsRoute verify secret db (Some ("Bearer " +:+ token)) =
    if u =? 0 then fail 403 "Admin access required" else getAnalytics db.
Proof.
  intros Hns Hne Hverify Hadmin. unfold adminAnalyticsRoute, authenticateAdmin.
  rewrite bearer_token_Bearer, (proj2 (String.eqb_neq token "") Hne), Hverify, Hadmin by done.
  by destruct (u =? 0).
Qed.

(** ** Saving a card *)

Lemma update_frame db now grid_data completed_data user_id :
  card_frame <$> bingo_cards (cardQueries.update db now grid_data completed_data user_id)
  = card_frame <$> bingo_cards db.
Proof.
  unfold cardQueries.update. simpl. rewrite <- list_fmap_compose.
  apply list_fmap_ext. intros i c _. simpl. by destruct (bool_decide _).
Qed.

(** C10. For a user who has a card row, a save with any payload keeps the
    id, owner, size and creation time of every card row; an accepted payload
    is answered by the update statement alone, which rewrites the grid, the
    completion data and the update time of the user's rows. *)
Theorem saveCard_update_keeps_size (JSON_stringify : json → string)
    db now (user : jwt_payload) b card :
  card ∈ bingo_cards db →
  BingoCards.user_id card = userId user →
  card_frame <$> bingo_cards (saveCard JSON_stringify db now user b).2
    = card_frame <$> bingo_cards db ∧
  (BingoCards.size <$> bingo_cards (saveCard JSON_stringify db now user b).2)
    = (BingoCards.size <$> bingo_cards db) ∧
  ∀ size grid completed,
    b = CardBody.mk (Some size) (Some grid) (Some completed) →
    size ≠ 0 → truthy (Some grid) = true → truthy (Some completed) = true →
    saveCard JSON_stringify db now user b =
      (ok (Message "Bingo card saved successfully"),
       cardQueries.update db now (JSON_stringify grid) (JSON_stringify completed)
         (userId user)).
Proof.
  intros Hcard Howner.
  destruct (get_filter_is_Some (λ c, BingoCards.user_id c = userId user)
              (bingo_cards db) card Hcard Howner) as [existingCard Hexisting].
  assert (card_frame <$> bingo_cards (saveCard JSON_stringify db now user b).2
          = card_frame <$> bingo_cards db) as Hframe.
  { unfold saveCard.
    destruct (CardBody.size b) as [size|]; [|done].
    destruct (CardBody.grid b) as [grid|]; [|done].
    destruct (CardBody.completed b) as [completed|]; [|done].
    destruct (_ || _); [done|].
    unfold cardQueries.findByUserId. rewrite Hexisting. simpl.
    apply update_frame. }
  split; [done|]. split.
  - apply (f_equal (fmap (λ x : Z * Z * Z * Z, x.1.2))) in Hframe.
    by rewrite <- !list_fmap_compose in Hframe.
  - intros size grid completed -> Hsize Hgrid Hcompleted.
    unfold saveCard. cbn [CardBody.size CardBody.grid CardBody.completed].
    rewrite (proj2 (Z.eqb_neq size 0) Hsize), Hgrid, Hcompleted. simpl.
    unfold cardQueries.findByUserId. by rewrite Hexisting.
Qed.

Lemma saveCard_update_keeps_size_witness :
  (BingoCards.size <$> bingo_cards
     (saveCard sample_stringify sample_db 300 (as_user ann)
        (CardBody.mk (Some 5) (Some (JArr [])) (Some (JArr [])))).2) = [3].
Proof.
  refine (proj1 (proj2 (saveCard_update_keeps_size sample_stringify sample_db 300
            (as_user ann) _ (BingoCards.mk 1 1 3 "[[1,2,3]]" "[[false]]" 110 110) _ _))).
  - apply list_elem_of_In. simpl. tauto.
  - reflexivity.
Defined.

(** * Further properties *)

Open Scope list_scope.

(** ** Fresh ids and keyed tables *)

Lemma foldr_max_ge (ids : list Z) x : x ∈ ids → x ≤ foldr Z.max 0 ids.
Proof.
  induction ids as [|y ids IH]; [by intros ?%elem_of_nil|].
  intros [->|Hx]%elem_of_cons; simpl; [lia|]. specialize (IH Hx). lia.
Qed.

Lemma next_rowid_fresh db table ids : next_rowid db table ids ∉ ids.
Proof. intros Hin%foldr_max_ge. unfold next_rowid in Hin. lia. Qed.

Section Tables.
Context {A B : Type} (f : A → B).

Lemma NoDup_fmap_snoc (l : list A) x :
  NoDup (f <$> l) → f x ∉ f <$> l → NoDup (f <$> (l ++ [x])).
Proof.
  intros Hnd Hx. rewrite fmap_app. apply NoDup_app. split; [done|]. split.
  - intros y Hy ->%list_elem_of_singleton. done.
  - apply NoDup_singleton.
Qed.

Lemma NoDup_fmap_filter (P : A → Prop) `{!∀ x, Decision (P x)} (l : list A) :
  NoDup (f <$> l) → NoDup (f <$> filter P l).
Proof.
  induction l as [|x l IH]; [done|]. rewrite fmap_cons. intros [Hx Hnd]%NoDup_cons.
  rewrite filter_cons. destruct (decide (P x)); [|by apply IH].
  rewrite fmap_cons. apply NoDup_cons. split; [|by apply IH].
  intros (y & Hfy & Hy)%list_elem_of_fmap. apply list_elem_of_filter in Hy as [_ Hy].
  apply Hx. rewrite Hfy. by apply list_elem_of_fmap_2.
Qed.

Lemma elem_of_fmap_snoc_l (l : list A) x y : y ∈ f <$> l → y ∈ f <$> (l ++ [x]).
Proof. intros Hy. rewrite fmap_app. apply elem_of_app. by left. Qed.

Lemma fmap_update_key (g : A → A) (l : list A) :
  (∀ x, f (g x) = f x) → f <$> (g <$> l) = f <$> l.
Proof.
  intros Hg. rewrite <- list_fmap_compose. apply list_fmap_ext. intros i x _. apply Hg.
Qed.

End Tables.

(** ** The store invariant is kept by every write *)

Lemma register_store_ok hash sign secret db now salt b :
  store_ok db → store_ok (register hash sign secret db now salt b).2.
Proof.
  intros Hok. unfold register, userQueries.create, userQueries.createWithUsername,
    userQueries.findByUsername, userQueries.insert.
  destruct (hasUsernameColumn db);
  store_ok_cases Hok;
    try (by (intros; apply elem_of_fmap_snoc_l; eauto));
    try (apply NoDup_fmap_snoc; [done|]; simpl; try apply next_rowid_fresh);
    try (by match goal with H : bool_decide _ = false |- _ =>
              apply bool_decide_eq_false in H end).
  all: intros f Hin; destruct (Kfu f Hin); split; by apply elem_of_fmap_snoc_l.
Qed.

Lemma saveCard_store_ok stringify db now user b :
  store_ok db → store_ok (saveCard stringify db now user b).2.
Proof.
  intros Hok. unfold saveCard, cardQueries.create, cardQueries.update.
  store_ok_cases Hok.
  - rewrite fmap_update_key; [done|]. intros x. by destruct (bool_decide _).
  - apply NoDup_fmap_snoc; [done|]. simpl.
    intros (c & Hu & Hin)%list_elem_of_fmap.
    match goal with H : cardQueries.findByUserId _ _ = None |- _ =>
      apply (get_filter_None _ _ H c Hin) end. done.
Qed.

Lemma deleteCard_store_ok db user : store_ok db → store_ok (deleteCard db user).2.
Proof.
  intros Hok. unfold deleteCard, cardQueries.delete. store_ok_cases Hok.
  by apply NoDup_fmap_filter.
Qed.

Lemma sendFriendRequest_store_ok db now user b :
  store_ok db → store_ok (sendFriendRequest db now user b).2.
Proof.
  intros Hok. unfold sendFriendRequest, friendshipQueries.create. store_ok_cases Hok.
  - apply pair_unique_snoc; [done|]. simpl. intros g Hg Hlinks.
    match goal with H : friendshipQueries.checkFriendship _ _ _ _ _ = None |- _ =>
      rewrite checkFriendship_links in H; by eapply get_filter_None end.
  - intros f [Hin|Hin]%elem_of_app; [by apply Ks|].
    apply list_elem_of_singleton in Hin as ->. simpl.
    match goal with H : (_ =? _) = false |- _ => apply Z.eqb_neq in H end. done.
  - apply NoDup_fmap_snoc; [done|]. apply next_rowid_fresh.
  - intros f [Hin|Hin]%elem_of_app; [by apply Kfu|].
    apply list_elem_of_singleton in Hin as ->. simpl.
    match goal with H : bool_decide (_ ∧ _) = true |- _ =>
      by apply bool_decide_eq_true in H end.
Qed.

Lemma acceptFriendRequest_store_ok db user requestId :
  store_ok db → store_ok (acceptFriendRequest db user requestId).2.
Proof.
  intros Hok. unfold acceptFriendRequest, friendshipQueries.updateStatus. store_ok_cases Hok.
  - apply pair_unique_fmap; [|done]. intros f. by destruct (bool_decide _).
  - intros f (g & -> & Hg)%list_elem_of_fmap. destruct (bool_decide _); simpl; by apply Ks.
  - rewrite fmap_update_key; [done|]. intros x. by destruct (bool_decide _).
  - intros f (g & -> & Hg)%list_elem_of_fmap. destruct (bool_decide _); simpl; by apply Kfu.
Qed.

Lemma deleteFriend_store_ok db user friendshipId :
  store_ok db → store_ok (deleteFriend db user friendshipId).2.
Proof.
  intros Hok. unfold deleteFriend, friendshipQueries.delete. store_ok_cases Hok.
  - by apply pair_unique_filter.
  - intros f [_ Hin]%list_elem_of_filter. by apply Ks.
  - by apply NoDup_fmap_filter.
  - intros f [_ Hin]%list_elem_of_filter. by apply Kfu.
Qed.

Lemma postComment_store_ok db now user b :
  store_ok db → store_ok (postComment db now user b).2.
Proof.
  intros Hok. unfold postComment, commentQueries.create. store_ok_cases Hok.
  all: try (by (intros; apply elem_of_fmap_snoc_l; eauto)).
  all: try (apply NoDup_fmap_snoc; [done|]; apply next_rowid_fresh).
  all: intros c [Hin|Hin]%elem_of_app; [by apply K2|];
    apply list_elem_of_singleton in Hin as ->; simpl;
    match goal with H : bool_decide _ = true |- _ =>
      apply bool_decide_eq_true in H as [? ?] end; done.
Qed.

Lemma delete_where_store_ok db (gone : Comments.row → Prop) `{!∀ c, Decision (gone c)} :
  store_ok db → store_ok (commentQueries.delete_where db gone).1.
Proof.
  intros Hok. unfold commentQueries.delete_where. store_ok_cases Hok.
  - intros c [_ Hin]%list_elem_of_filter. by apply K2.
  - intros r [Hkept Hin]%list_elem_of_filter.
    destruct (proj1 (list_elem_of_fmap _ _ _) (K3 r Hin)) as (c & Hid & Hc).
    rewrite Hid. apply list_elem_of_fmap_2. apply list_elem_of_filter. split; [|done].
    intros Hgone. apply Hkept. rewrite Hid. apply list_elem_of_fmap_2.
    by apply list_elem_of_filter.
  - intros r [_ Hin]%list_elem_of_filter. by apply K4.
  - by apply NoDup_fmap_filter.
Qed.

Lemma deleteComment_store_ok db user commentId :
  store_ok db → store_ok (deleteComment db user commentId).2.
Proof.
  intros Hok. unfold deleteComment, commentQueries.delete.
  destruct (_ =? 0); simpl; by apply delete_where_store_ok.
Qed.

Lemma clearComments_store_ok db user :
  store_ok db → store_ok (clearComments db user).2.
Proof.
  intros Hok. unfold clearComments, commentQueries.deleteByCardOwner. simpl.
  by apply delete_where_store_ok.
Qed.

Lemma addReaction_store_ok db now user b :
  store_ok db → store_ok (addReaction db now user b).2.
Proof.
  intros Hok. unfold addReaction, reactionQueries.create. store_ok_cases Hok.
  all: intros r [Hin|Hin]%elem_of_app; [by eauto|];
    apply list_elem_of_singleton in Hin as ->; simpl;
    match goal with H : bool_decide (_ ∧ _) = true |- _ =>
      apply bool_decide_eq_true in H as [? ?] end; done.
Qed.

Lemma removeReaction_store_ok db user b :
  store_ok db → store_ok (removeReaction db user b).2.
Proof.
  intros Hok. unfold removeReaction, reactionQueries.delete. store_ok_cases Hok.
  all: intros r [_ Hin]%list_elem_of_filter; eauto.
Qed.

Lemma groups_create_store_ok db now name creator db1 id :
  store_ok db → groupQueries.create db now name creator = Done db1 id →
  store_ok db1 ∧ group_members db1 = group_members db ∧
  users db1 = users db ∧
  groups db1 = groups db ++ [Groups.mk id name creator now] ∧
  id ∉ Groups.id <$> groups db.
Proof.
  intros Hok. unfold groupQueries.create. case_match; [|done].
  intros [= <- <-]. split; [|by auto using next_rowid_fresh].
  store_ok_cases Hok.
  - apply NoDup_fmap_snoc; [done|]. apply next_rowid_fresh.
  - intros m Hm. apply elem_of_fmap_snoc_l. by apply Kmg.
  - intros m Hm Hrole. destruct (Ka m Hm Hrole) as (Hst & g & Hg & Hid & Hcr).
    split; [done|]. exists g. split; [|done]. apply elem_of_app. by left.
Qed.

Lemma addMember_store_ok db now g u r st db' id :
  store_ok db → groupQueries.addMember db now g u r st = Done db' id →
  (r = admin → st = accepted ∧
     ∃ x, x ∈ groups db ∧ Groups.id x = g ∧ Groups.creator_id x = u) →
  store_ok db' ∧ groups db' = groups db ∧ users db' = users db ∧
  group_members db' = group_members db ++ [GroupMembers.mk id g u r st now] ∧
  id ∉ GroupMembers.id <$> group_members db.
Proof.
  intros Hok. unfold groupQueries.addMember.
  case_match eqn:Hdup; [done|]. case_match eqn:Hfk; [|done].
  intros [= <- <-] Hadmin. split; [|by auto using next_rowid_fresh].
  apply bool_decide_eq_false in Hdup. apply bool_decide_eq_true in Hfk as [Hgid Huid].
  store_ok_cases Hok.
  - intros m [Hin|Hin]%elem_of_app; [by apply K5|].
    by apply list_elem_of_singleton in Hin as ->.
  - apply NoDup_fmap_snoc; [done|]. simpl.
    intros (m & [= Hmg Hmu] & Hm)%list_elem_of_fmap. apply Hdup.
    apply Exists_exists. by exists m.
  - apply NoDup_fmap_snoc; [done|]. apply next_rowid_fresh.
  - intros m [Hin|Hin]%elem_of_app; [by apply Kmg|].
    by apply list_elem_of_singleton in Hin as ->.
  - intros m [Hin|Hin]%elem_of_app; [by apply Ka|].
    apply list_elem_of_singleton in Hin as ->. simpl. done.
Qed.

Lemma createGroup_store_ok trim db now user name :
  store_ok db → store_ok (createGroup trim db now user name).2.
Proof.
  intros Hok. unfold createGroup.
  destruct name as [name|]; [|done]. destruct (_ || _); [done|].
  destruct (groupQueries.create _ _ _ _) as [db1 groupId|] eqn:Hcreate; [|done].
  destruct (groups_create_store_ok _ _ _ _ _ _ Hok Hcreate) as (Hok1 & _ & _ & Hgroups & _).
  destruct (groupQueries.addMember _ _ _ _ _ _) as [db2 ?|] eqn:Hadd; [|exact Hok1].
  simpl. refine (proj1 (addMember_store_ok _ _ _ _ _ _ _ _ Hok1 Hadd _)).
  intros _. split; [done|]. exists (Groups.mk groupId (trim name) (userId user) now).
  split; [|done]. rewrite Hgroups. apply elem_of_app. right. by left.
Qed.

Lemma inviteToGroup_store_ok db now user g friendId :
  store_ok db → store_ok (inviteToGroup db now user g friendId).2.
Proof.
  intros Hok. unfold inviteToGroup.
  repeat case_match; simplify_eq; try done.
  simpl. by eapply (addMember_store_ok db).
Qed.

Lemma updateMemberStatus_store_ok db id :
  store_ok db → store_ok (groupQueries.updateMemberStatus db accepted id).
Proof.
  intros Hok. unfold groupQueries.updateMemberStatus. store_ok_cases Hok.
  - intros m (x & -> & Hx)%list_elem_of_fmap. destruct (bool_decide _); simpl; by apply K5.
  - rewrite fmap_update_key; [done|]. intros x. by destruct (bool_decide _).
  - rewrite fmap_update_key; [done|]. intros x. by destruct (bool_decide _).
  - intros m (x & -> & Hx)%list_elem_of_fmap. destruct (bool_decide _); simpl; by apply Kmg.
  - intros m (x & -> & Hx)%list_elem_of_fmap.
    destruct (bool_decide _); simpl; intros Hrole;
      destruct (Ka x Hx Hrole) as (? & ?); done.
Qed.

Lemma acceptInvitation_store_ok db user invitationId :
  store_ok db → store_ok (acceptInvitation db user invitationId).2.
Proof.
  intros Hok. unfold acceptInvitation. repeat case_match; simplify_eq; try done.
  simpl. by apply updateMemberStatus_store_ok.
Qed.

Lemma removeMember_store_ok db g u :
  store_ok db → store_ok (groupQueries.removeMember db g u).
Proof.
  intros Hok. unfold groupQueries.removeMember. store_ok_cases Hok.
  - intros m [_ Hin]%list_elem_of_filter. by apply K5.
  - by apply NoDup_fmap_filter.
  - by apply NoDup_fmap_filter.
  - intros m [_ Hin]%list_elem_of_filter. by apply Kmg.
  - intros m [_ Hin]%list_elem_of_filter. by apply Ka.
Qed.

Lemma groups_delete_store_ok db g :
  store_ok db → store_ok (groupQueries.delete db g).
Proof.
  intros Hok. unfold groupQueries.delete. store_ok_cases Hok.
  - intros m [_ Hin]%list_elem_of_filter. by apply K5.
  - by apply NoDup_fmap_filter.
  - by apply NoDup_fmap_filter.
  - by apply NoDup_fmap_filter.
  - intros m [Hne Hin]%list_elem_of_filter.
    destruct (proj1 (list_elem_of_fmap _ _ _) (Kmg m Hin)) as (x & Hid & Hx).
    rewrite Hid. apply list_elem_of_fmap_2. apply list_elem_of_filter. split; [congruence|done].
  - intros m [Hne Hin]%list_elem_of_filter Hrole.
    destruct (Ka m Hin Hrole) as (Hst & x & Hx & Hid & Hcr).
    split; [done|]. exists x. split; [|done].
    apply list_elem_of_filter. split; [congruence|done].
Qed.

Lemma declineInvitation_store_ok db user invitationId :
  store_ok db → store_ok (declineInvitation db user invitationId).2.
Proof.
  intros Hok. unfold declineInvitation. repeat case_match; simplify_eq; try done.
  simpl. by apply removeMember_store_ok.
Qed.

Lemma leaveGroup_store_ok db user g : store_ok db → store_ok (leaveGroup db user g).2.
Proof.
  intros Hok. unfold leaveGroup. repeat case_match; simplify_eq; try done; simpl.
  - apply groups_delete_store_ok. by apply removeMember_store_ok.
  - by apply removeMember_store_ok.
Qed.

Lemma deleteGroup_store_ok db user g : store_ok db → store_ok (deleteGroup db user g).2.
Proof.
  intros Hok. unfold deleteGroup. repeat case_match; simplify_eq; try done.
  simpl. by apply groups_delete_store_ok.
Qed.

Lemma empty_db_store_ok : store_ok empty_db.
Proof.
  split; [split|..]; simpl; try apply NoDup_nil_2; try done;
    intros x Hx; by apply elem_of_nil in Hx.
Qed.

Lemma api_step_store_ok rt db now user req :
  store_ok db → store_ok (api_step rt db now user req).
Proof.
  intros Hok. destruct req; simpl.
  - by apply register_store_ok.
  - by apply saveCard_store_ok.
  - by apply deleteCard_store_ok.
  - by apply clearComments_store_ok.
  - by apply sendFriendRequest_store_ok.
  - by apply acceptFriendRequest_store_ok.
  - by apply deleteFriend_store_ok.
  - by apply postComment_store_ok.
  - by apply deleteComment_store_ok.
  - by apply addReaction_store_ok.
  - by apply removeReaction_store_ok.
  - by apply createGroup_store_ok.
  - by apply inviteToGroup_store_ok.
  - by apply acceptInvitation_store_ok.
  - by apply declineInvitation_store_ok.
  - by apply leaveGroup_store_ok.
  - by apply deleteGroup_store_ok.
Qed.

Lemma api_run_store_ok rt db trace :
  store_ok db → store_ok (api_run rt db trace).
Proof.
  unfold api_run. revert db. induction trace as [|r trace IH]; intros db Hok; [done|].
  simpl. apply IH. by apply api_step_store_ok.
Qed.

(** ** What holds in every store a fresh deployment reaches *)

Lemma NoDup_fmap_coarser {A K H} (k : A → K) (h : A → H) (l : list A) :
  NoDup (k <$> l) →
  (∀ x y, x ∈ l → y ∈ l → h x = h y → k x = k y) →
  NoDup (h <$> l).
Proof.
  induction l as [|a l IH]; [constructor|].
  rewrite !fmap_cons. intros [Ha Hnd]%NoDup_cons Hinj. apply NoDup_cons. split.
  - intros (y & Hy & Hin)%list_elem_of_fmap. apply Ha.
    rewrite (Hinj a y); [by apply list_elem_of_fmap_2|by left|by right|done].
  - apply IH; [done|]. intros x y Hx Hy. apply Hinj; by right.
Qed.

(** The schema constraints the handlers' reads rely on are never broken:
    primary and foreign keys of the joins, cascades included. *)
Theorem reachable_constraints rt trace :
  constraints_hold (api_run rt empty_db trace).
Proof. apply ok_constraints, api_run_store_ok, empty_db_store_ok. Qed.

(** No sequence of requests leaves a user with two card rows, though the
    table has no uniqueness constraint on the owner. *)
Theorem reachable_one_card_per_user rt trace :
  NoDup (BingoCards.user_id <$> bingo_cards (api_run rt empty_db trace)).
Proof. apply ok_cards, api_run_store_ok, empty_db_store_ok. Qed.

(** No sequence of requests stores two friendship rows for one unordered
    pair of users, or a row from a user to themselves. *)
Theorem reachable_friendship_pairs rt trace :
  pair_unique (friendships (api_run rt empty_db trace)) ∧
  Forall (λ f, Friendships.user1_id f ≠ Friendships.user2_id f)
    (friendships (api_run rt empty_db trace)).
Proof.
  pose proof (api_run_store_ok rt empty_db trace empty_db_store_ok) as Hok.
  split; [apply Hok|]. apply Forall_forall, Hok.
Qed.

(** In every reachable store the admin rows of a group are at most one, it
    is accepted, and it belongs to the user who created the group: no
    request makes another member an admin. *)
Theorem reachable_admin_is_creator rt trace :
  NoDup (GroupMembers.group_id <$>
         filter (λ m, GroupMembers.role m = admin)
           (group_members (api_run rt empty_db trace))) ∧
  Forall (λ m, GroupMembers.status m = accepted ∧
               ∃ g, g ∈ groups (api_run rt empty_db trace) ∧
                    Groups.id g = GroupMembers.group_id m ∧
                    Groups.creator_id g = GroupMembers.user_id m)
    (filter (λ m, GroupMembers.role m = admin)
       (group_members (api_run rt empty_db trace))).
Proof.
  pose proof (api_run_store_ok rt empty_db trace empty_db_store_ok) as Hok.
  set (db := api_run rt empty_db trace) in *. split.
  - apply (NoDup_fmap_coarser
             (λ m, (GroupMembers.group_id m, GroupMembers.user_id m))).
    { apply NoDup_fmap_filter, Hok. }
    intros x y [Hxa Hx]%list_elem_of_filter [Hya Hy]%list_elem_of_filter Hgid.
    destruct (ok_admins db Hok x Hx Hxa) as (_ & gx & Hgx & Hidx & Hcx).
    destruct (ok_admins db Hok y Hy Hya) as (_ & gy & Hgy & Hidy & Hcy).
    assert (gx = gy) as ->.
    { apply (NoDup_key_inj Groups.id (groups db)); [apply Hok|done..|congruence]. }
    congruence.
  - apply Forall_forall. intros m [Hrole Hm]%list_elem_of_filter.
    by apply (ok_admins db Hok).
Qed.

(** ** The Authorization header *)

Lemma split_scheme scheme rest :
  no_space scheme →
  split (scheme +:+ String " " rest) " " = scheme :: split rest " ".
Proof.
  induction scheme as [|c scheme IH]; [done|]. intros [Hc Hrest]. simpl.
  rewrite (proj2 (Ascii.eqb_neq c " ") Hc), IH; done.
Qed.

(** The middleware reads the second blank-separated word of the header and
    never looks at the first: any scheme word in place of "Bearer" is
    treated alike. *)
Theorem authenticateToken_any_scheme verify secret scheme token :
  no_space scheme → no_space token → token ≠ "" →
  authenticateToken verify secret (Some (scheme +:+ " " +:+ token))
  = authenticateToken verify secret (Some ("Bearer " +:+ token)).
Proof.
  intros Hscheme Htoken Hne.
  assert (bearer_token (Some (scheme +:+ " " +:+ token)) = Some token) as Hbearer.
  { unfold bearer_token.
    assert (String.eqb (scheme +:+ " " +:+ token) "" = false) as ->.
    { apply String.eqb_neq. by destruct scheme. }
    change (scheme +:+ " " +:+ token) with (scheme +:+ String " " token).
    rewrite split_scheme, split_no_space by done. done. }
  unfold authenticateToken. by rewrite Hbearer, bearer_token_Bearer.
Qed.

Lemma authenticateToken_any_scheme_witness :
  authenticateToken sample_verify "k" (Some "Basic ann.token") = inr (as_user ann).
Proof.
  refine (eq_trans
    (authenticateToken_any_scheme sample_verify "k" "Basic" "ann.token" _ _ _) _).
  - vm_compute. repeat split; discriminate.
  - vm_compute. repeat split; discriminate.
  - discriminate.
  - reflexivity.
Defined.

(** The analytics route answers 200 only to a token that verifies for a
    user whose [is_admin] flag in the store is set at the time of the
    request. *)
Theorem adminAnalyticsRoute_only_admins verify secret db authHeader :
  code (adminAnalyticsRoute verify secret db authHeader) = 200 →
  ∃ token user flag,
    bearer_token authHeader = Some token ∧
    verify token secret = inr user ∧
    adminQueries.isAdmin db (userId user) = Some flag ∧ flag ≠ 0.
Proof.
  unfold adminAnalyticsRoute, authenticateAdmin.
  destruct (bearer_token authHeader) as [token|]; [|done].
  destruct (String.eqb token ""); [done|].
  destruct (verify token secret) as [err|user] eqn:Hverify; [done|].
  destruct (adminQueries.isAdmin db (userId user)) as [flag|] eqn:Hflag; [|done].
  destruct (Z.eqb_spec flag 0); [done|]. intros _. by exists token, user, flag.
Qed.

Lemma adminAnalyticsRoute_only_admins_witness :
  ∃ token user flag,
    bearer_token (Some "Bearer root.token") = Some token ∧
    sample_verify token "k" = inr user ∧
    adminQueries.isAdmin sample_db (userId user) = Some flag ∧ flag ≠ 0.
Proof.
  apply (adminAnalyticsRoute_only_admins sample_verify "k" sample_db
           (Some "Bearer root.token")).
  reflexivity.
Defined.

(** ** Registration and login *)

Section GetFresh.
Context {A : Type} (P : A → Prop) `{!∀ x, Decision (P x)}.

Lemma get_filter_fresh (l : list A) : (∀ y, y ∈ l → ¬ P y) → get (filter P l) = None.
Proof.
  intros Hnone. apply head_None.
  destruct (filter P l) as [|y k] eqn:Hf; [done|]. exfalso.
  assert (y ∈ filter P l) as [HP Hy]%list_elem_of_filter by (rewrite Hf; by left).
  by apply (Hnone y).
Qed.

Lemma get_filter_snoc_fresh (l : list A) x :
  (∀ y, y ∈ l → ¬ P y) → P x → get (filter P (l ++ [x])) = Some x.
Proof.
  intros Hnone HP. rewrite filter_app.
  assert (filter P l = []) as ->.
  { apply head_None. by apply get_filter_fresh. }
  by rewrite filter_cons_True.
Qed.

Lemma get_filter_snoc_other (l : list A) x :
  ¬ P x → get (filter P (l ++ [x])) = get (filter P l).
Proof.
  intros HP. rewrite filter_app, filter_cons_False, filter_nil by done.
  by rewrite app_nil_r.
Qed.

End GetFresh.

Lemma findByEmail_fresh db email :
  email ∉ Users.email <$> users db → userQueries.findByEmail db email = None.
Proof.
  intros Hfresh. apply get_filter_fresh. intros u Hu Heq. apply Hfresh.
  rewrite <- Heq. by apply list_elem_of_fmap_2.
Qed.

Lemma or_null_idemp v : or_null (or_null v) = or_null v.
Proof. unfold or_null. by destruct (truthy_string v) eqn:Hv; simpl; rewrite ?Hv. Qed.

(** A registration with a new email, and a username nobody has, succeeds
    with status 201, and the account it creates logs in with the same
    password: the login answers 200 for the same user id, with the admin
    flag 0. *)
Theorem register_then_login hash compare sign secret db now salt
    name username email password :
  name ≠ "" → email ≠ "" → password ≠ "" →
  email ∉ Users.email <$> users db →
  (∀ u, username = Some u → Some u ∉ Users.username <$> users db) →
  compare password (hash password 10 salt) = true →
  ∃ id db',
    register hash sign secret db now salt
        (RegisterBody.mk (Some name) username (Some email) (Some password))
      = (Sent 201 (mkAuth (sign (mkPayload id email) secret) id name
                     (or_null username) email None), db') ∧
    (id ∉ Users.id <$> users db) ∧
    login compare sign secret db' (LoginBody.mk (Some email) (Some password))
      = Sent 200 (mkAuth (sign (mkPayload id email) secret) id name
                    (if hasUsernameColumn db then or_null username else None)
                    email (Some 0)).
Proof.
  intros Hname Hemail Hpassword Hfresh Huser Hcmp.
  apply String.eqb_neq in Hname, Hemail, Hpassword.
  pose proof (findByEmail_fresh db email Hfresh) as Hfind.
  assert (∀ u, username = Some u →
            get (filter (λ x, Users.username x = Some u) (users db)) = None) as Hquery.
  { intros u Hu. apply get_filter_fresh. intros x Hx Heq. apply (Huser u Hu).
    rewrite <- Heq. by apply list_elem_of_fmap_2. }
  exists (next_rowid db "users" (Users.id <$> users db)).
  unfold register, login. cbn [RegisterBody.name RegisterBody.email RegisterBody.password
    RegisterBody.username LoginBody.email LoginBody.password].
  rewrite Hname, Hemail, Hpassword, Hfind. cbn [orb].
  unfold userQueries.findByUsername, userQueries.createWithUsername, userQueries.create,
    userQueries.insert.
  destruct username as [u|]; [destruct (String.eqb u "") eqn:Hu|];
    destruct (hasUsernameColumn db) eqn:Hcol; rewrite ?Hu, ?(Hquery _ eq_refl);
    cbv beta iota; rewrite ?Hu, ?(bool_decide_eq_false_2 _ Hfresh);
    (eexists; split; [reflexivity|]; split; [apply next_rowid_fresh|]);
    unfold userQueries.findByEmail; cbn [users bump_sequence set_sqlite_sequence set_users];
    (rewrite get_filter_snoc_fresh;
       [|intros y Hy Heq; apply Hfresh; rewrite <- Heq; by apply list_elem_of_fmap_2|done]);
    cbn [Users.password Users.id Users.email Users.name Users.username Users.is_admin];
    rewrite Hcmp; cbn [negb]; unfold or_null, truthy_string; rewrite ?Hu; done.
Qed.

Lemma register_then_login_witness :
  ∃ id db',
    register sample_hash sample_sign "k" sample_db 500 "salt"
        (RegisterBody.mk (Some "Eve") (Some "eve") (Some "eve@x.com") (Some "pw123456"))
      = (Sent 201 (mkAuth (sample_sign (mkPayload id "eve@x.com") "k") id "Eve"
                     (or_null (Some "eve")) "eve@x.com" None), db') ∧
    (id ∉ Users.id <$> users sample_db) ∧
    login sample_compare sample_sign "k" db'
        (LoginBody.mk (Some "eve@x.com") (Some "pw123456"))
      = Sent 200 (mkAuth (sample_sign (mkPayload id "eve@x.com") "k") id "Eve"
                    (if hasUsernameColumn sample_db then or_null (Some "eve") else None)
                    "eve@x.com" (Some 0)).
Proof.
  apply (register_then_login sample_hash sample_compare sample_sign "k" sample_db 500 "salt").
  - discriminate.
  - discriminate.
  - discriminate.
  - apply (bool_decide_unpack _). vm_compute. exact I.
  - intros u [= <-]. apply (bool_decide_unpack _). vm_compute. exact I.
  - reflexivity.
Defined.

(** Login answers 200 only for the email of a stored user whose stored hash
    accepts the password, and then for that user's id; an unknown email and
    a wrong password get the same 401 response. *)
Theorem login_needs_credentials compare sign secret db b :
  (∀ view, login compare sign secret db b = Sent 200 view →
     ∃ u email password,
       LoginBody.email b = Some email ∧ LoginBody.password b = Some password ∧
       u ∈ users db ∧ Users.email u = email ∧
       compare password (Users.password u) = true ∧ auth_id view = Users.id u) ∧
  (∀ r, login compare sign secret db b = Refused r → code r = 401 →
     r = fail 401 "Invalid email or password").
Proof.
  unfold login.
  destruct (LoginBody.email b) as [email|]; [|split; intros; simplify_eq; done].
  destruct (LoginBody.password b) as [password|]; [|split; intros; simplify_eq; done].
  destruct (_ || _); [split; intros; simplify_eq; done|].
  destruct (userQueries.findByEmail db email) as [u|] eqn:Hfind.
  - apply get_filter_Some in Hfind as [Hemail Hu].
    destruct (compare password (Users.password u)) eqn:Hcmp; simpl.
    + split; [|intros; simplify_eq]. intros view [= <-]. by exists u, email, password.
    + split; intros; by simplify_eq.
  - split; intros; by simplify_eq.
Qed.

(** ** The friendship life cycle *)

Lemma findFriend_elem db b target : findFriend db b = Some target → target ∈ users db.
Proof.
  unfold findFriend, userQueries.findByUsername, userQueries.findByEmail.
  destruct (hasUsernameColumn db); repeat case_match; simplify_eq; try done;
    intros Hget; first [by apply get_filter_Some in Hget as [_ ?]
                       | simplify_eq;
                         match goal with H : get _ = Some _ |- _ =>
                           by apply get_filter_Some in H as [_ ?] end].
Qed.

Lemma findFriend_ext db db' b :
  users db' = users db → hasUsernameColumn db' = hasUsernameColumn db →
  findFriend db' b = findFriend db b.
Proof.
  intros Hu Hc. unfold findFriend, userQueries.findByUsername, userQueries.findByEmail.
  by rewrite Hu, Hc.
Qed.

Lemma pair_unique_eq fs f g :
  pair_unique fs → f ∈ fs → g ∈ fs →
  links g (Friendships.user1_id f) (Friendships.user2_id f) → g = f.
Proof.
  intros Huniq Hf Hg Hlinks.
  pose proof (pair_unique_get fs f _ _ Huniq Hf (links_columns f)) as Hgetf.
  pose proof (pair_unique_get fs g _ _ Huniq Hg Hlinks) as Hgetg.
  congruence.
Qed.

Lemma isAcceptedFriend_false_no_row db a b :
  (∀ f, f ∈ friendships db → ¬ links f a b) → isAcceptedFriend db a b = false.
Proof.
  intros Hnone. unfold isAcceptedFriend. rewrite checkFriendship_links.
  by rewrite get_filter_fresh.
Qed.

(** What a friend request that passes every check does. *)
Lemma sendFriendRequest_creates db now (sender : jwt_payload) b target :
  findFriend db b = Some target →
  Users.id target ≠ userId sender →
  (∀ f, f ∈ friendships db → ¬ links f (userId sender) (Users.id target)) →
  userId sender ∈ Users.id <$> users db →
  ∃ id db',
    sendFriendRequest db now sender b
      = (mkResponse 201 (Message "Friend request sent successfully"), db') ∧
    friendships db'
      = friendships db ++ [Friendships.mk id (userId sender) (Users.id target) pending now] ∧
    (id ∉ Friendships.id <$> friendships db) ∧
    users db' = users db ∧ bingo_cards db' = bingo_cards db ∧
    hasUsernameColumn db' = hasUsernameColumn db.
Proof.
  intros Hfind Hne Hnone Hsender. unfold sendFriendRequest.
  rewrite (findFriend_truthy _ _ _ Hfind), Hfind.
  rewrite (proj2 (Z.eqb_neq _ _) Hne), checkFriendship_links.
  rewrite get_filter_fresh by done.
  unfold friendshipQueries.create.
  rewrite bool_decide_eq_false_2.
  2:{ intros (f & Hf & Hu1 & Hu2)%Exists_exists. apply (Hnone f Hf). by left. }
  rewrite bool_decide_eq_true_2.
  2:{ split; [done|]. apply list_elem_of_fmap_2. by eapply findFriend_elem. }
  eexists _, _. split; [reflexivity|]. simpl. split; [done|].
  split; [apply next_rowid_fresh|done].
Qed.

(** A request followed by the addressee's accept makes the two users
    friends, in both argument orders of the check; between the two steps
    they are not, and the requester cannot accept in the addressee's place. *)
Theorem friend_request_then_accept db now (sender addressee : jwt_payload) b target :
  pair_unique (friendships db) →
  findFriend db b = Some target →
  Users.id target ≠ userId sender →
  (∀ f, f ∈ friendships db → ¬ links f (userId sender) (Users.id target)) →
  userId sender ∈ Users.id <$> users db →
  userId addressee = Users.id target →
  ∃ id db1 db2,
    sendFriendRequest db now sender b
      = (mkResponse 201 (Message "Friend request sent successfully"), db1) ∧
    isAcceptedFriend db1 (userId sender) (userId addressee) = false ∧
    acceptFriendRequest db1 sender id = (fail 403 "Unauthorized", db1) ∧
    acceptFriendRequest db1 addressee id = (ok (Message "Friend request accepted"), db2) ∧
    isAcceptedFriend db2 (userId sender) (userId addressee) = true ∧
    isAcceptedFriend db2 (userId addressee) (userId sender) = true.
Proof.
  intros Huniq Hfind Hne Hnone Hsender Haddr.
  destruct (sendFriendRequest_creates db now sender b target Hfind Hne Hnone Hsender)
    as (id & db1 & Hsend & Hfs & Hid & _).
  pose proof (sendFriendRequest_pair_unique db now sender b Huniq) as Huniq1.
  rewrite Hsend in Huniq1. simpl in Huniq1.
  set (row := Friendships.mk id (userId sender) (Users.id target) pending now) in *.
  assert (friendshipQueries.findById db1 id = Some row) as Hrow.
  { unfold friendshipQueries.findById. rewrite Hfs.
    apply get_filter_snoc_fresh; [|done].
    intros y Hy Heq. apply Hid. rewrite <- Heq. by apply list_elem_of_fmap_2. }
  exists id, db1, (friendshipQueries.updateStatus db1 accepted id).
  split; [done|]. split; [|split; [|split; [|split]]].
  - unfold isAcceptedFriend. rewrite checkFriendship_links, Haddr.
    rewrite (pair_unique_get _ row); [done|done| |by left].
    rewrite Hfs. apply elem_of_app. right. by left.
  - unfold acceptFriendRequest. rewrite Hrow. simpl.
    by rewrite (proj2 (Z.eqb_neq _ _) Hne).
  - unfold acceptFriendRequest. rewrite Hrow. simpl.
    by rewrite Haddr, Z.eqb_refl.
  - apply (isAcceptedFriend_true _ _ _
             (Friendships.mk id (userId sender) (Users.id target) accepted now)).
    + simpl. apply pair_unique_fmap; [|done]. intros f. by destruct (bool_decide _).
    + simpl. apply list_elem_of_fmap. exists row. split.
      * by rewrite bool_decide_eq_true_2.
      * rewrite Hfs. apply elem_of_app. right. by left.
    + left. by rewrite Haddr.
    + done.
  - apply (isAcceptedFriend_true _ _ _
             (Friendships.mk id (userId sender) (Users.id target) accepted now)).
    + simpl. apply pair_unique_fmap; [|done]. intros f. by destruct (bool_decide _).
    + simpl. apply list_elem_of_fmap. exists row. split.
      * by rewrite bool_decide_eq_true_2.
      * rewrite Hfs. apply elem_of_app. right. by left.
    + right. by rewrite Haddr.
    + done.
Qed.

Lemma sample_db_no_row_bo_cy :
  ∀ f, f ∈ friendships sample_db → ¬ links f 2 3.
Proof.
  intros f Hin Hlinks. unfold links in Hlinks.
  each_row Hin; simpl in *; lia.
Defined.

Lemma friend_request_then_accept_witness :
  ∃ id db1 db2,
    sendFriendRequest sample_db 200 (as_user bo)
        (FriendRequestBody.mk (Some "cy@x.com") None)
      = (mkResponse 201 (Message "Friend request sent successfully"), db1) ∧
    isAcceptedFriend db1 2 3 = false ∧
    acceptFriendRequest db1 (as_user bo) id = (fail 403 "Unauthorized", db1) ∧
    acceptFriendRequest db1 (as_user cy) id = (ok (Message "Friend request accepted"), db2) ∧
    isAcceptedFriend db2 2 3 = true ∧
    isAcceptedFriend db2 3 2 = true.
Proof.
  apply (friend_request_then_accept sample_db 200 (as_user bo) (as_user cy) _ cy).
  - apply (bool_decide_unpack _). vm_compute. exact I.
  - reflexivity.
  - simpl. lia.
  - exact sample_db_no_row_bo_cy.
  - apply (bool_decide_unpack _). vm_compute. exact I.
  - reflexivity.
Defined.

(** A friend request is accepted only by the user stored as its addressee;
    every other outcome leaves the store as it was. *)
Theorem acceptFriendRequest_only_addressee db (user : jwt_payload) requestId :
  (code (acceptFriendRequest db user requestId).1 = 200 →
   ∃ f, f ∈ friendships db ∧ Friendships.id f = requestId ∧
        Friendships.user2_id f = userId user) ∧
  (code (acceptFriendRequest db user requestId).1 ≠ 200 →
   (acceptFriendRequest db user requestId).2 = db).
Proof.
  unfold acceptFriendRequest.
  destruct (friendshipQueries.findById db requestId) as [request|] eqn:Hfind; [|done].
  apply get_filter_Some in Hfind as [Hid Hin].
  destruct (Z.eqb_spec (Friendships.user2_id request) (userId user)); simpl; [|done].
  split; [|done]. intros _. by exists request.
Qed.

Lemma acceptFriendRequest_only_addressee_witness :
  ∃ f, f ∈ friendships sample_db ∧ Friendships.id f = 3 ∧
       Friendships.user2_id f = userId (as_user ann).
Proof.
  apply (proj1 (acceptFriendRequest_only_addressee sample_db (as_user ann) 3)).
  reflexivity.
Defined.

(** What deleting a friendship does, for a party and for a stranger. *)
Lemma deleteFriend_effect db (user : jwt_payload) f :
  pair_unique (friendships db) →
  NoDup (Friendships.id <$> friendships db) →
  f ∈ friendships db →
  (userId user = Friendships.user1_id f ∨ userId user = Friendships.user2_id f →
   ∃ db1,
     deleteFriend db user (Friendships.id f) = (ok (Message "Friendship deleted"), db1) ∧
     friendships db1
       = filter (λ g, Friendships.id g ≠ Friendships.id f) (friendships db) ∧
     users db1 = users db ∧ hasUsernameColumn db1 = hasUsernameColumn db ∧
     (∀ g, g ∈ friendships db1 →
           ¬ links g (Friendships.user1_id f) (Friendships.user2_id f)) ∧
     isAcceptedFriend db1 (Friendships.user1_id f) (Friendships.user2_id f) = false ∧
     isAcceptedFriend db1 (Friendships.user2_id f) (Friendships.user1_id f) = false) ∧
  (userId user ≠ Friendships.user1_id f → userId user ≠ Friendships.user2_id f →
   deleteFriend db user (Friendships.id f) = (fail 403 "Unauthorized", db)).
Proof.
  intros Huniq Hids Hf.
  assert (friendshipQueries.findById db (Friendships.id f) = Some f) as Hfind.
  { unfold friendshipQueries.findById.
    destruct (get_filter_is_Some (λ g, Friendships.id g = Friendships.id f)
                (friendships db) f Hf eq_refl) as [g Hg].
    rewrite Hg. f_equal. apply get_filter_Some in Hg as [Hid Hg].
    by apply (NoDup_key_inj Friendships.id (friendships db)). }
  unfold deleteFriend. rewrite Hfind. split.
  - intros Hparty.
    assert (negb (Friendships.user1_id f =? userId user) &&
            negb (Friendships.user2_id f =? userId user) = false) as ->.
    { destruct Hparty as [->| ->]; rewrite Z.eqb_refl; simpl; by rewrite ?andb_false_r. }
    eexists. split; [reflexivity|]. simpl. split; [done|]. split; [done|]. split; [done|].
    assert (∀ g, g ∈ filter (λ g, Friendships.id g ≠ Friendships.id f) (friendships db) →
                 ¬ links g (Friendships.user1_id f) (Friendships.user2_id f)) as Hgone.
    { intros g [Hid Hg]%list_elem_of_filter Hlinks. apply Hid.
      by rewrite (pair_unique_eq _ f g Huniq Hf Hg Hlinks). }
    split; [done|]. split; apply isAcceptedFriend_false_no_row; simpl.
    + done.
    + intros g Hg Hlinks%links_sym. by apply (Hgone g).
  - intros H1 H2.
    by rewrite (proj2 (Z.eqb_neq _ _) (not_eq_sym H1)), (proj2 (Z.eqb_neq _ _) (not_eq_sym H2)).
Qed.

(** Either party of a friendship may delete it, and afterwards the two are
    friends in neither direction; a user who is neither party is answered
    403 and nothing is deleted. *)
Theorem deleteFriend_unfriends db (user : jwt_payload) f :
  pair_unique (friendships db) →
  NoDup (Friendships.id <$> friendships db) →
  f ∈ friendships db →
  (userId user = Friendships.user1_id f ∨ userId user = Friendships.user2_id f →
   ∃ db1,
     deleteFriend db user (Friendships.id f) = (ok (Message "Friendship deleted"), db1) ∧
     isAcceptedFriend db1 (Friendships.user1_id f) (Friendships.user2_id f) = false ∧
     isAcceptedFriend db1 (Friendships.user2_id f) (Friendships.user1_id f) = false) ∧
  (userId user ≠ Friendships.user1_id f → userId user ≠ Friendships.user2_id f →
   deleteFriend db user (Friendships.id f) = (fail 403 "Unauthorized", db)).
Proof.
  intros Huniq Hids Hf.
  destruct (deleteFriend_effect db user f Huniq Hids Hf) as [Hparty Hother].
  split; [|done]. intros Hp.
  destruct (Hparty Hp) as (db1 & Hdel & _ & _ & _ & _ & H12 & H21). by exists db1.
Qed.

Lemma deleteFriend_unfriends_witness :
  (∃ db1,
     deleteFriend sample_db (as_user bo) 1 = (ok (Message "Friendship deleted"), db1) ∧
     isAcceptedFriend db1 1 2 = false ∧ isAcceptedFriend db1 2 1 = false) ∧
  deleteFriend sample_db (as_user cy) 1 = (fail 403 "Unauthorized", sample_db).
Proof.
  assert (pair_unique (friendships sample_db)) as Huniq.
  { apply (bool_decide_unpack _). vm_compute. exact I. }
  assert (NoDup (Friendships.id <$> friendships sample_db)) as Hids.
  { apply (bool_decide_unpack _). vm_compute. exact I. }
  assert (Friendships.mk 1 1 2 accepted 120 ∈ friendships sample_db) as Hin.
  { apply list_elem_of_In. simpl. tauto. }
  destruct (deleteFriend_unfriends sample_db (as_user bo) _ Huniq Hids Hin) as [Hparty _].
  destruct (deleteFriend_unfriends sample_db (as_user cy) _ Huniq Hids Hin) as [_ Hother].
  split.
  - apply Hparty. by right.
  - apply Hother; simpl; lia.
Defined.

(** After a friendship is deleted the pair may start over: a new request
    between them, from either side, is answered 201 and stored as pending. *)
Theorem request_after_delete db now (user sender : jwt_payload) f b target :
  pair_unique (friendships db) →
  NoDup (Friendships.id <$> friendships db) →
  f ∈ friendships db →
  userId user = Friendships.user1_id f ∨ userId user = Friendships.user2_id f →
  links f (userId sender) (Users.id target) →
  findFriend db b = Some target →
  Users.id target ≠ userId sender →
  userId sender ∈ Users.id <$> users db →
  ∃ id db1 db2,
    deleteFriend db user (Friendships.id f) = (ok (Message "Friendship deleted"), db1) ∧
    sendFriendRequest db1 now sender b
      = (mkResponse 201 (Message "Friend request sent successfully"), db2) ∧
    Friendships.mk id (userId sender) (Users.id target) pending now ∈ friendships db2.
Proof.
  intros Huniq Hids Hf Hparty Hlinks Hfind Hne Hsender.
  destruct (proj1 (deleteFriend_effect db user f Huniq Hids Hf) Hparty)
    as (db1 & Hdel & Hfs & Hu & Hc & Hgone & _).
  destruct (sendFriendRequest_creates db1 now sender b target) as (id & db2 & Hsend & Hfs2 & _).
  - by rewrite (findFriend_ext db db1).
  - done.
  - intros g Hg Hl. apply (Hgone g Hg).
    by apply (links_transfer g f (userId sender) (Users.id target)).
  - by rewrite Hu.
  - exists id, db1, db2. split; [done|]. split; [done|].
    rewrite Hfs2. apply elem_of_app. right. by left.
Qed.

Lemma request_after_delete_witness :
  ∃ id db1 db2,
    deleteFriend sample_db (as_user ann) 1 = (ok (Message "Friendship deleted"), db1) ∧
    sendFriendRequest db1 300 (as_user bo) (FriendRequestBody.mk (Some "ann@x.com") None)
      = (mkResponse 201 (Message "Friend request sent successfully"), db2) ∧
    Friendships.mk id 2 1 pending 300 ∈ friendships db2.
Proof.
  apply (request_after_delete sample_db 300 (as_user ann) (as_user bo)
           (Friendships.mk 1 1 2 accepted 120) _ ann).
  - apply (bool_decide_unpack _). vm_compute. exact I.
  - apply (bool_decide_unpack _). vm_compute. exact I.
  - apply list_elem_of_In. simpl. tauto.
  - by left.
  - right. split; reflexivity.
  - reflexivity.
  - simpl. lia.
  - apply (bool_decide_unpack _). vm_compute. exact I.
Defined.

(** ** Listing friends and requests *)

Lemma sample_db_store_ok : store_ok sample_db.
Proof.
  split.
  - exact sample_db_constraints.
  - apply (bool_decide_unpack _). vm_compute. exact I.
  - apply Forall_forall, (bool_decide_unpack _). vm_compute. exact I.
  - apply (bool_decide_unpack _). vm_compute. exact I.
  - apply (bool_decide_unpack _). vm_compute. exact I.
  - apply (bool_decide_unpack _). vm_compute. exact I.
  - apply (bool_decide_unpack _). vm_compute. exact I.
  - apply Forall_forall, (bool_decide_unpack _). vm_compute. exact I.
  - apply (bool_decide_unpack _). vm_compute. exact I.
  - apply (bool_decide_unpack _). vm_compute. exact I.
  - apply Forall_forall, (bool_decide_unpack _). vm_compute. exact I.
  - intros m Hin Hrole. each_row Hin; simpl in *; try discriminate.
    split; [done|]. exists (Groups.mk 1 "Resolutions" 1 150).
    split; [apply list_elem_of_In; simpl; tauto|done].
Defined.

Lemma other_party_links f a b :
  Friendships.user1_id f ≠ Friendships.user2_id f →
  (Friendships.user1_id f = a ∨ Friendships.user2_id f = a) →
  (friendshipQueries.other_party f a = b ↔ links f a b).
Proof.
  intros Hself Htouch. unfold friendshipQueries.other_party, links.
  destruct (decide (Friendships.user1_id f = a)) as [Heq|Hne].
  - rewrite bool_decide_eq_true_2 by done. split; [intros <-; by left|].
    intros [[_ ?]|[? ?]]; [done|congruence].
  - rewrite bool_decide_eq_false_2 by done. destruct Htouch as [?|Hu2]; [done|].
    split; [intros <-; by right|]. intros [[? _]|[? _]]; done.
Qed.

Lemma getFriends_elem db a x :
  x ∈ friendshipQueries.getFriends db a a a a ↔
  ∃ f u, f ∈ friendships db ∧ u ∈ users db ∧
         (Friendships.user1_id f = a ∨ Friendships.user2_id f = a) ∧
         Friendships.status f = accepted ∧
         Users.id u = friendshipQueries.other_party f a ∧
         x = (friendshipQueries.other_party f a, Users.name u, Users.email u).
Proof.
  unfold friendshipQueries.getFriends. rewrite elem_of_remove_dups, list_elem_of_bind.
  split.
  - intros (f & Hx & [[Htouch Hst] Hf]%list_elem_of_filter).
    apply list_elem_of_bind in Hx as (u & Hx & [Hid Hu]%list_elem_of_filter).
    apply list_elem_of_singleton in Hx. by exists f, u.
  - intros (f & u & Hf & Hu & Htouch & Hst & Hid & ->).
    exists f. split; [|by apply list_elem_of_filter].
    apply list_elem_of_bind. exists u. split; [by left|]. by apply list_elem_of_filter.
Qed.

(** The friends list of a user holds exactly the users the friend check
    accepts, each once, and is mutual: [b] is in the list of [a] exactly when
    [a] is in the list of [b]. *)
Theorem getFriendsList_matches_check db (a b : jwt_payload) :
  store_ok db →
  (userId b ∈ (λ x, x.1.1) <$> getFriendsList db a ↔
   isAcceptedFriend db (userId a) (userId b) = true) ∧
  (userId b ∈ (λ x, x.1.1) <$> getFriendsList db a ↔
   userId a ∈ (λ x, x.1.1) <$> getFriendsList db b) ∧
  NoDup (getFriendsList db a).
Proof.
  intros Hok.
  assert (∀ a b : Z, b ∈ (λ x, x.1.1) <$> friendshipQueries.getFriends db a a a a ↔
                     isAcceptedFriend db a b = true) as Hiff.
  { clear a b. intros a b. rewrite list_elem_of_fmap. split.
    - intros (x & -> & (f & u & Hf & Hu & Htouch & Hst & Hid & ->)%getFriends_elem).
      simpl. apply (isAcceptedFriend_true db a _ f); [apply Hok|done| |done].
      apply other_party_links; [by apply (ok_no_self db Hok)|done|done].
    - intros (f & Hf & Hlinks & Hst)%isAcceptedFriend_row.
      pose proof (ok_no_self db Hok f Hf) as Hself.
      assert (Friendships.user1_id f = a ∨ Friendships.user2_id f = a) as Htouch.
      { destruct Hlinks as [[? _]|[_ ?]]; auto. }
      pose proof (proj2 (other_party_links f a b Hself Htouch) Hlinks) as Hother.
      assert (b ∈ Users.id <$> users db) as (u & Hid & Hu)%list_elem_of_fmap.
      { destruct (ok_friend_users db Hok f Hf) as [H1 H2].
        destruct Hlinks as [[_ <-]|[<- _]]; done. }
      exists (b, Users.name u, Users.email u). split; [done|].
      apply getFriends_elem. exists f, u. rewrite Hother. by rewrite <- Hid. }
  split; [apply Hiff|]. split.
  - unfold getFriendsList. rewrite !Hiff. split.
    + intros (f & Hf & Hlinks & Hst)%isAcceptedFriend_row.
      apply (isAcceptedFriend_true db _ _ f); [apply Hok|done|by apply links_sym|done].
    + intros (f & Hf & Hlinks & Hst)%isAcceptedFriend_row.
      apply (isAcceptedFriend_true db _ _ f); [apply Hok|done|by apply links_sym|done].
  - apply NoDup_remove_dups.
Qed.

Lemma getFriendsList_matches_check_witness :
  (userId (as_user cy) ∈ (λ x, x.1.1) <$> getFriendsList sample_db (as_user ann) ↔
   isAcceptedFriend sample_db (userId (as_user ann)) (userId (as_user cy)) = true) ∧
  (userId (as_user cy) ∈ (λ x, x.1.1) <$> getFriendsList sample_db (as_user ann) ↔
   userId (as_user ann) ∈ (λ x, x.1.1) <$> getFriendsList sample_db (as_user cy)) ∧
  NoDup (getFriendsList sample_db (as_user ann)).
Proof.
  apply (getFriendsList_matches_check sample_db (as_user ann) (as_user cy)).
  exact sample_db_store_ok.
Defined.

(** A request that is sent shows up, with the sender's name and email, in
    the addressee's pending list and not in the sender's own. *)
Theorem friend_request_listed db now (sender addressee : jwt_payload) b target a :
  findFriend db b = Some target →
  Users.id target ≠ userId sender →
  (∀ f, f ∈ friendships db → ¬ links f (userId sender) (Users.id target)) →
  a ∈ users db → Users.id a = userId sender →
  userId addressee = Users.id target →
  ∃ id db1,
    sendFriendRequest db now sender b
      = (mkResponse 201 (Message "Friend request sent successfully"), db1) ∧
    (id, userId sender, now, Users.name a, Users.email a)
      ∈ getFriendRequests db1 addressee ∧
    getFriendRequests db1 sender = getFriendRequests db sender.
Proof.
  intros Hfind Hne Hnone Ha Haid Haddr.
  destruct (sendFriendRequest_creates db now sender b target Hfind Hne Hnone)
    as (id & db1 & Hsend & Hfs & _ & Hu & _).
  { rewrite <- Haid. by apply list_elem_of_fmap_2. }
  exists id, db1. split; [done|].
  unfold getFriendRequests, friendshipQueries.getPendingRequests. rewrite Hfs, Hu. split.
  - apply list_elem_of_bind.
    exists (Friendships.mk id (userId sender) (Users.id target) pending now). split.
    + apply list_elem_of_bind. exists a. split; [by left|]. by apply list_elem_of_filter.
    + apply list_elem_of_filter. split; [by rewrite Haddr|].
      apply elem_of_app. right. by left.
  - rewrite filter_app, filter_cons_False, filter_nil, app_nil_r; [done|].
    simpl. intros [Heq _]. done.
Qed.

Lemma friend_request_listed_witness :
  ∃ id db1,
    sendFriendRequest sample_db 200 (as_user bo)
        (FriendRequestBody.mk (Some "cy@x.com") None)
      = (mkResponse 201 (Message "Friend request sent successfully"), db1) ∧
    (id, 2, 200, "Bo", "bo@x.com") ∈ getFriendRequests db1 (as_user cy) ∧
    getFriendRequests db1 (as_user bo) = getFriendRequests sample_db (as_user bo).
Proof.
  apply (friend_request_listed sample_db 200 (as_user bo) (as_user cy) _ cy bo).
  - reflexivity.
  - simpl. lia.
  - exact sample_db_no_row_bo_cy.
  - apply list_elem_of_In. simpl. tauto.
  - reflexivity.
  - reflexivity.
Defined.

(** ** Cards: saving, reading, deleting *)

Lemma get_filter_fmap {A} (P : A → Prop) `{!∀ x, Decision (P x)} (h : A → A) (l : list A) :
  (∀ x, P (h x) ↔ P x) → get (filter P (h <$> l)) = h <$> get (filter P l).
Proof.
  intros Hh. induction l as [|x l IH]; [done|].
  rewrite fmap_cons, !filter_cons.
  destruct (decide (P (h x))) as [HP|HP], (decide (P x)) as [HP'|HP'].
  - done.
  - exfalso. apply HP'. by apply Hh.
  - exfalso. apply HP. by apply Hh.
  - exact IH.
Qed.

(** The first save of a user who has no card creates it. *)
Lemma saveCard_creates stringify db now (user : jwt_payload) size grid completed :
  userId user ∈ Users.id <$> users db →
  (∀ c, c ∈ bingo_cards db → BingoCards.user_id c ≠ userId user) →
  size ≠ 0 → truthy (Some grid) = true → truthy (Some completed) = true →
  ∃ id db1,
    saveCard stringify db now user (CardBody.mk (Some size) (Some grid) (Some completed))
      = (ok (Message "Bingo card saved successfully"), db1) ∧
    bingo_cards db1
      = bingo_cards db ++
        [BingoCards.mk id (userId user) size (stringify grid) (stringify completed) now now] ∧
    friendships db1 = friendships db.
Proof.
  intros Huser Hnone Hsize Hgrid Hcompleted. unfold saveCard.
  cbn [CardBody.size CardBody.grid CardBody.completed].
  rewrite (proj2 (Z.eqb_neq size 0) Hsize), Hgrid, Hcompleted. cbn [negb orb].
  unfold cardQueries.findByUserId. rewrite get_filter_fresh by (intros c Hc; by apply Hnone).
  unfold cardQueries.create. rewrite bool_decide_eq_true_2 by done.
  eexists _, _. split; [reflexivity|]. done.
Qed.

(** A first save followed by a read returns the size, grid and completion
    data that were saved, when the JSON codec round-trips them. *)
Theorem saveCard_then_getOwnCard stringify parse db now (user : jwt_payload)
    size grid completed :
  userId user ∈ Users.id <$> users db →
  (∀ c, c ∈ bingo_cards db → BingoCards.user_id c ≠ userId user) →
  size ≠ 0 → truthy (Some grid) = true → truthy (Some completed) = true →
  parse (stringify grid) = Some grid →
  parse (stringify completed) = Some completed →
  ∃ db1,
    saveCard stringify db now user (CardBody.mk (Some size) (Some grid) (Some completed))
      = (ok (Message "Bingo card saved successfully"), db1) ∧
    getOwnCard parse db1 user = ok (Card (mkCardView size grid completed now now)).
Proof.
  intros Huser Hnone Hsize Hgrid Hcompleted Hpg Hpc.
  destruct (saveCard_creates stringify db now user size grid completed)
    as (id & db1 & Hsave & Hcards & _); [done..|].
  exists db1. split; [done|]. unfold getOwnCard, cardQueries.findByUserId.
  rewrite Hcards, get_filter_snoc_fresh by done. simpl. by rewrite Hpg, Hpc.
Qed.

Lemma saveCard_then_getOwnCard_witness :
  ∃ db1,
    saveCard sample_stringify sample_db 300 (as_user bo)
        (CardBody.mk (Some 4) (Some (JArr [])) (Some (JArr [])))
      = (ok (Message "Bingo card saved successfully"), db1) ∧
    getOwnCard sample_parse db1 (as_user bo)
      = ok (Card (mkCardView 4 (JArr []) (JArr []) 300 300)).
Proof.
  apply (saveCard_then_getOwnCard sample_stringify sample_parse sample_db 300 (as_user bo)).
  - apply (bool_decide_unpack _). vm_compute. exact I.
  - intros c Hin. each_row Hin. simpl. lia.
  - lia.
  - reflexivity.
  - reflexivity.
  - reflexivity.
  - reflexivity.
Defined.

(** A later save with another size is answered like the first, but the read
    that follows returns the old size next to the new grid and completion
    data, with the creation time kept. *)
Theorem saveCard_again_reads_old_size stringify parse db now (user : jwt_payload)
    card size grid completed :
  NoDup (BingoCards.user_id <$> bingo_cards db) →
  card ∈ bingo_cards db → BingoCards.user_id card = userId user →
  size ≠ 0 → truthy (Some grid) = true → truthy (Some completed) = true →
  parse (stringify grid) = Some grid →
  parse (stringify completed) = Some completed →
  ∃ db1,
    saveCard stringify db now user (CardBody.mk (Some size) (Some grid) (Some completed))
      = (ok (Message "Bingo card saved successfully"), db1) ∧
    getOwnCard parse db1 user
      = ok (Card (mkCardView (BingoCards.size card) grid completed
                    (BingoCards.created_at card) now)).
Proof.
  intros Hnd Hcard Howner Hsize Hgrid Hcompleted Hpg Hpc.
  assert (cardQueries.findByUserId db (userId user) = Some card) as Hfind.
  { unfold cardQueries.findByUserId.
    destruct (get_filter_is_Some (λ c, BingoCards.user_id c = userId user)
                (bingo_cards db) card Hcard Howner) as [c Hc].
    rewrite Hc. f_equal. apply get_filter_Some in Hc as [Hu Hc].
    apply (NoDup_key_inj BingoCards.user_id (bingo_cards db)); [done..|congruence]. }
  eexists. split.
  - unfold saveCard. cbn [CardBody.size CardBody.grid CardBody.completed].
    rewrite (proj2 (Z.eqb_neq size 0) Hsize), Hgrid, Hcompleted. cbn [negb orb].
    rewrite Hfind. reflexivity.
  - unfold getOwnCard, cardQueries.findByUserId, cardQueries.update.
    cbn [bingo_cards set_bingo_cards].
    rewrite get_filter_fmap.
    2:{ intros x. by destruct (bool_decide _). }
    unfold cardQueries.findByUserId in Hfind. rewrite Hfind. simpl.
    rewrite bool_decide_eq_true_2 by done. simpl. by rewrite Hpg, Hpc.
Qed.

Lemma saveCard_again_reads_old_size_witness :
  ∃ db1,
    saveCard sample_stringify sample_db 300 (as_user ann)
        (CardBody.mk (Some 5) (Some (JArr [])) (Some (JArr [])))
      = (ok (Message "Bingo card saved successfully"), db1) ∧
    getOwnCard sample_parse db1 (as_user ann)
      = ok (Card (mkCardView 3 (JArr []) (JArr []) 110 300)).
Proof.
  apply (saveCard_again_reads_old_size sample_stringify sample_parse sample_db 300
           (as_user ann) (BingoCards.mk 1 1 3 "[[1,2,3]]" "[[false]]" 110 110)).
  - apply (bool_decide_unpack _). vm_compute. exact I.
  - apply list_elem_of_In. simpl. tauto.
  - reflexivity.
  - lia.
  - reflexivity.
  - reflexivity.
  - reflexivity.
  - reflexivity.
Defined.

Lemma deleteCard_no_card db (user : jwt_payload) c :
  c ∈ bingo_cards (deleteCard db user).2 → BingoCards.user_id c ≠ userId user.
Proof. unfold deleteCard, cardQueries.delete. simpl. by intros [? _]%list_elem_of_filter. Qed.

(** Deleting one's card never fails and is idempotent: a second delete
    changes nothing more, the read that follows is answered 404, and the
    cards of other users are the ones there were. *)
Theorem deleteCard_idempotent parse db (user : jwt_payload) :
  (deleteCard db user).1 = ok (Message "Bingo card deleted successfully") ∧
  deleteCard (deleteCard db user).2 user = deleteCard db user ∧
  getOwnCard parse (deleteCard db user).2 user = fail 404 "No bingo card found" ∧
  filter (λ c, BingoCards.user_id c ≠ userId user) (bingo_cards (deleteCard db user).2)
    = filter (λ c, BingoCards.user_id c ≠ userId user) (bingo_cards db).
Proof.
  split; [done|]. split; [|split].
  - unfold deleteCard, cardQueries.delete. simpl. f_equal. unfold set_bingo_cards. simpl.
    f_equal. rewrite list_filter_filter. apply list_filter_iff. tauto.
  - unfold getOwnCard, cardQueries.findByUserId.
    rewrite get_filter_fresh; [done|]. intros c Hc. by apply (deleteCard_no_card db).
  - unfold deleteCard, cardQueries.delete. simpl.
    rewrite list_filter_filter. apply list_filter_iff. tauto.
Qed.



Lemma isAcceptedFriend_ext db db' a b :
  friendships db' = friendships db → isAcceptedFriend db' a b = isAcceptedFriend db a b.
Proof.
  intros Hfs. unfold isAcceptedFriend, friendshipQueries.checkFriendship. by rewrite Hfs.
Qed.

(** An accepted friend who asks for the owner's card is answered 404 while
    the owner has none, and once the owner has saved one receives the size,
    grid and completion data as saved. *)
Theorem friend_reads_saved_card stringify parse db now (viewer owner : jwt_payload)
    size grid completed :
  isAcceptedFriend db (userId viewer) (userId owner) = true →
  userId owner ∈ Users.id <$> users db →
  (∀ c, c ∈ bingo_cards db → BingoCards.user_id c ≠ userId owner) →
  size ≠ 0 → truthy (Some grid) = true → truthy (Some completed) = true →
  parse (stringify grid) = Some grid →
  parse (stringify completed) = Some completed →
  getFriendCard parse db viewer (userId owner) = fail 404 "Friend has no bingo card" ∧
  ∃ db1,
    saveCard stringify db now owner (CardBody.mk (Some size) (Some grid) (Some completed))
      = (ok (Message "Bingo card saved successfully"), db1) ∧
    getFriendCard parse db1 viewer (userId owner)
      = ok (Card (mkCardView size grid completed now now)).
Proof.
  intros Hfriend Howner Hnone Hsize Hgrid Hcompleted Hpg Hpc. split.
  - unfold getFriendCard. unfold isAcceptedFriend in Hfriend. rewrite Hfriend. simpl.
    unfold cardQueries.findByUserId. by rewrite get_filter_fresh.
  - destruct (saveCard_creates stringify db now owner size grid completed)
      as (id & db1 & Hsave & Hcards & Hfs); [done..|].
    exists db1. split; [done|].
    rewrite <- (isAcceptedFriend_ext db db1) in Hfriend by done.
    unfold getFriendCard. unfold isAcceptedFriend in Hfriend. rewrite Hfriend. simpl.
    unfold cardQueries.findByUserId.
    rewrite Hcards, get_filter_snoc_fresh by done. simpl. by rewrite Hpg, Hpc.
Qed.

Lemma friend_reads_saved_card_witness :
  getFriendCard sample_parse sample_db (as_user ann) 2 = fail 404 "Friend has no bingo card" ∧
  ∃ db1,
    saveCard sample_stringify sample_db 300 (as_user bo)
        (CardBody.mk (Some 3) (Some (JArr [])) (Some (JArr [])))
      = (ok (Message "Bingo card saved successfully"), db1) ∧
    getFriendCard sample_parse db1 (as_user ann) 2
      = ok (Card (mkCardView 3 (JArr []) (JArr []) 300 300)).
Proof.
  apply (friend_reads_saved_card sample_stringify sample_parse sample_db 300
           (as_user ann) (as_user bo)).
  - reflexivity.
  - apply (bool_decide_unpack _). vm_compute. exact I.
  - intros c Hin. each_row Hin. simpl. lia.
  - lia.
  - reflexivity.
  - reflexivity.
  - reflexivity.
  - reflexivity.
Defined.

(** ** Posting and deleting comments *)

(** A comment is stored only on the caller's own card or on the card of an
    accepted friend; every other outcome leaves the store as it was. *)
Theorem postComment_only_self_or_friend db now (user : jwt_payload) b :
  (code (postComment db now user b).1 = 201 →
   ∃ owner, CommentBody.cardOwnerId b = Some owner ∧
            (owner = userId user ∨ isAcceptedFriend db (userId user) owner = true)) ∧
  (code (postComment db now user b).1 ≠ 201 → (postComment db now user b).2 = db).
Proof.
  unfold postComment.
  destruct (CommentBody.cardOwnerId b) as [owner|]; [|done].
  destruct (CommentBody.row b) as [row|]; [|done].
  destruct (CommentBody.col b) as [col|]; [|done].
  destruct (CommentBody.text b) as [text|]; [|done].
  destruct (String.eqb text ""); [done|].
  destruct (negb (owner =? userId user) && _) eqn:Hguard; [done|].
  destruct (commentQueries.create _ _ _ _ _ _ _ _); simpl; [|done].
  split; [|done]. intros _. exists owner. split; [done|].
  apply andb_false_iff in Hguard as [Hown|Hfriend].
  - left. apply negb_false_iff in Hown. lia.
  - right. by apply negb_false_iff in Hfriend.
Qed.

Lemma postComment_only_self_or_friend_witness :
  ∃ owner, CommentBody.cardOwnerId (CommentBody.mk (Some 1) (Some 7) (Some (-2))
                                      (Some "go") None) = Some owner ∧
           (owner = userId (as_user cy) ∨
            isAcceptedFriend sample_db (userId (as_user cy)) owner = true).
Proof.
  apply (proj1 (postComment_only_self_or_friend sample_db 400 (as_user cy)
                  (CommentBody.mk (Some 1) (Some 7) (Some (-2)) (Some "go") None))).
  reflexivity.
Defined.

(** What a comment that passes every check does. *)
Lemma postComment_creates db now (user : jwt_payload) owner row col text isPrivate :
  userId user ∈ Users.id <$> users db →
  owner ∈ Users.id <$> users db →
  owner = userId user ∨ isAcceptedFriend db (userId user) owner = true →
  text ≠ "" →
  ∃ id db1,
    postComment db now user
        (CommentBody.mk (Some owner) (Some row) (Some col) (Some text) isPrivate)
      = (mkResponse 201 (Message "Comment added successfully"), db1) ∧
    comments db1
      = comments db ++
        [Comments.mk id (userId user) owner row col text
           (if truthy isPrivate then 1 else 0) now] ∧
    users db1 = users db ∧ friendships db1 = friendships db ∧
    reactions db1 = reactions db.
Proof.
  intros Huser Howner Hallowed Htext. unfold postComment.
  cbn [CommentBody.cardOwnerId CommentBody.row CommentBody.col CommentBody.text
       CommentBody.isPrivate].
  rewrite (proj2 (String.eqb_neq text "") Htext).
  assert (negb (owner =? userId user) &&
          negb (accepted_row (friendshipQueries.checkFriendship db
                  (userId user) owner owner (userId user))) = false) as ->.
  { destruct Hallowed as [->|Hfriend]; [by rewrite Z.eqb_refl|].
    unfold isAcceptedFriend in Hfriend. by rewrite Hfriend, andb_false_r. }
  unfold commentQueries.create. rewrite bool_decide_eq_true_2 by done.
  eexists _, _. split; [reflexivity|]. done.
Qed.

(** A posted comment is read back by its author and by the card owner with
    the cell, text and privacy flag it was posted with, whatever the cell:
    no row or column is out of range, and the owner need not have a card.
    Posted as private, it is in no list returned to anyone else. *)
Theorem postComment_then_listed db now (user : jwt_payload) owner row col text isPrivate :
  userId user ∈ Users.id <$> users db →
  owner ∈ Users.id <$> users db →
  owner = userId user ∨ isAcceptedFriend db (userId user) owner = true →
  text ≠ "" →
  ∃ id db1,
    postComment db now user
        (CommentBody.mk (Some owner) (Some row) (Some col) (Some text) isPrivate)
      = (mkResponse 201 (Message "Comment added successfully"), db1) ∧
    (∃ rows, listed (getCardComments db1 user owner) = Some rows ∧
             Comments.mk id (userId user) owner row col text
               (if truthy isPrivate then 1 else 0) now ∈ rows) ∧
    (∀ reader : jwt_payload, userId reader = owner →
       ∃ rows, listed (getTaskComments db1 reader owner row col) = Some rows ∧
               Comments.mk id (userId user) owner row col text
                 (if truthy isPrivate then 1 else 0) now ∈ rows) ∧
    (truthy isPrivate = true →
     ∀ reader : jwt_payload, userId reader ≠ userId user → userId reader ≠ owner →
     ∀ rows, listed (getCardComments db1 reader owner) = Some rows →
             Comments.mk id (userId user) owner row col text 1 now ∉ rows).
Proof.
  intros Huser Howner Hallowed Htext.
  destruct (postComment_creates db now user owner row col text isPrivate)
    as (id & db1 & Hpost & Hcomments & Hu & Hfs & _); [done..|].
  exists id, db1. split; [done|].
  set (c := Comments.mk id (userId user) owner row col text
              (if truthy isPrivate then 1 else 0) now).
  destruct (comment_row_queried db1 c) as (n & Hcard & Htask).
  { rewrite Hcomments. apply elem_of_app. right. by left. }
  { by rewrite Hu. }
  split; [|split].
  - destruct (getCardComments_allowed db1 user owner) as [rows Hrows].
    { destruct Hallowed as [->|Hfriend]; [by left|right].
      by rewrite (isAcceptedFriend_ext db db1). }
    exists rows. split; [done|]. apply getCardComments_listed in Hrows as ->.
    apply (party_shown _ _ _ n); [by right|done].
  - intros reader Hreader.
    destruct (getTaskComments_allowed db1 reader owner row col) as [rows Hrows]; [by left|].
    exists rows. split; [done|]. apply getTaskComments_listed in Hrows as ->.
    apply (party_shown _ _ _ n); [by left|done].
  - intros Hprivate reader Hna Hno rows ->%getCardComments_listed.
    by apply private_hidden.
Qed.

Lemma postComment_then_listed_witness :
  ∃ id db1,
    postComment sample_db 400 (as_user cy)
        (CommentBody.mk (Some 1) (Some 7) (Some (-2)) (Some "go") (Some (JBool true)))
      = (mkResponse 201 (Message "Comment added successfully"), db1) ∧
    (∃ rows, listed (getCardComments db1 (as_user cy) 1) = Some rows ∧
             Comments.mk id 3 1 7 (-2) "go" 1 400 ∈ rows) ∧
    (∀ rows, listed (getCardComments db1 (as_user bo) 1) = Some rows →
             Comments.mk id 3 1 7 (-2) "go" 1 400 ∉ rows).
Proof.
  destruct (postComment_then_listed sample_db 400 (as_user cy) 1 7 (-2) "go"
              (Some (JBool true))) as (id & db1 & Hpost & Hauthor & _ & Hhidden).
  - apply (bool_decide_unpack _). vm_compute. exact I.
  - apply (bool_decide_unpack _). vm_compute. exact I.
  - right. reflexivity.
  - discriminate.
  - exists id, db1. split; [exact Hpost|]. split; [exact Hauthor|].
    apply (Hhidden eq_refl (as_user bo)); simpl; lia.
Defined.

Lemma filter_all {A} (P : A → Prop) `{!∀ x, Decision (P x)} (l : list A) :
  (∀ x, x ∈ l → P x) → filter P l = l.
Proof.
  induction l as [|x l IH]; [done|]. intros Hall.
  rewrite filter_cons_True by (apply Hall; by left).
  f_equal. apply IH. intros y Hy. apply Hall. by right.
Qed.

Lemma filter_ext_in {A} (P Q : A → Prop) `{!∀ x, Decision (P x)} `{!∀ x, Decision (Q x)}
    (l : list A) :
  (∀ x, x ∈ l → (P x ↔ Q x)) → filter P l = filter Q l.
Proof.
  induction l as [|x l IH]; [done|]. intros Hext.
  rewrite !filter_cons.
  destruct (decide (P x)) as [HP|HP], (decide (Q x)) as [HQ|HQ].
  - f_equal. apply IH. intros y Hy. apply Hext. by right.
  - exfalso. apply HQ. apply (Hext x); [by left|done].
  - exfalso. apply HP. apply (Hext x); [by left|done].
  - apply IH. intros y Hy. apply Hext. by right.
Qed.

Lemma delete_where_nothing db (gone : Comments.row → Prop) `{!∀ c, Decision (gone c)} :
  (∀ c, c ∈ comments db → ¬ gone c) →
  commentQueries.delete_where db gone = (db, 0).
Proof.
  intros Hnone. unfold commentQueries.delete_where.
  assert (filter gone (comments db) = []) as ->.
  { apply head_None. by apply get_filter_fresh. }
  rewrite !filter_all; [by destruct db|..].
  all: intros x Hx; first [by apply Hnone | simpl; apply not_elem_of_nil].
Qed.

(** Deleting a comment one did not write, or one that does not exist, is
    answered 404 and deletes nothing; the owner of the card has no more
    right over a friend's comment than anyone else. *)
Theorem deleteComment_not_author db (user : jwt_payload) commentId :
  (∀ c, c ∈ comments db → Comments.id c = commentId →
        Comments.author_id c ≠ userId user) →
  deleteComment db user commentId = (fail 404 "Comment not found or unauthorized", db).
Proof.
  intros Hnot. unfold deleteComment, commentQueries.delete.
  rewrite delete_where_nothing; [done|]. intros c Hc [Hid Hauthor]. by apply (Hnot c).
Qed.

Lemma deleteComment_not_author_witness :
  deleteComment sample_db (as_user ann) 1
  = (fail 404 "Comment not found or unauthorized", sample_db).
Proof.
  apply (deleteComment_not_author sample_db (as_user ann) 1).
  intros c Hin Hid. each_row Hin; simpl in *; lia.
Defined.

(** The author's delete removes the comment and, with it, every reaction on
    it; all other comments and reactions stay. *)
Theorem deleteComment_by_author db (user : jwt_payload) c :
  NoDup (Comments.id <$> comments db) →
  c ∈ comments db → Comments.author_id c = userId user →
  ∃ db1,
    deleteComment db user (Comments.id c) = (ok (Message "Comment deleted successfully"), db1) ∧
    comments db1 = filter (λ x, Comments.id x ≠ Comments.id c) (comments db) ∧
    reactions db1
      = filter (λ r, Reactions.comment_id r ≠ Comments.id c) (reactions db).
Proof.
  intros Hnd Hc Hauthor.
  assert (∀ x, x ∈ comments db →
            (Comments.id x = Comments.id c ∧ Comments.author_id x = userId user) ↔ x = c)
    as Hgone.
  { intros x Hx. split; [|by intros ->].
    intros [Hid _]. by apply (NoDup_key_inj Comments.id (comments db)). }
  assert (filter (λ x, Comments.id x = Comments.id c ∧ Comments.author_id x = userId user)
            (comments db) ≠ []) as Hsome.
  { intros Hnil. by eapply (filter_nil_not_elem_of _ _ c Hnil). }
  unfold deleteComment, commentQueries.delete, commentQueries.delete_where.
  cbn [fst snd].
  destruct (Z.eqb_spec (Z.of_nat (length (filter
     (λ x, Comments.id x = Comments.id c ∧ Comments.author_id x = userId user)
     (comments db)))) 0) as [Hzero|_].
  { exfalso. apply Hsome. apply length_zero_iff_nil. lia. }
  eexists. split; [reflexivity|]. simpl. split.
  - apply filter_ext_in. intros x Hx. rewrite (Hgone x Hx).
    split; [|by intros Hid ->].
    intros Hne Hid. apply Hne. by apply (NoDup_key_inj Comments.id (comments db)).
  - apply list_filter_iff. intros r. rewrite list_elem_of_fmap. split.
    + intros Hkept Hid. apply Hkept. exists c. split; [done|].
      by apply list_elem_of_filter.
    + intros Hne (x & Hid & [[Hxid _] _]%list_elem_of_filter). congruence.
Qed.

Lemma deleteComment_by_author_witness :
  ∃ db1,
    deleteComment sample_db (as_user bo) 1
      = (ok (Message "Comment deleted successfully"), db1) ∧
    comments db1 = [Comments.mk 2 3 1 0 0 "nice" 0 131] ∧
    reactions db1 = [].
Proof.
  apply (deleteComment_by_author sample_db (as_user bo)
           (Comments.mk 1 2 1 0 0 "well done" 1 130)).
  - apply (bool_decide_unpack _). vm_compute. exact I.
  - apply list_elem_of_In. simpl. tauto.
  - reflexivity.
Defined.

(** ** Removing reactions and clearing a card's comments *)

(** A reaction that is added and then removed leaves the reactions as they
    were, and removing it once more is answered 404. *)
Theorem addReaction_then_removeReaction db now (user : jwt_payload) c e :
  c ≠ 0 → e ≠ "" →
  c ∈ Comments.id <$> comments db →
  userId user ∈ Users.id <$> users db →
  (∀ r, r ∈ reactions db →
        ¬ (Reactions.comment_id r = c ∧ Reactions.user_id r = userId user ∧
           Reactions.emoji r = e)) →
  ∃ db1 db2,
    addReaction db now user (ReactionBody.mk (Some c) (Some e))
      = (mkResponse 201 (Message "Reaction added successfully"), db1) ∧
    removeReaction db1 user (ReactionBody.mk (Some c) (Some e))
      = (ok (Message "Reaction removed successfully"), db2) ∧
    reactions db2 = reactions db ∧
    removeReaction db2 user (ReactionBody.mk (Some c) (Some e))
      = (fail 404 "Reaction not found", db2).
Proof.
  intros Hc He Hcomment Huser Hfresh.
  apply Z.eqb_neq in Hc. apply String.eqb_neq in He.
  assert (filter (λ r, Reactions.comment_id r = c ∧ Reactions.user_id r = userId user ∧
                       Reactions.emoji r = e) (reactions db) = []) as Hnone.
  { apply head_None. by apply get_filter_fresh. }
  assert (filter (λ r, ¬ (Reactions.comment_id r = c ∧ Reactions.user_id r = userId user ∧
                          Reactions.emoji r = e)) (reactions db) = reactions db) as Hkeep.
  { by apply filter_all. }
  eexists _, _. split; [|split; [|split]].
  - unfold addReaction. cbn [ReactionBody.commentId ReactionBody.emoji].
    rewrite Hc, He. cbn [orb]. unfold reactionQueries.create.
    rewrite bool_decide_eq_false_2.
    2:{ intros (r & Hr & Htriple)%Exists_exists. by apply (Hfresh r). }
    rewrite bool_decide_eq_true_2 by done. reflexivity.
  - unfold removeReaction. cbn [ReactionBody.commentId ReactionBody.emoji].
    rewrite Hc, He. cbn [orb]. unfold reactionQueries.delete.
    cbn [fst snd reactions bump_sequence set_sqlite_sequence set_reactions].
    rewrite !filter_app, Hnone, Hkeep.
    rewrite (filter_cons_False (λ r, ¬ (Reactions.comment_id r = c ∧
               Reactions.user_id r = userId user ∧ Reactions.emoji r = e)))
      by (simpl; tauto).
    rewrite (filter_cons_True (λ r, Reactions.comment_id r = c ∧
               Reactions.user_id r = userId user ∧ Reactions.emoji r = e))
      by (simpl; tauto).
    reflexivity.
  - simpl. by rewrite filter_nil, app_nil_r.
  - unfold removeReaction. cbn [ReactionBody.commentId ReactionBody.emoji].
    rewrite Hc, He. cbn [orb]. unfold reactionQueries.delete.
    cbn [fst snd reactions bump_sequence set_sqlite_sequence set_reactions].
    rewrite !filter_nil, !app_nil_r, Hnone, Hkeep. reflexivity.
Qed.

Lemma addReaction_then_removeReaction_witness :
  ∃ db1 db2,
    addReaction sample_db 200 (as_user cy) (ReactionBody.mk (Some 2) (Some "👍"))
      = (mkResponse 201 (Message "Reaction added successfully"), db1) ∧
    removeReaction db1 (as_user cy) (ReactionBody.mk (Some 2) (Some "👍"))
      = (ok (Message "Reaction removed successfully"), db2) ∧
    reactions db2 = reactions sample_db ∧
    removeReaction db2 (as_user cy) (ReactionBody.mk (Some 2) (Some "👍"))
      = (fail 404 "Reaction not found", db2).
Proof.
  apply (addReaction_then_removeReaction sample_db 200 (as_user cy) 2 "👍").
  - lia.
  - discriminate.
  - apply (bool_decide_unpack _). vm_compute. exact I.
  - apply (bool_decide_unpack _). vm_compute. exact I.
  - intros r Hin (Hc & _). each_row Hin. simpl in Hc. lia.
Defined.

(** Clearing removes every comment on the caller's card, whoever wrote it,
    reports how many there were, and leaves the owner's listing empty; the
    comments on other cards, and the card itself, are not touched. *)
Theorem clearComments_effect db (user : jwt_payload) :
  (clearComments db user).1
    = Sent 200 ("All comments cleared successfully",
                Z.of_nat (length (filter (λ c, Comments.card_owner_id c = userId user)
                                    (comments db)))) ∧
  comments (clearComments db user).2
    = filter (λ c, Comments.card_owner_id c ≠ userId user) (comments db) ∧
  listed (getCardComments (clearComments db user).2 user (userId user)) = Some [] ∧
  bingo_cards (clearComments db user).2 = bingo_cards db.
Proof.
  split; [done|]. split; [done|]. split; [|done].
  unfold getCardComments. rewrite Z.eqb_refl. cbn [negb andb].
  unfold commentQueries.getByCard, clearComments, commentQueries.deleteByCardOwner,
    commentQueries.delete_where.
  cbn [fst snd comments set_reactions set_comments users].
  rewrite list_filter_filter.
  assert (filter (λ c, Comments.card_owner_id c = userId user ∧
                       ¬ Comments.card_owner_id c = userId user) (comments db) = []) as ->.
  { apply head_None, get_filter_fresh. tauto. }
  reflexivity.
Qed.

(** ** Groups *)

(** What creating a group does when the name is not blank. *)
Lemma createGroup_creates trim db now (user : jwt_payload) name :
  store_ok db →
  userId user ∈ Users.id <$> users db →
  name ≠ "" → trim name ≠ "" →
  ∃ gid mid db2,
    createGroup trim db now user (Some name) = (Sent 201 (gid, trim name), db2) ∧
    groups db2 = groups db ++ [Groups.mk gid (trim name) (userId user) now] ∧
    group_members db2
      = group_members db ++ [GroupMembers.mk mid gid (userId user) admin accepted now] ∧
    (gid ∉ Groups.id <$> groups db) ∧
    (∀ m, m ∈ group_members db → GroupMembers.group_id m ≠ gid).
Proof.
  intros Hok Huser Hname Htrim. unfold createGroup.
  rewrite (proj2 (String.eqb_neq name "") Hname), (proj2 (String.eqb_neq _ "") Htrim).
  cbn [orb].
  destruct (groupQueries.create db now (trim name) (userId user)) as [db1 gid|msg]
    eqn:Hcreate.
  2:{ unfold groupQueries.create in Hcreate. by rewrite bool_decide_eq_true_2 in Hcreate. }
  destruct (groups_create_store_ok _ _ _ _ _ _ Hok Hcreate)
    as (Hok1 & Hmembers & Husers & Hgroups & Hfresh).
  assert (∀ m, m ∈ group_members db → GroupMembers.group_id m ≠ gid) as Hnew.
  { intros m Hm Heq. apply Hfresh. rewrite <- Heq. by apply (ok_member_group db Hok). }
  destruct (groupQueries.addMember db1 now gid (userId user) admin accepted)
    as [db2 mid|msg] eqn:Hadd.
  2:{ unfold groupQueries.addMember in Hadd. rewrite bool_decide_eq_false_2 in Hadd.
      - rewrite bool_decide_eq_true_2 in Hadd; [done|]. split.
        + rewrite Hgroups, fmap_app. apply elem_of_app. right. by left.
        + by rewrite Husers.
      - rewrite Hmembers. intros (m & Hm & Hg & _)%Exists_exists. by apply (Hnew m). }
  destruct (addMember_store_ok _ _ _ _ _ _ _ _ Hok1 Hadd) as (_ & Hg2 & _ & Hm2 & _).
  { intros _. split; [done|]. exists (Groups.mk gid (trim name) (userId user) now).
    split; [|done]. rewrite Hgroups. apply elem_of_app. right. by left. }
  exists gid, mid, db2. split; [done|]. rewrite Hg2, Hm2, Hgroups, Hmembers. done.
Qed.

(** A group created with a non-blank name has its creator as accepted admin:
    the creator reads the group with role admin and finds it among their
    groups.  A name that trims to nothing is refused with 400. *)
Theorem createGroup_creator_is_admin trim db now (user : jwt_payload) name :
  store_ok db →
  userId user ∈ Users.id <$> users db →
  name ≠ "" →
  (trim name ≠ "" →
   ∃ gid db2,
     createGroup trim db now user (Some name) = (Sent 201 (gid, trim name), db2) ∧
     getGroup db2 user gid
       = Sent 200 (Groups.mk gid (trim name) (userId user) now, admin) ∧
     (Groups.mk gid (trim name) (userId user) now, admin, accepted) ∈ getGroups db2 user) ∧
  (trim name = "" →
   createGroup trim db now user (Some name)
     = (Refused (fail 400 "Group name is required"), db)).
Proof.
  intros Hok Huser Hname. split.
  - intros Htrim.
    destruct (createGroup_creates trim db now user name Hok Huser Hname Htrim)
      as (gid & mid & db2 & Hcreate & Hgroups & Hmembers & Hfresh & Hnew).
    exists gid, db2. split; [done|].
    assert (groupQueries.getMember db2 gid (userId user)
            = Some (GroupMembers.mk mid gid (userId user) admin accepted now)) as Hget.
    { unfold groupQueries.getMember. rewrite Hmembers.
      apply get_filter_snoc_fresh; [|done]. intros m Hm [Hg _]. by apply (Hnew m). }
    split.
    + unfold getGroup. rewrite Hget. simpl.
      unfold groupQueries.findById. rewrite Hgroups.
      rewrite get_filter_snoc_fresh; [done| |done].
      intros g Hg Heq. apply Hfresh. rewrite <- Heq. by apply list_elem_of_fmap_2.
    + unfold getGroups, groupQueries.getUserGroups. rewrite merge_sort_Permutation.
      apply list_elem_of_bind. exists (Groups.mk gid (trim name) (userId user) now).
      split.
      * apply list_elem_of_bind.
        exists (GroupMembers.mk mid gid (userId user) admin accepted now).
        split; [by left|]. apply list_elem_of_filter. split; [done|].
        rewrite Hmembers. apply elem_of_app. right. by left.
      * rewrite Hgroups. apply elem_of_app. right. by left.
  - intros Htrim. unfold createGroup. by rewrite Htrim, orb_true_r.
Qed.

Lemma createGroup_creator_is_admin_witness :
  (∃ gid db2,
     createGroup sample_trim sample_db 500 (as_user bo) (Some "Runners")
       = (Sent 201 (gid, sample_trim "Runners"), db2) ∧
     getGroup db2 (as_user bo) gid
       = Sent 200 (Groups.mk gid (sample_trim "Runners") 2 500, admin) ∧
     (Groups.mk gid (sample_trim "Runners") 2 500, admin, accepted)
       ∈ getGroups db2 (as_user bo)) ∧
  createGroup sample_trim sample_db 500 (as_user bo) (Some "   ")
    = (Refused (fail 400 "Group name is required"), sample_db).
Proof.
  split.
  - apply (proj1 (createGroup_creator_is_admin sample_trim sample_db 500 (as_user bo)
                    "Runners" sample_db_store_ok
                    ltac:(apply (bool_decide_unpack _); vm_compute; exact I)
                    ltac:(discriminate))).
    discriminate.
  - apply (proj2 (createGroup_creator_is_admin sample_trim sample_db 500 (as_user bo)
                    "   " sample_db_store_ok
                    ltac:(apply (bool_decide_unpack _); vm_compute; exact I)
                    ltac:(discriminate))).
    reflexivity.
Defined.

Lemma getMember_unique db g u m :
  NoDup ((λ m, (GroupMembers.group_id m, GroupMembers.user_id m)) <$> group_members db) →
  m ∈ group_members db → GroupMembers.group_id m = g → GroupMembers.user_id m = u →
  groupQueries.getMember db g u = Some m.
Proof.
  intros Huq Hm Hg Hu. unfold groupQueries.getMember.
  destruct (get_filter_is_Some (λ x, GroupMembers.group_id x = g ∧ GroupMembers.user_id x = u)
              (group_members db) m Hm (conj Hg Hu)) as [x Hx].
  rewrite Hx. f_equal. apply get_filter_Some in Hx as [[Hxg Hxu] Hxin].
  apply (NoDup_key_inj (λ m, (GroupMembers.group_id m, GroupMembers.user_id m))
           (group_members db)); [done..|]. simpl. congruence.
Qed.

(** What an admin's invitation of a user without a row in the group does. *)
Lemma inviteToGroup_creates db now (user : jwt_payload) g friendId m :
  store_ok db →
  m ∈ group_members db → GroupMembers.group_id m = g →
  GroupMembers.user_id m = userId user → GroupMembers.role m = admin →
  friendId ≠ 0 → friendId ∈ Users.id <$> users db →
  (∀ x, x ∈ group_members db →
        ¬ (GroupMembers.group_id x = g ∧ GroupMembers.user_id x = friendId)) →
  ∃ id db1,
    inviteToGroup db now user g (Some friendId)
      = (mkResponse 201 (Message "Invitation sent successfully"), db1) ∧
    group_members db1
      = group_members db ++ [GroupMembers.mk id g friendId member pending now] ∧
    (id ∉ GroupMembers.id <$> group_members db) ∧
    groups db1 = groups db ∧ users db1 = users db ∧ store_ok db1.
Proof.
  intros Hok Hm Hg Hu Hrole Hfriend Hexists Hnone. unfold inviteToGroup.
  rewrite (proj2 (Z.eqb_neq friendId 0) Hfriend).
  rewrite (getMember_unique db g (userId user) m); [|apply Hok|done..].
  rewrite bool_decide_eq_true_2 by done.
  apply list_elem_of_fmap in Hexists as (u & Hid & Huin).
  destruct (get_filter_is_Some (λ x, Users.id x = friendId) (users db) u Huin
              (eq_sym Hid)) as [friend Hfind].
  unfold userQueries.findById. rewrite Hfind.
  unfold groupQueries.getMember at 1. rewrite get_filter_fresh by done.
  destruct (groupQueries.addMember db now g friendId member pending) as [db1 id|msg]
    eqn:Hadd.
  2:{ unfold groupQueries.addMember in Hadd. rewrite bool_decide_eq_false_2 in Hadd.
      - rewrite bool_decide_eq_true_2 in Hadd; [done|]. split.
        + rewrite <- Hg. by apply (ok_member_group db Hok).
        + rewrite Hid. by apply list_elem_of_fmap_2.
      - intros (x & Hx & Hkey)%Exists_exists. by apply (Hnone x). }
  destruct (addMember_store_ok _ _ _ _ _ _ _ _ Hok Hadd) as (Hok1 & Hg1 & Hu1 & Hm1 & Hid1);
    [done|].
  by exists id, db1.
Qed.

(** Only a user with an admin row in the group invites; the invitation of a
    user who has no row there is stored as pending, repeating it is a
    Conflict, and until it is accepted the invited user cannot read the
    group. *)
Theorem inviteToGroup_pending db now (user friend : jwt_payload) g m :
  store_ok db →
  m ∈ group_members db → GroupMembers.group_id m = g →
  GroupMembers.user_id m = userId user → GroupMembers.role m = admin →
  userId friend ≠ 0 → userId friend ∈ Users.id <$> users db →
  (∀ x, x ∈ group_members db →
        ¬ (GroupMembers.group_id x = g ∧ GroupMembers.user_id x = userId friend)) →
  ∃ id db1,
    inviteToGroup db now user g (Some (userId friend))
      = (mkResponse 201 (Message "Invitation sent successfully"), db1) ∧
    GroupMembers.mk id g (userId friend) member pending now ∈ group_members db1 ∧
    inviteToGroup db1 now user g (Some (userId friend))
      = (fail 409 "Invitation already sent", db1) ∧
    (∀ other, other ≠ 0 →
       inviteToGroup db1 now friend g (Some other)
         = (fail 403 "Only admins can invite members", db1)) ∧
    getGroup db1 friend g = Refused (fail 403 "You are not a member of this group").
Proof.
  intros Hok Hm Hg Hu Hrole Hfriend Hexists Hnone.
  destruct (inviteToGroup_creates db now user g (userId friend) m)
    as (id & db1 & Hinvite & Hmembers & Hid & Hgroups & Husers & Hok1); [done..|].
  set (row := GroupMembers.mk id g (userId friend) member pending now) in *.
  assert (row ∈ group_members db1) as Hrow.
  { rewrite Hmembers. apply elem_of_app. right. by left. }
  assert (groupQueries.getMember db1 g (userId friend) = Some row) as Hget.
  { apply getMember_unique; [apply Hok1|done..]. }
  assert (groupQueries.getMember db1 g (userId user) = Some m) as Hadmin.
  { apply getMember_unique; [apply Hok1| |done..].
    rewrite Hmembers. apply elem_of_app. by left. }
  exists id, db1. split; [done|]. split; [done|]. split; [|split].
  - unfold inviteToGroup. rewrite (proj2 (Z.eqb_neq _ 0) Hfriend), Hadmin.
    rewrite bool_decide_eq_true_2 by done.
    apply list_elem_of_fmap in Hexists as (u & Hid' & Huin).
    destruct (get_filter_is_Some (λ x, Users.id x = userId friend) (users db1) u)
      as [x Hfind]; [by rewrite Husers|done|].
    unfold userQueries.findById. rewrite Hfind, Hget. done.
  - intros other Hother. unfold inviteToGroup.
    by rewrite (proj2 (Z.eqb_neq _ 0) Hother), Hget.
  - unfold getGroup. by rewrite Hget.
Qed.

Lemma sample_db_dee_not_in_group :
  ∀ x, x ∈ group_members sample_db →
       ¬ (GroupMembers.group_id x = 1 ∧ GroupMembers.user_id x = userId (as_user dee)).
Proof. intros x Hin [_ Hu]. each_row Hin; simpl in Hu; lia. Defined.

Lemma inviteToGroup_pending_witness :
  ∃ id db1,
    inviteToGroup sample_db 600 (as_user ann) 1 (Some (userId (as_user dee)))
      = (mkResponse 201 (Message "Invitation sent successfully"), db1) ∧
    GroupMembers.mk id 1 (userId (as_user dee)) member pending 600 ∈ group_members db1 ∧
    inviteToGroup db1 600 (as_user ann) 1 (Some (userId (as_user dee)))
      = (fail 409 "Invitation already sent", db1) ∧
    (∀ other, other ≠ 0 →
       inviteToGroup db1 600 (as_user dee) 1 (Some other)
         = (fail 403 "Only admins can invite members", db1)) ∧
    getGroup db1 (as_user dee) 1 = Refused (fail 403 "You are not a member of this group").
Proof.
  apply (inviteToGroup_pending sample_db 600 (as_user ann) (as_user dee) 1
           (GroupMembers.mk 1 1 1 admin accepted 150)).
  - exact sample_db_store_ok.
  - apply list_elem_of_In. simpl. tauto.
  - reflexivity.
  - reflexivity.
  - reflexivity.
  - simpl. lia.
  - apply (bool_decide_unpack _). vm_compute. exact I.
  - exact sample_db_dee_not_in_group.
Defined.

(** An invitation is accepted by the invited user alone, and from then on
    that user reads the group, with role member. *)
Theorem invite_then_accept db now (user friend : jwt_payload) g m :
  store_ok db →
  m ∈ group_members db → GroupMembers.group_id m = g →
  GroupMembers.user_id m = userId user → GroupMembers.role m = admin →
  userId friend ≠ 0 → userId friend ∈ Users.id <$> users db →
  (∀ x, x ∈ group_members db →
        ¬ (GroupMembers.group_id x = g ∧ GroupMembers.user_id x = userId friend)) →
  ∃ id db1 db2 group,
    inviteToGroup db now user g (Some (userId friend))
      = (mkResponse 201 (Message "Invitation sent successfully"), db1) ∧
    acceptInvitation db1 user id = (fail 403 "Unauthorized", db1) ∧
    acceptInvitation db1 friend id
      = (ok (Message "Invitation accepted successfully"), db2) ∧
    Groups.id group = g ∧
    getGroup db2 friend g = Sent 200 (group, member) ∧
    acceptInvitation db2 friend id = (fail 400 "Invitation already accepted", db2).
Proof.
  intros Hok Hm Hg Hu Hrole Hfriend Hexists Hnone.
  destruct (inviteToGroup_creates db now user g (userId friend) m)
    as (id & db1 & Hinvite & Hmembers & Hid & Hgroups & Husers & Hok1); [done..|].
  set (row := GroupMembers.mk id g (userId friend) member pending now) in *.
  assert (userId friend ≠ userId user) as Hne.
  { intros Heq. apply (Hnone m Hm). by rewrite Heq. }
  assert (groupQueries.getMemberById db1 id = Some row) as Hbyid.
  { unfold groupQueries.getMemberById. rewrite Hmembers.
    apply get_filter_snoc_fresh; [|done].
    intros x Hx Heq. apply Hid. rewrite <- Heq. by apply list_elem_of_fmap_2. }
  set (db2 := groupQueries.updateMemberStatus db1 accepted id).
  set (row2 := GroupMembers.mk id g (userId friend) member accepted now).
  assert (row2 ∈ group_members db2) as Hrow2.
  { unfold db2, groupQueries.updateMemberStatus. simpl. apply list_elem_of_fmap.
    exists row. split; [by rewrite bool_decide_eq_true_2|].
    rewrite Hmembers. apply elem_of_app. right. by left. }
  pose proof (updateMemberStatus_store_ok db1 id Hok1) as Hok2. fold db2 in Hok2.
  assert (groupQueries.getMember db2 g (userId friend) = Some row2) as Hget2.
  { apply getMember_unique; [apply Hok2|done..]. }
  assert (g ∈ Groups.id <$> groups db) as (group & Hgid & Hgroup)%list_elem_of_fmap.
  { rewrite <- Hg. by apply (ok_member_group db Hok). }
  destruct (get_filter_is_Some (λ x, Groups.id x = g) (groups db2) group)
    as [group' Hfind]; [by rewrite <- Hgroups in Hgroup|done|].
  exists id, db1, db2, group'. split; [done|]. split; [|split; [|split; [|split]]].
  - unfold acceptInvitation. rewrite Hbyid. simpl.
    by rewrite (proj2 (Z.eqb_neq _ _) Hne).
  - unfold acceptInvitation. rewrite Hbyid. simpl. by rewrite Z.eqb_refl.
  - by apply get_filter_Some in Hfind as [? _].
  - unfold getGroup. rewrite Hget2. simpl.
    unfold groupQueries.findById. by rewrite Hfind.
  - unfold acceptInvitation.
    assert (groupQueries.getMemberById db2 id = Some row2) as ->.
    { unfold groupQueries.getMemberById.
      destruct (get_filter_is_Some (λ x, GroupMembers.id x = id) (group_members db2) row2)
        as [x Hx]; [done..|].
      rewrite Hx. f_equal. apply get_filter_Some in Hx as [Hxid Hxin].
      by apply (NoDup_key_inj GroupMembers.id (group_members db2)); [apply Hok2|..]. }
    simpl. by rewrite Z.eqb_refl.
Qed.

Lemma invite_then_accept_witness :
  ∃ id db1 db2 group,
    inviteToGroup sample_db 600 (as_user ann) 1 (Some (userId (as_user dee)))
      = (mkResponse 201 (Message "Invitation sent successfully"), db1) ∧
    acceptInvitation db1 (as_user ann) id = (fail 403 "Unauthorized", db1) ∧
    acceptInvitation db1 (as_user dee) id
      = (ok (Message "Invitation accepted successfully"), db2) ∧
    Groups.id group = 1 ∧
    getGroup db2 (as_user dee) 1 = Sent 200 (group, member) ∧
    acceptInvitation db2 (as_user dee) id = (fail 400 "Invitation already accepted", db2).
Proof.
  apply (invite_then_accept sample_db 600 (as_user ann) (as_user dee) 1
           (GroupMembers.mk 1 1 1 admin accepted 150)).
  - exact sample_db_store_ok.
  - apply list_elem_of_In. simpl. tauto.
  - reflexivity.
  - reflexivity.
  - reflexivity.
  - simpl. lia.
  - apply (bool_decide_unpack _). vm_compute. exact I.
  - exact sample_db_dee_not_in_group.
Defined.


(** The decline route removes the caller's membership row whatever its
    status and role, the accepted row of a group's only admin included, and
    leaves the group itself in place. *)
Theorem declineInvitation_removes_any_row db (user : jwt_payload) m :
  NoDup (GroupMembers.id <$> group_members db) →
  m ∈ group_members db → GroupMembers.user_id m = userId user →
  declineInvitation db user (GroupMembers.id m)
    = (ok (Message "Invitation declined successfully"),
       groupQueries.removeMember db (GroupMembers.group_id m) (userId user)) ∧
  (m ∉ group_members (declineInvitation db user (GroupMembers.id m)).2) ∧
  groups (declineInvitation db user (GroupMembers.id m)).2 = groups db.
Proof.
  intros Hids Hm Hu.
  assert (groupQueries.getMemberById db (GroupMembers.id m) = Some m) as Hfind.
  { unfold groupQueries.getMemberById.
    destruct (get_filter_is_Some (λ x, GroupMembers.id x = GroupMembers.id m)
                (group_members db) m Hm eq_refl) as [x Hx].
    rewrite Hx. f_equal. apply get_filter_Some in Hx as [Hid Hx].
    by apply (NoDup_key_inj GroupMembers.id (group_members db)). }
  assert (declineInvitation db user (GroupMembers.id m)
          = (ok (Message "Invitation declined successfully"),
             groupQueries.removeMember db (GroupMembers.group_id m) (userId user))) as Heq.
  { unfold declineInvitation. by rewrite Hfind, Hu, Z.eqb_refl. }
  rewrite Heq. split; [done|]. split; [|done].
  simpl. intros [Hkept _]%list_elem_of_filter. by apply Hkept.
Qed.

Lemma declineInvitation_removes_any_row_witness :
  leaveGroup sample_db (as_user ann) 1
    = (fail 400
         "Cannot leave: you are the only admin. Transfer admin role first or delete the group.",
       sample_db) ∧
  declineInvitation sample_db (as_user ann) 1
    = (ok (Message "Invitation declined successfully"),
       groupQueries.removeMember sample_db 1 1) ∧
  (GroupMembers.mk 1 1 1 admin accepted 150
     ∉ group_members (declineInvitation sample_db (as_user ann) 1).2) ∧
  groups (declineInvitation sample_db (as_user ann) 1).2 = groups sample_db.
Proof.
  split; [reflexivity|].
  apply (declineInvitation_removes_any_row sample_db (as_user ann)
           (GroupMembers.mk 1 1 1 admin accepted 150)).
  - apply (bool_decide_unpack _). vm_compute. exact I.
  - apply list_elem_of_In. simpl. tauto.
  - reflexivity.
Defined.

Lemma getGroupMembers_none db g :
  (∀ m, m ∈ group_members db →
        ¬ (GroupMembers.group_id m = g ∧ GroupMembers.status m = accepted)) →
  groupQueries.getGroupMembers db g = [].
Proof.
  intros Hnone. unfold groupQueries.getGroupMembers.
  assert (filter (λ m, GroupMembers.group_id m = g ∧ GroupMembers.status m = accepted)
            (group_members db) = []) as ->.
  { apply head_None. by apply get_filter_fresh. }
  reflexivity.
Qed.

Lemma getGroupMembers_some db g m :
  m ∈ group_members db → GroupMembers.group_id m = g →
  GroupMembers.status m = accepted →
  GroupMembers.user_id m ∈ Users.id <$> users db →
  groupQueries.getGroupMembers db g ≠ [].
Proof.
  intros Hm Hg Hst (u & Hid & Hu)%list_elem_of_fmap Hnil.
  assert ((m, Users.name u) ∈ groupQueries.getGroupMembers db g) as Hin.
  { unfold groupQueries.getGroupMembers. rewrite merge_sort_Permutation.
    unfold join_user_name. apply list_elem_of_bind. exists m.
    split; [|by apply list_elem_of_filter].
    apply list_elem_of_bind. exists u. split; [by left|]. by apply list_elem_of_filter. }
  rewrite Hnil in Hin. by apply elem_of_nil in Hin.
Qed.

(** When the last accepted member leaves, the group goes with them: its
    row, and with it every pending invitation to it, is deleted. *)
Theorem leaveGroup_last_member db (user : jwt_payload) g m :
  constraints_hold db →
  m ∈ group_members db → GroupMembers.group_id m = g →
  GroupMembers.user_id m = userId user → GroupMembers.status m = accepted →
  (∀ x, x ∈ group_members db → GroupMembers.group_id x = g →
        GroupMembers.status x = accepted → GroupMembers.user_id x = userId user) →
  ∃ db1,
    leaveGroup db user g = (ok (Message "Left group successfully"), db1) ∧
    (∀ x, x ∈ groups db1 → Groups.id x ≠ g) ∧
    (∀ x, x ∈ group_members db1 → GroupMembers.group_id x ≠ g) ∧
    filter (λ x, Groups.id x ≠ g) (groups db1) = filter (λ x, Groups.id x ≠ g) (groups db).
Proof.
  intros Hdb Hm Hg Hu Hst Hlast.
  set (key := λ m, (GroupMembers.group_id m, GroupMembers.user_id m)).
  assert (groupQueries.getMember db g (userId user) = Some m) as Hget.
  { apply getMember_unique; [apply Hdb|done..]. }
  assert (length (groupQueries.getGroupMembers db g) = 1%nat) as Hlen.
  { rewrite <- (length_fmap fst), (getGroupMembers_rows db g Hdb).
    apply (length_filter_one_key key _ _ (g, userId user) m); [apply Hdb| |done|done].
    intros y Hy [Hyg Hyst]. unfold key. f_equal; [done|by apply Hlast]. }
  assert (groupQueries.getGroupMembers (groupQueries.removeMember db g (userId user)) g = [])
    as Hempty.
  { apply getGroupMembers_none. simpl.
    intros x [Hkept Hx]%list_elem_of_filter [Hxg Hxst]. apply Hkept. split; [done|].
    by apply Hlast. }
  eexists. split.
  - unfold leaveGroup. rewrite Hget, Hlen, Hempty.
    change (Nat.ltb 1 1) with false. rewrite !andb_false_r. reflexivity.
  - simpl. split; [|split].
    + by intros x [? _]%list_elem_of_filter.
    + by intros x [? _]%list_elem_of_filter.
    + rewrite list_filter_filter. apply list_filter_iff. tauto.
Qed.

Lemma leaveGroup_last_member_witness :
  ∃ db1,
    leaveGroup (groupQueries.removeMember sample_db 1 2) (as_user ann) 1
      = (ok (Message "Left group successfully"), db1) ∧
    (∀ x, x ∈ groups db1 → Groups.id x ≠ 1) ∧
    (∀ x, x ∈ group_members db1 → GroupMembers.group_id x ≠ 1) ∧
    filter (λ x, Groups.id x ≠ 1) (groups db1)
      = filter (λ x, Groups.id x ≠ 1) (groups (groupQueries.removeMember sample_db 1 2)).
Proof.
  apply (leaveGroup_last_member (groupQueries.removeMember sample_db 1 2) (as_user ann) 1
           (GroupMembers.mk 1 1 1 admin accepted 150)).
  - apply ok_constraints, removeMember_store_ok, sample_db_store_ok.
  - apply list_elem_of_In. vm_compute. tauto.
  - reflexivity.
  - reflexivity.
  - reflexivity.
  - intros x Hin _ Hst. apply list_elem_of_In in Hin. vm_compute in Hin.
    destruct Hin as [<-|[<-|[]]]; [reflexivity|discriminate].
Defined.

(** A member who is not an admin leaves freely: with another accepted
    member left behind only the leaver's row goes.  A user with no row in
    the group is answered 404. *)
Theorem leaveGroup_member db (user : jwt_payload) g m other :
  constraints_hold db →
  m ∈ group_members db → GroupMembers.group_id m = g →
  GroupMembers.user_id m = userId user → GroupMembers.role m = member →
  other ∈ group_members db → GroupMembers.group_id other = g →
  GroupMembers.user_id other ≠ userId user → GroupMembers.status other = accepted →
  leaveGroup db user g
    = (ok (Message "Left group successfully"),
       groupQueries.removeMember db g (userId user)) ∧
  (m ∉ group_members (leaveGroup db user g).2) ∧
  other ∈ group_members (leaveGroup db user g).2 ∧
  groups (leaveGroup db user g).2 = groups db.
Proof.
  intros Hdb Hm Hg Hu Hrole Ho Hog Hou Host.
  assert (groupQueries.getMember db g (userId user) = Some m) as Hget.
  { apply getMember_unique; [apply Hdb|done..]. }
  assert (other ∈ group_members (groupQueries.removeMember db g (userId user))) as Hstays.
  { simpl. apply list_elem_of_filter. split; [|done]. by intros [_ ?]. }
  assert (leaveGroup db user g
          = (ok (Message "Left group successfully"),
             groupQueries.removeMember db g (userId user))) as Heq.
  { unfold leaveGroup. rewrite Hget, Hrole.
    rewrite bool_decide_eq_false_2 by done. cbn [andb].
    destruct (groupQueries.getGroupMembers (groupQueries.removeMember db g (userId user)) g)
      as [|x xs] eqn:Hremaining; [|done].
    exfalso. eapply (getGroupMembers_some _ g other); [exact Hstays|done..| |exact Hremaining].
    simpl. by apply (fk_member_user db Hdb). }
  rewrite Heq. split; [done|]. split; [|split; [done|done]].
  simpl. intros [Hkept _]%list_elem_of_filter. by apply Hkept.
Qed.

Lemma leaveGroup_member_witness :
  leaveGroup sample_db (as_user bo) 1
    = (ok (Message "Left group successfully"), groupQueries.removeMember sample_db 1 2) ∧
  (GroupMembers.mk 2 1 2 member accepted 151
     ∉ group_members (leaveGroup sample_db (as_user bo) 1).2) ∧
  GroupMembers.mk 1 1 1 admin accepted 150
    ∈ group_members (leaveGroup sample_db (as_user bo) 1).2 ∧
  groups (leaveGroup sample_db (as_user bo) 1).2 = groups sample_db.
Proof.
  apply (leaveGroup_member sample_db (as_user bo) 1
           (GroupMembers.mk 2 1 2 member accepted 151)
           (GroupMembers.mk 1 1 1 admin accepted 150)).
  - exact sample_db_constraints.
  - apply list_elem_of_In. simpl. tauto.
  - reflexivity.
  - reflexivity.
  - reflexivity.
  - apply list_elem_of_In. simpl. tauto.
  - reflexivity.
  - simpl. lia.
  - reflexivity.
Defined.

(** Deleting a group is reserved to a caller whose own row in it has the
    admin role: then the group row goes, and with it every member row,
    pending invitations included, and every comment of the group, while
    the rows of other groups stay.  Any other caller, a plain member or a
    stranger, is answered 403 and nothing is written. *)
Theorem deleteGroup_admin_only db (user : jwt_payload) g :
  NoDup ((λ m, (GroupMembers.group_id m, GroupMembers.user_id m)) <$> group_members db) →
  let has_admin_row :=
    ∃ m, m ∈ group_members db ∧ GroupMembers.group_id m = g ∧
         GroupMembers.user_id m = userId user ∧ GroupMembers.role m = admin in
  (has_admin_row →
     ∃ db1,
       deleteGroup db user g = (ok (Message "Group deleted successfully"), db1) ∧
       (∀ x, x ∈ groups db1 → Groups.id x ≠ g) ∧
       (∀ x, x ∈ group_members db1 → GroupMembers.group_id x ≠ g) ∧
       (∀ c, c ∈ group_comments db1 → GroupComments.group_id c ≠ g) ∧
       (∀ x, x ∈ groups db → Groups.id x ≠ g → x ∈ groups db1) ∧
       (∀ x, x ∈ group_members db → GroupMembers.group_id x ≠ g → x ∈ group_members db1) ∧
       users db1 = users db ∧ comments db1 = comments db) ∧
  (¬ has_admin_row →
     deleteGroup db user g = (fail 403 "Only admins can delete groups", db)).
Proof.
  intros Huq has_admin_row. split.
  - intros (m & Hm & Hg & Hu & Hrole).
    exists (groupQueries.delete db g). split.
    { unfold deleteGroup. rewrite (getMember_unique db g (userId user) m Huq Hm Hg Hu).
      by rewrite bool_decide_eq_true_2. }
    simpl. repeat split.
    + by intros x [? _]%list_elem_of_filter.
    + by intros x [? _]%list_elem_of_filter.
    + by intros x [? _]%list_elem_of_filter.
    + intros x Hx Hne. by apply list_elem_of_filter.
    + intros x Hx Hne. by apply list_elem_of_filter.
  - intros Hnone. unfold deleteGroup.
    destruct (groupQueries.getMember db g (userId user)) as [m|] eqn:Hget; [|done].
    apply get_filter_Some in Hget as [[Hg Hu] Hm].
    case_bool_decide as Hrole; [|done].
    exfalso. apply Hnone. by exists m.
Qed.

Lemma deleteGroup_admin_only_witness :
  (∃ db1,
     deleteGroup sample_db (as_user ann) 1
       = (ok (Message "Group deleted successfully"), db1) ∧
     (∀ x, x ∈ groups db1 → Groups.id x ≠ 1) ∧
     (∀ x, x ∈ group_members db1 → GroupMembers.group_id x ≠ 1) ∧
     (∀ c, c ∈ group_comments db1 → GroupComments.group_id c ≠ 1) ∧
     (∀ x, x ∈ groups sample_db → Groups.id x ≠ 1 → x ∈ groups db1) ∧
     (∀ x, x ∈ group_members sample_db → GroupMembers.group_id x ≠ 1 →
           x ∈ group_members db1) ∧
     users db1 = users sample_db ∧ comments db1 = comments sample_db) ∧
  deleteGroup sample_db (as_user bo) 1
    = (fail 403 "Only admins can delete groups", sample_db).
Proof.
  split.
  - apply (deleteGroup_admin_only sample_db (as_user ann) 1).
    + apply (bool_decide_unpack _). vm_compute. exact I.
    + exists (GroupMembers.mk 1 1 1 admin accepted 150).
      split; [apply list_elem_of_In; simpl; tauto|done].
  - apply (deleteGroup_admin_only sample_db (as_user bo) 1).
    + apply (bool_decide_unpack _). vm_compute. exact I.
    + intros (m & Hm & _ & Hu & Hrole). apply list_elem_of_In in Hm. simpl in Hm.
      destruct Hm as [<-|[<-|[<-|[]]]]; discriminate.
Defined.

Lemma login_needs_credentials_witness :
  ∃ u email password,
    LoginBody.email (LoginBody.mk (Some "ann@x.com") (Some "h1")) = Some email ∧
    LoginBody.password (LoginBody.mk (Some "ann@x.com") (Some "h1")) = Some password ∧
    u ∈ users sample_db ∧ Users.email u = email ∧
    String.eqb (Users.password u) ("$2a$10$" +:+ password) = true ∧
    1 = Users.id u.
Proof.
  apply (proj1 (login_needs_credentials
                  (λ password hash, String.eqb hash ("$2a$10$" +:+ password))
                  sample_sign "k" sample_db
                  (LoginBody.mk (Some "ann@x.com") (Some "h1")))
           (mkAuth "ann.token" 1 "Ann" (Some "ann") "ann@x.com" (Some 0))).
  reflexivity.
Defined.
